(** * Hybrid chunking pipeline: document analyzer, structural and agentic
      chunkers, and the chunking coordinator.

    A shallow embedding of
      - src/services/document_analyzer.py
      - src/services/structural_chunker.py   (validate_chunks)
      - src/services/agentic_chunker.py
      - src/services/chunking_service.py

    Conventions of the embedding.
      - Python [int] is [Z]; a [len(...)] or a count is a [nat] injected
        into [Z] or [Q] where the code does arithmetic with it.
      - Python [float] is an exact rational [Q]; equalities between floats
        are stated with [==].  The tests the code makes on counts (a ratio
        of two counts against 0.8 or 0.3, a count against 0.3 or 0.2 times
        a length) have the same outcome in binary floating point as in
        exact arithmetic.
      - Python [str] is [string]; its characters are the code points 0..255.
      - A [Dict[str, Any]] is a [gmap string pyval].
      - [raise] / [try ... except Exception] is the error part of the monad
        [M]; the state part counts the calls made to the collaborators (PDF
        library, structural chunker, OCR service, generative agent, clock),
        whose answers are given by an environment [Env].
      - A pydantic model checks its required fields when it is built: a
        call that leaves one out raises, with the text the environment
        gives for it; a model has no [obj[key]]. *)

From Stdlib Require Import ZArith QArith Qminmax Qround List String Ascii Lia.
From Stdlib Require Import Sorting Permutation DecimalString Lqa.
From stdpp Require Import gmap strings list.

#[local] Set Warnings "-register-all".
#[local] Open Scope Z_scope.

(** ** Python values and strings *)

Inductive pyval :=
| PNone
| PStr (s : string)
| PInt (z : Z)
| PFloat (q : Q)
| PBool (b : bool)
| PList (l : list pyval)
| PDict (d : gmap string pyval).

Module PyStr.

  (** [str.isspace] on the code points below 256. *)
Definition isspace (c : ascii) : bool :=
    let n := N_of_ascii c in
    (((9 <=? n) && (n <=? 13)) || ((28 <=? n) && (n <=? 32))
     || (n =? 133) || (n =? 160))%N.

Definition is_empty (s : string) : bool :=
    match s with EmptyString => true | String _ _ => false end.

Definition len (s : string) : Z := Z.of_nat (String.length s).

Fixpoint lstrip (s : string) : string :=
    match s with
    | EmptyString => EmptyString
    | String c s' => if isspace c then lstrip s' else s
    end.

Fixpoint rstrip (s : string) : string :=
    match s with
    | EmptyString => EmptyString
    | String c s' =>
        let r := rstrip s' in
        if isspace c && is_empty r then EmptyString else String c r
    end.

  (** [s.strip()] *)
Definition strip (s : string) : string := lstrip (rstrip s).

Definition cons_word (w : string) (ws : list string) : list string :=
    if is_empty w then ws else w :: ws.

Fixpoint split_go (s : string) : string * list string :=
    match s with
    | EmptyString => (EmptyString, [])
    | String c s' =>
        let '(w, ws) := split_go s' in
        if isspace c then (EmptyString, cons_word w ws) else (String c w, ws)
    end.

  (** [s.split()]: the maximal runs of non-whitespace characters. *)
Definition split (s : string) : list string :=
    let '(w, ws) := split_go s in cons_word w ws.

  (** [s.split(d)] for a one-character separator [d]. *)
Fixpoint split_on (d : ascii) (s : string) : list string :=
    match s with
    | EmptyString => [EmptyString]
    | String c s' =>
        if Ascii.eqb c d then EmptyString :: split_on d s'
        else match split_on d s' with
             | w :: ws => String c w :: ws
             | [] => [String c EmptyString]
             end
    end.

  (** [sep.join(l)] *)
Fixpoint join (sep : string) (l : list string) : string :=
    match l with
    | [] => EmptyString
    | [w] => w
    | w :: l' => w ++ sep ++ join sep l'
    end.

  (** [s.endswith(d)] for a one-character suffix [d]. *)
Fixpoint endswith (d : ascii) (s : string) : bool :=
    match s with
    | EmptyString => false
    | String c EmptyString => Ascii.eqb c d
    | String _ s' => endswith d s'
    end.

  (** [str(z)] for an integer. *)
Definition of_Z (z : Z) : string := NilZero.string_of_int (Z.to_int z).

  (** [''.join(parts)] *)
Definition concat (parts : list string) : string :=
    fold_right String.append EmptyString parts.

End PyStr.

(** ** Floats *)

Module PyFloat.

  #[local] Open Scope Q_scope.

  (** [int(x)]: truncation towards zero. *)
Definition to_int (x : Q) : Z := Z.quot (Qnum x) (Zpos (Qden x)).

  (** [a / b] on two integers. *)
Definition div (a b : Z) : Q := inject_Z a / inject_Z b.

  (** [sum(l)] *)
Definition sum (l : list Q) : Q := fold_left Qplus l 0.

Definition ltb (a b : Q) : bool := negb (Qle_bool b a).
Definition leb (a b : Q) : bool := Qle_bool a b.

Definition min (a b : Q) : Q := if ltb b a then b else a.
Definition max (a b : Q) : Q := if ltb a b then b else a.

  (** [round(x, digits)]: to the nearest multiple of 10^-digits, ties to
      the even one. *)
Definition round (x : Q) (digits : nat) : Q :=
    let scale := inject_Z (10 ^ Z.of_nat digits) in
    let y := x * scale in
    let n := Qfloor y in
    let frac := y - inject_Z n in
    let up :=
      if ltb frac (1 # 2) then false
      else if ltb (1 # 2) frac then true
      else Z.odd n in
    inject_Z (if up then n + 1 else n)%Z / scale.

End PyFloat.

(** ** Lists *)

Module PyList.

  (** [range(a, b)] *)
Definition range (a b : Z) : list Z :=
    map (fun i => a + Z.of_nat i) (seq 0 (Z.to_nat (b - a))).

Section Sorted.
Context {A : Type} (key : A -> Z).

    (** [x] goes in front of the first element whose key is not smaller:
        the elements already placed came later in the input, so equal keys
        keep their input order. *)
Fixpoint insert_by (x : A) (l : list A) : list A :=
      match l with
      | [] => [x]
      | y :: l' => if key x <=? key y then x :: l else y :: insert_by x l'
      end.

    (** [sorted(l, key=key)]: a stable sort. *)
Definition sorted (l : list A) : list A := fold_right insert_by [] l.
End Sorted.

Definition mem (x : Z) (l : list Z) : bool := existsb (Z.eqb x) l.

  (** [list(set(l))] followed by a sort only needs the distinct elements;
      the first occurrence of each is kept. *)
Fixpoint distinct (l : list Z) : list Z :=
    match l with
    | [] => []
    | x :: l' => x :: List.filter (fun y => negb (Z.eqb x y)) (distinct l')
    end.

  (** [sum(1 for x in l if p x)] *)
Definition count {A} (p : A -> bool) (l : list A) : Z :=
    Z.of_nat (length (List.filter p l)).

End PyList.

(** ** Dictionaries *)

Definition default_val {A} (o : option A) (d : A) : A :=
  match o with Some a => a | None => d end.

Module PyDict.

(** A dictionary display [{k1: v1, ...}]. *)
Definition dict (items : list (string * pyval)) : gmap string pyval :=
  list_to_map items.

(** [d.update(new)]: the entries of [new] win. *)
Definition update (d new : gmap string pyval) : gmap string pyval := new ∪ d.

(** [d.get(key, default)] *)
Definition get (d : gmap string pyval) (key : string) (default : pyval)
  : pyval := default_val (d !! key) default.

(** A counter [counts[k] = counts.get(k, 0) + 1], kept in insertion order
    because [max] below returns the first maximal item. *)
Fixpoint incr (k : string) (counts : list (string * Z)) : list (string * Z) :=
  match counts with
  | [] => [(k, 1)]
  | (k', n) :: counts' =>
      if String.eqb k k' then (k', n + 1) :: counts'
      else (k', n) :: incr k counts'
  end.

(** [max(counts.items(), key=lambda x: x[1])] *)
Definition max_by_value (counts : list (string * Z)) : option (string * Z) :=
  fold_left
    (fun best item =>
       match best with
       | None => Some item
       | Some b => if snd b <? snd item then Some item else Some b
       end)
    counts None.

End PyDict.

(** ** Exceptions *)

Inductive exc (A : Type) :=
| Return (a : A)
| Raise (msg : string).
Arguments Return {A} a.
Arguments Raise {A} msg.

(** ** Data model *)

Inductive DocumentType := NATIVE | SCANNED | MIXED.

Inductive ProcessingPath := STRUCTURAL | OCR_AGENTIC.

(** The human-readable decision factors, before they are rendered to text. *)
Inductive decision_factor :=
| TextPagesFactor (text_page_ratio : Q)
| OcrPagesFactor (ocr_page_ratio : Q)
| MixedFactor (text_page_ratio ocr_page_ratio : Q)
| AvgReadabilityFactor (avg_readability : Q)
| AvgDensityFactor (avg_text_density : Q)
| AnalysisFailedFactor (error_message : string)
| DefaultOcrFactor.

Module PageAnalysis.
Record t := mk {
    page_number : Z;
    has_text : bool;
    text_density : Q;
    text_length : Z;
    estimated_readability : Q;
    requires_ocr : bool }.
End PageAnalysis.

Module DocumentAnalysisResult.
Record t := mk {
    document_type : DocumentType;
    processing_path : ProcessingPath;
    confidence : Q;
    total_pages : Z;
    pages_with_text : Z;
    pages_requiring_ocr : Z;
    page_analyses : list PageAnalysis.t;
    analysis_method : string;
    decision_factors : list decision_factor }.
End DocumentAnalysisResult.

Module OCRResult.
Record t := mk {
    text : string;
    confidence : Q;
    language_detected : string;
    page_number : Z;
    processing_time_ms : Z;
    preprocessing_applied : gmap string bool;
    raw_confidence_data : option (gmap string pyval) }.
End OCRResult.

Module ChildChunk.
Record t := mk {
    content : string;
    sequence_number : Z;
    semantic_role : string }.
End ChildChunk.

Module ParentChunk.
Record t := mk {
    content : string;
    thematic_summary : string;
    confidence_score : Q;
    child_chunks : list ChildChunk.t }.
End ParentChunk.

Module ChunkingResult.
Record t := mk {
    parent_chunks : list ParentChunk.t;
    processing_metadata : gmap string pyval }.
End ChunkingResult.

Module StructuralChunkData.
Record t := mk {
    content : string;
    page_number : option Z;
    chapter_title : option string;
    section_title : option string;
    chunk_size : Z;
    overlap_size : option Z }.
End StructuralChunkData.

Module StructuralChunkingResult.
Record t := mk {
    parent_chunks : list StructuralChunkData.t;
    child_chunks : list (list StructuralChunkData.t);
    processing_metadata : gmap string pyval }.
End StructuralChunkingResult.

(** The coordinator's outcome. *)
Module HybridChunkingResult.
Record t := mk {
    document_analysis : DocumentAnalysisResult.t;
    processing_path_used : ProcessingPath;
    fallback_occurred : bool;
    fallback_reason : option string;
    parent_chunks : list (gmap string pyval);
    child_chunks : list (gmap string pyval);
    processing_time_seconds : Q;
    ocr_metrics : option (gmap string pyval);
    agentic_metrics : option (gmap string pyval);
    quality_score : Q;
    confidence_score : Q;
    metadata : gmap string pyval }.

(** The keyword arguments of a call [HybridChunkingResult(...)]: [None]
    for an argument that the call leaves out. *)
Record kwargs := given {
    document_analysis_arg : option DocumentAnalysisResult.t;
    processing_path_used_arg : option ProcessingPath;
    fallback_occurred_arg : option bool;
    fallback_reason_arg : option string;
    parent_chunks_arg : option (list (gmap string pyval));
    child_chunks_arg : option (list (gmap string pyval));
    processing_time_seconds_arg : option Q;
    ocr_metrics_arg : option (gmap string pyval);
    agentic_metrics_arg : option (gmap string pyval);
    quality_score_arg : option Q;
    confidence_score_arg : option Q;
    metadata_arg : option (gmap string pyval) }.

(** The model built from the keyword arguments: the seven fields declared
    without a default are required, the other five have their defaults
    ([False], [None], [None], [None], [{}]). *)
Definition validated (k : kwargs) : option t :=
  match document_analysis_arg k, processing_path_used_arg k,
        parent_chunks_arg k, child_chunks_arg k,
        processing_time_seconds_arg k, quality_score_arg k,
        confidence_score_arg k with
  | Some document_analysis, Some processing_path_used, Some parent_chunks,
    Some child_chunks, Some processing_time_seconds, Some quality_score,
    Some confidence_score =>
      Some (mk document_analysis processing_path_used
              (default_val (fallback_occurred_arg k) false)
              (fallback_reason_arg k) parent_chunks child_chunks
              processing_time_seconds (ocr_metrics_arg k)
              (agentic_metrics_arg k) quality_score confidence_score
              (default_val (metadata_arg k) ∅))
  | _, _, _, _, _, _, _ => None
  end.
End HybridChunkingResult.

(** ** Collaborators *)

(** A page of an opened PDF: its extractable text and its rectangle. *)
Record PdfPage := {
  get_text : string;
  rect_width : Q;
  rect_height : Q }.

(** An opened PDF: [len(doc)] is the length of the list, [load_page]
    may fail on a damaged page. *)
Definition PdfDoc := list (exc PdfPage).

(** What one run of the generative agent gives back. *)
Inductive AgentReply :=
| AgentData (data : ChunkingResult.t)
| AgentOther
| AgentTimeout
| AgentError (msg : string).

(** The answers of the collaborators; the [nat] is the number of earlier
    calls to the same collaborator.  [validation_error] is the text of the
    [ValidationError] that pydantic raises for a [HybridChunkingResult(...)]
    call whose keyword arguments leave out a required field. *)
Record Env := {
  clock : nat -> Q;
  fitz_open : string -> nat -> exc PdfDoc;
  structural_chunker_process_document :
    string -> Z -> nat -> exc StructuralChunkingResult.t;
  ocr_service_extract_text_from_pdf : string -> nat -> exc (list OCRResult.t);
  agent_run : string -> gmap string pyval -> nat -> AgentReply;
  validation_error : HybridChunkingResult.kwargs -> string }.

(** [HybridChunkingResult(...)] *)
Definition new_HybridChunkingResult (env : Env)
  (k : HybridChunkingResult.kwargs) : exc HybridChunkingResult.t :=
  match HybridChunkingResult.validated k with
  | Some result => Return result
  | None => Raise (validation_error env k)
  end.

(** [obj[key]] on a pydantic model: [BaseModel] defines no
    [__getitem__], so the subscript raises a [TypeError]. *)
Definition subscript_model {A B} (class_name : string) (obj : A)
  (key : string) : exc B :=
  Raise ("'" +:+ class_name +:+ "' object is not subscriptable").

Record World := {
  clock_reads : nat;
  pdf_opens : nat;
  structural_calls : nat;
  ocr_calls : nat;
  agent_calls : nat;
  slept : list Z }.

Definition initial_world : World :=
  {| clock_reads := 0; pdf_opens := 0; structural_calls := 0;
     ocr_calls := 0; agent_calls := 0; slept := [] |}.

(** ** The monad of effects *)

Definition M (A : Type) : Type := World -> exc A * World.

Definition ret {A} (a : A) : M A := fun w => (Return a, w).

Definition raise {A} (msg : string) : M A := fun w => (Raise msg, w).

Definition bind {A B} (m : M A) (k : A -> M B) : M B :=
  fun w =>
    match m w with
    | (Return a, w') => k a w'
    | (Raise msg, w') => (Raise msg, w')
    end.

(** [try: m except Exception as e: handler(str(e))] *)
Definition try_except {A} (m : M A) (handler : string -> M A) : M A :=
  fun w =>
    match m w with
    | (Return a, w') => (Return a, w')
    | (Raise msg, w') => handler msg w'
    end.

Definition lift {A} (r : exc A) : M A := fun w => (r, w).

Notation "x <- m ;; k" := (bind m (fun x => k))
  (at level 100, m at next level, right associativity).

Fixpoint mapM {A B} (f : A -> M B) (l : list A) : M (list B) :=
  match l with
  | [] => ret []
  | x :: l' => y <- f x ;; ys <- mapM f l' ;; ret (y :: ys)
  end.

Section Primitives.
Variable env : Env.

  (** [time.time()] *)
Definition time_time : M Q := fun w =>
    (Return (clock env (clock_reads w)),
     {| clock_reads := S (clock_reads w); pdf_opens := pdf_opens w;
        structural_calls := structural_calls w; ocr_calls := ocr_calls w;
        agent_calls := agent_calls w; slept := slept w |}).

  (** [fitz.open(pdf_path)] *)
Definition open_pdf (pdf_path : string) : M PdfDoc := fun w =>
    (fitz_open env pdf_path (pdf_opens w),
     {| clock_reads := clock_reads w; pdf_opens := S (pdf_opens w);
        structural_calls := structural_calls w; ocr_calls := ocr_calls w;
        agent_calls := agent_calls w; slept := slept w |}).

  (** [self.structural_chunker.process_document(pdf_path, textbook_id)] *)
Definition call_structural_chunker (pdf_path : string) (textbook_id : Z)
    : M StructuralChunkingResult.t := fun w =>
    (structural_chunker_process_document env pdf_path textbook_id
       (structural_calls w),
     {| clock_reads := clock_reads w; pdf_opens := pdf_opens w;
        structural_calls := S (structural_calls w); ocr_calls := ocr_calls w;
        agent_calls := agent_calls w; slept := slept w |}).

  (** [self.ocr_service.extract_text_from_pdf(pdf_path)] *)
Definition call_ocr_service (pdf_path : string) : M (list OCRResult.t) :=
    fun w =>
    (ocr_service_extract_text_from_pdf env pdf_path (ocr_calls w),
     {| clock_reads := clock_reads w; pdf_opens := pdf_opens w;
        structural_calls := structural_calls w; ocr_calls := S (ocr_calls w);
        agent_calls := agent_calls w; slept := slept w |}).

  (** [asyncio.wait_for(self.agent.run(prompt), timeout)]; the prompt is a
      rendering of the text and the context. *)
Definition call_agent (text : string) (context : gmap string pyval)
    : M AgentReply := fun w =>
    (Return (agent_run env text context (agent_calls w)),
     {| clock_reads := clock_reads w; pdf_opens := pdf_opens w;
        structural_calls := structural_calls w; ocr_calls := ocr_calls w;
        agent_calls := S (agent_calls w); slept := slept w |}).

  (** [asyncio.sleep(seconds)] *)
Definition asyncio_sleep (seconds : Z) : M unit := fun w =>
    (Return tt,
     {| clock_reads := clock_reads w; pdf_opens := pdf_opens w;
        structural_calls := structural_calls w; ocr_calls := ocr_calls w;
        agent_calls := agent_calls w; slept := slept w ++ [seconds] |}).
End Primitives.

(** ** document_analyzer.py *)

Module DocumentAnalyzer.

(** The thresholds set in [__init__]. *)
Definition text_density_threshold : Z := 50.
Definition native_page_threshold : Q := 0.8.
Definition mixed_threshold : Q := 0.3.
Definition min_text_length : Z := 50.
Definition sample_size_limit : Z := 5.

Definition _determine_sample_pages (total_pages : Z) : list Z :=
  if total_pages <=? sample_size_limit then PyList.range 0 total_pages
  else
    let sample_pages := [0; total_pages - 1] in
    let remaining_samples := sample_size_limit - 2 in
    let sample_pages :=
      if 0 <? remaining_samples then
        let step := Z.max 1 (total_pages / (remaining_samples + 1)) in
        fold_left
          (fun sample_pages i =>
             let page_num := Z.min (i * step) (total_pages - 2) in
             if PyList.mem page_num sample_pages then sample_pages
             else sample_pages ++ [page_num])
          (PyList.range 1 (remaining_samples + 1)) sample_pages
      else sample_pages in
    PyList.sorted (fun x => x) (PyList.distinct sample_pages).

(** The [if / elif / else] that picks type, path and confidence from the
    two ratios (the confidence here is the one before the readability
    adjustment). *)
Definition classify_by_ratio (text_page_ratio ocr_page_ratio : Q)
  : DocumentType * ProcessingPath * Q * list decision_factor :=
  if PyFloat.leb native_page_threshold text_page_ratio then
    (NATIVE, STRUCTURAL,
     PyFloat.min 0.95 (0.5 + text_page_ratio * 0.5)%Q,
     [TextPagesFactor text_page_ratio])
  else if PyFloat.leb text_page_ratio mixed_threshold then
    (SCANNED, OCR_AGENTIC,
     PyFloat.min 0.95 (0.5 + ocr_page_ratio * 0.5)%Q,
     [OcrPagesFactor ocr_page_ratio])
  else
    (MIXED, OCR_AGENTIC, 0.7%Q, [MixedFactor text_page_ratio ocr_page_ratio]).

(** The [if page_analyses:] block that adjusts the confidence by the mean
    readability. *)
Definition adjust_by_quality (page_analyses : list PageAnalysis.t)
  (confidence : Q) : Q * list decision_factor :=
  match page_analyses with
  | [] => (confidence, [])
  | _ :: _ =>
      let n := inject_Z (Z.of_nat (length page_analyses)) in
      let avg_readability :=
        (PyFloat.sum (map PageAnalysis.estimated_readability page_analyses)
         / n)%Q in
      let avg_text_density :=
        (PyFloat.sum (map PageAnalysis.text_density page_analyses) / n)%Q in
      let confidence :=
        if PyFloat.ltb 0.8 avg_readability then
          PyFloat.min 0.98 (confidence + 0.1)%Q
        else if PyFloat.ltb avg_readability 0.3 then
          PyFloat.max 0.5 (confidence - 0.1)%Q
        else confidence in
      (confidence,
       [AvgReadabilityFactor avg_readability;
        AvgDensityFactor avg_text_density])
  end.

(** The two ratios computed at the top of [_classify_document]. *)
Definition text_page_ratio (page_analyses : list PageAnalysis.t) : Q :=
  match page_analyses with
  | [] => 0%Q
  | _ :: _ =>
      PyFloat.div (PyList.count PageAnalysis.has_text page_analyses)
        (Z.of_nat (length page_analyses))
  end.

Definition ocr_page_ratio (page_analyses : list PageAnalysis.t) : Q :=
  match page_analyses with
  | [] => 1%Q
  | _ :: _ =>
      PyFloat.div (PyList.count PageAnalysis.requires_ocr page_analyses)
        (Z.of_nat (length page_analyses))
  end.

Definition _classify_document (page_analyses : list PageAnalysis.t)
  (total_pages : Z) : DocumentAnalysisResult.t :=
  let pages_with_text := PyList.count PageAnalysis.has_text page_analyses in
  let '(doc_type, processing_path, confidence, decision_factors) :=
    classify_by_ratio (text_page_ratio page_analyses)
      (ocr_page_ratio page_analyses) in
  let '(confidence, quality_factors) :=
    adjust_by_quality page_analyses confidence in
  let estimated_text_pages :=
    match page_analyses with
    | [] => 0
    | _ :: _ =>
        PyFloat.to_int
          (PyFloat.div (pages_with_text * total_pages)
             (Z.of_nat (length page_analyses)))
    end in
  let estimated_ocr_pages := total_pages - estimated_text_pages in
  DocumentAnalysisResult.mk doc_type processing_path
    (PyFloat.round confidence 3) total_pages estimated_text_pages
    estimated_ocr_pages page_analyses
    (if Z.of_nat (length page_analyses) <? total_pages
     then "sampling" else "complete")
    (decision_factors ++ quality_factors).

Definition _create_fallback_result (error_message : string)
  : DocumentAnalysisResult.t :=
  DocumentAnalysisResult.mk SCANNED OCR_AGENTIC 0.3%Q 1 0 1 []
    "fallback" [AnalysisFailedFactor error_message; DefaultOcrFactor].

Section WithDocument.
Variable env : Env.

(** The text heuristics of [_analyze_page]; the classification does not
    look inside them. *)
Variable _has_meaningful_text : string -> bool.
Variable _estimate_readability : string -> Q.

(** [doc.load_page(page_num)] *)
Definition load_page (doc : PdfDoc) (page_num : Z) : M PdfPage :=
  match doc !! Z.to_nat page_num with
  | Some page => lift page
  | None => raise "page not in document"
  end.

Definition _analyze_page (doc : PdfDoc) (page_num : Z) : M PageAnalysis.t :=
  page <- load_page doc page_num ;;
  let text := PyStr.strip (get_text page) in
  let text_length := PyStr.len text in
  let page_area := (rect_width page * rect_height page)%Q in
  let text_density :=
    if PyFloat.ltb 0 page_area
    then (inject_Z (text_length * 1000) / page_area)%Q else 0%Q in
  let has_meaningful_text := _has_meaningful_text text in
  let readability := _estimate_readability text in
  let requires_ocr := negb has_meaningful_text in
  ret (PageAnalysis.mk (page_num + 1) has_meaningful_text
         (PyFloat.round text_density 2) text_length readability requires_ocr).

(** The statements under [try:] in [analyze_pdf_type]. *)
Definition analyze_pdf_type_try (pdf_path : string)
  : M DocumentAnalysisResult.t :=
  doc <- open_pdf env pdf_path ;;
  let total_pages := Z.of_nat (length doc) in
  let pages_to_analyze := _determine_sample_pages total_pages in
  page_analyses <- mapM (_analyze_page doc) pages_to_analyze ;;
  ret (_classify_document page_analyses total_pages).

Definition analyze_pdf_type (pdf_path : string) : M DocumentAnalysisResult.t :=
  try_except (analyze_pdf_type_try pdf_path)
    (fun e => ret (_create_fallback_result e)).

End WithDocument.

End DocumentAnalyzer.

(** ** structural_chunker.py *)

Module StructuralChunker.

Definition parent_chunk_size : Z := 1000.
Definition child_chunk_size : Z := 300.
Definition chunk_overlap : Z := 50.

(** [min(sizes)] and [max(sizes)] of a non-empty list given by its head
    and tail. *)
Definition py_min (x : Z) (l : list Z) : Z := fold_left Z.min l x.
Definition py_max (x : Z) (l : list Z) : Z := fold_left Z.max l x.

Definition validate_chunks (parent_chunks : list StructuralChunkData.t)
  : gmap string pyval :=
  match map StructuralChunkData.chunk_size parent_chunks with
  | [] => PyDict.dict [("valid", PBool false); ("reason", PStr "no_chunks_created")]
  | (s0 :: rest) as sizes =>
      let n := Z.of_nat (length sizes) in
      let avg_size := PyFloat.div (fold_left Z.add sizes 0) n in
      let too_small := PyList.count (fun s => s <? 100) sizes in
      let too_large := PyList.count (fun s => 2000 <? s) sizes in
      let validation_result :=
        PyDict.dict [("valid", PBool true);
              ("total_chunks", PInt (Z.of_nat (length parent_chunks)));
              ("average_size", PFloat avg_size);
              ("min_size", PInt (py_min s0 rest));
              ("max_size", PInt (py_max s0 rest));
              ("chunks_too_small", PInt too_small);
              ("chunks_too_large", PInt too_large);
              ("size_distribution",
               PStr (if PyFloat.ltb (inject_Z (too_small + too_large))
                          (inject_Z n * 0.2)%Q
                     then "good" else "poor"))] in
      if PyFloat.ltb (inject_Z n * 0.3)%Q (inject_Z (too_small + too_large))
      then <["reason" := PStr "poor_size_distribution"]>
             (<["valid" := PBool false]> validation_result)
      else validation_result
  end.

End StructuralChunker.

(** ** agentic_chunker.py *)

Module AgenticChunker.

Definition model_name : string := "gemini-2.5-flash".
Definition max_retries : Z := 3.
Definition timeout_seconds : Z := 120.
Definition target_parent_chunk_size : Z := 500.
Definition max_child_chunks_per_parent : Z := 10.

Definition nl : string := String "010"%char EmptyString.

(** What the loop of [_combine_ocr_results] appends for one page. *)
Definition page_parts (multi_page : bool) (ocr_result : OCRResult.t)
  : list string :=
  if PyStr.is_empty (PyStr.strip (OCRResult.text ocr_result)) then []
  else
    (if multi_page
     then [nl +:+ "--- Page "
           +:+ PyStr.of_Z (OCRResult.page_number ocr_result)
           +:+ " ---" +:+ nl]
     else [])
    ++ [OCRResult.text ocr_result; nl +:+ nl].

Definition _combine_ocr_results (ocr_results : list OCRResult.t) : string :=
  let multi_page := 1 <? Z.of_nat (length ocr_results) in
  PyStr.strip
    (PyStr.concat
       (flat_map (page_parts multi_page)
          (PyList.sorted OCRResult.page_number ocr_results))).

(** The language counter of [_prepare_context]. *)
Definition language_counts (ocr_results : list OCRResult.t)
  : list (string * Z) :=
  fold_left (fun counts r => PyDict.incr (OCRResult.language_detected r) counts)
    ocr_results [].

(** The per-chunk checks of [_assess_chunk_quality]. *)
Definition chunk_issues (chunk : ParentChunk.t) : list string :=
  (if PyStr.len (ParentChunk.content chunk) <? 50 then ["chunk_too_small"]
   else if 1500 <? PyStr.len (ParentChunk.content chunk)
        then ["chunk_too_large"] else [])
  ++
  (match ParentChunk.child_chunks chunk with
   | [] => ["no_child_chunks"]
   | children =>
       if max_child_chunks_per_parent <? Z.of_nat (length children)
       then ["too_many_child_chunks"] else []
   end).

Definition _assess_chunk_quality (result : ChunkingResult.t)
  : gmap string pyval :=
  match ChunkingResult.parent_chunks result with
  | [] =>
      PyDict.dict [("overall_quality", PStr "poor");
                   ("issues", PList [PStr "no_chunks_created"])]
  | parent_chunks =>
      let issues := flat_map chunk_issues parent_chunks in
      let quality_scores := map ParentChunk.confidence_score parent_chunks in
      let avg_quality :=
        (PyFloat.sum quality_scores
         / inject_Z (Z.of_nat (length quality_scores)))%Q in
      let overall_quality :=
        if PyFloat.ltb 0.8 avg_quality && bool_decide (issues = []) then
          "excellent"
        else if PyFloat.ltb 0.6 avg_quality
                && (Z.of_nat (length issues) <=? 2) then "good"
        else if PyFloat.ltb 0.4 avg_quality then "acceptable"
        else "poor" in
      PyDict.dict
        [("overall_quality", PStr overall_quality);
         ("average_confidence", PFloat avg_quality);
         ("issues", PList (map PStr (remove_dups issues)));
         ("requires_fallback",
          PBool (String.eqb overall_quality "poor"
                 || bool_decide ("no_chunks_created" ∈ issues)))]
  end.

(** The child chunks cut out of a chunk of the fallback splitter. *)
Definition sentence_children (chunk_text : string) : list ChildChunk.t :=
  let sentences :=
    List.filter (fun s => negb (PyStr.is_empty s))
      (map PyStr.strip (PyStr.split_on "." chunk_text)) in
  imap
    (fun i sentence =>
       ChildChunk.mk
         (if PyStr.endswith "." sentence then sentence else sentence +:+ ".")
         (Z.of_nat i + 1) "main_point")
    (take (Z.to_nat max_child_chunks_per_parent) sentences).

(** One turn of the [for word in words] loop of
    [_create_simple_fallback_chunks], on the pair
    [(chunks, current_chunk_words)]. *)
Definition fallback_step (st : list ParentChunk.t * list string)
  (word : string) : list ParentChunk.t * list string :=
  let '(chunks, current_chunk_words) := st in
  let current_chunk_words := current_chunk_words ++ [word] in
  let current_text := PyStr.join " " current_chunk_words in
  if (target_parent_chunk_size <=? PyStr.len current_text)
     || PyStr.endswith "." word then
    if 100 <=? PyStr.len current_text then
      let chunk_text := PyStr.strip current_text in
      let child_chunks := sentence_children chunk_text in
      let parent_chunk :=
        ParentChunk.mk chunk_text
          ("Content section " +:+ PyStr.of_Z (Z.of_nat (length chunks) + 1))
          0.6%Q child_chunks in
      (chunks ++ [parent_chunk], [])
    else (chunks, current_chunk_words)
  else (chunks, current_chunk_words).

(** The [if current_chunk_words:] block after the loop. *)
Definition fallback_remaining (st : list ParentChunk.t * list string)
  : list ParentChunk.t :=
  let '(chunks, current_chunk_words) := st in
  match current_chunk_words with
  | [] => chunks
  | _ :: _ =>
      let remaining_text :=
        PyStr.strip (PyStr.join " " current_chunk_words) in
      if 50 <=? PyStr.len remaining_text then
        chunks ++
        [ParentChunk.mk remaining_text "Final content section" 0.5%Q
           [ChildChunk.mk remaining_text 1 "conclusion"]]
      else chunks
  end.

(** [f"{value:.1f}"]: an [int], a [float] or a [bool] is rendered; for
    any other value the format code raises, with these texts. *)
Definition format_1f_error (value : pyval) : option string :=
  match value with
  | PInt _ | PFloat _ | PBool _ => None
  | PStr _ => Some "Unknown format code 'f' for object of type 'str'"
  | PNone => Some "unsupported format string passed to NoneType.__format__"
  | PList _ => Some "unsupported format string passed to list.__format__"
  | PDict _ => Some "unsupported format string passed to dict.__format__"
  end.

(** [_create_chunking_prompt]: the f-string renders the text and six
    entries of the context, each read with [context.get]; only the
    average confidence has a format code.  The prompt is kept as the pair
    of the text and the context it is rendered from. *)
Definition _create_chunking_prompt (text : string)
  (context : gmap string pyval) : exc (string * gmap string pyval) :=
  match format_1f_error
          (PyDict.get context "average_ocr_confidence" (PInt 0)) with
  | Some msg => Raise msg
  | None => Return (text, context)
  end.

(** The result of [_chunk_with_retry]: the agent's [data] when it is a
    [ChunkingResult], else the raw run result. *)
Inductive AgentValue :=
| IsChunkingResult (data : ChunkingResult.t)
| RunResult.

Section WithAgent.
Variable env : Env.

Definition _create_empty_result (reason : string) : M ChunkingResult.t :=
  timestamp <- time_time env ;;
  ret (ChunkingResult.mk []
         (PyDict.dict [("status", PStr "empty");
                       ("reason", PStr reason);
                       ("timestamp", PFloat timestamp)])).

Definition _create_simple_fallback_chunks (text : string)
  : M ChunkingResult.t :=
  match PyStr.split text with
  | [] => _create_empty_result "No words found"
  | words =>
      let chunks := fallback_remaining (fold_left fallback_step words ([], [])) in
      timestamp <- time_time env ;;
      ret (ChunkingResult.mk chunks
             (PyDict.dict [("status", PStr "fallback");
                           ("method", PStr "simple_splitting");
                           ("total_chunks", PInt (Z.of_nat (length chunks)));
                           ("timestamp", PFloat timestamp)]))
  end.

Definition _create_fallback_result (ocr_results : list OCRResult.t)
  (error : string) : M ChunkingResult.t :=
  let combined_text := _combine_ocr_results ocr_results in
  if PyStr.is_empty combined_text
  then _create_empty_result ("Fallback failed: " +:+ error)
  else _create_simple_fallback_chunks combined_text.

Definition _prepare_context (text : string) (ocr_results : list OCRResult.t)
  (page_context : option (gmap string pyval)) : M (gmap string pyval) :=
  match ocr_results with
  | [] => raise "division by zero"
  | _ :: _ =>
      let avg_confidence :=
        (PyFloat.sum (map OCRResult.confidence ocr_results)
         / inject_Z (Z.of_nat (length ocr_results)))%Q in
      let total_pages := Z.of_nat (length ocr_results) in
      let total_chars := PyStr.len text in
      let primary_language :=
        match PyDict.max_by_value (language_counts ocr_results) with
        | Some (lang, _) => lang
        | None => "unknown"
        end in
      let context :=
        PyDict.dict
          [("text_length", PInt total_chars);
           ("page_count", PInt total_pages);
           ("average_ocr_confidence", PFloat avg_confidence);
           ("primary_language", PStr primary_language);
           ("estimated_chunks_needed",
            PInt (Z.max 1 (total_chars / target_parent_chunk_size)));
           ("ocr_quality",
            PStr (if PyFloat.ltb 80 avg_confidence then "high"
                  else if PyFloat.ltb 60 avg_confidence then "medium"
                  else "low"))] in
      ret (match page_context with
           | Some extra => PyDict.update context extra
           | None => context
           end)
  end.

(** The [for attempt in range(1, self.max_retries + 1)] loop of
    [_chunk_with_retry], from the attempts still to make.  The prompt is
    built under the [try], so a context that cannot be rendered fails the
    attempt like an error of the agent. *)
Fixpoint retry_loop (text : string) (context : gmap string pyval)
  (attempts : list Z) (last_error : option string) : M AgentValue :=
  match attempts with
  | [] =>
      raise ("All chunking attempts failed. Last error: "
             +:+ default_val last_error "None")
  | attempt :: rest =>
      match _create_chunking_prompt text context with
      | Raise msg =>
          _ <- (if attempt <? max_retries
                then asyncio_sleep (2 ^ attempt) else ret tt) ;;
          retry_loop text context rest (Some msg)
      | Return prompt =>
          start_time <- time_time env ;;
          reply <- call_agent env (fst prompt) (snd prompt) ;;
          match reply with
          | AgentData data =>
              end_time <- time_time env ;;
              let processing_time := (end_time - start_time)%Q in
              ret (IsChunkingResult
                     (ChunkingResult.mk (ChunkingResult.parent_chunks data)
                        (PyDict.update
                           (ChunkingResult.processing_metadata data)
                           (PyDict.dict
                              [("processing_time_seconds",
                                PFloat processing_time);
                               ("attempt_number", PInt attempt);
                               ("model_used", PStr model_name);
                               ("context", PDict context)]))))
          | AgentOther =>
              end_time <- time_time env ;;
              ret RunResult
          | AgentTimeout =>
              retry_loop text context rest
                (Some ("Chunking timeout after "
                       +:+ PyStr.of_Z timeout_seconds +:+ "s"))
          | AgentError msg =>
              _ <- (if attempt <? max_retries
                    then asyncio_sleep (2 ^ attempt) else ret tt) ;;
              retry_loop text context rest (Some msg)
          end
      end
  end.

Definition _chunk_with_retry (text : string) (context : gmap string pyval)
  : M AgentValue :=
  retry_loop text context (PyList.range 1 (max_retries + 1)) None.

Definition _validate_and_enhance_result (result : AgentValue)
  (original_text : string) : M ChunkingResult.t :=
  match result with
  | RunResult => raise "object has no attribute 'parent_chunks'"
  | IsChunkingResult result =>
      match ChunkingResult.parent_chunks result with
      | [] => _create_simple_fallback_chunks original_text
      | parent_chunks =>
          let n := inject_Z (Z.of_nat (length parent_chunks)) in
          let total_chunk_length :=
            fold_left Z.add
              (map (fun chunk => PyStr.len (ParentChunk.content chunk))
                 parent_chunks) 0 in
          let coverage_ratio :=
            if PyStr.is_empty original_text then 0%Q
            else PyFloat.div total_chunk_length (PyStr.len original_text) in
          ret (ChunkingResult.mk parent_chunks
                 (PyDict.update (ChunkingResult.processing_metadata result)
                    (PyDict.dict
                       [("total_parent_chunks",
                         PInt (Z.of_nat (length parent_chunks)));
                        ("total_child_chunks",
                         PInt (fold_left Z.add
                                 (map (fun chunk =>
                                         Z.of_nat
                                           (length
                                              (ParentChunk.child_chunks chunk)))
                                    parent_chunks) 0));
                        ("coverage_ratio", PFloat coverage_ratio);
                        ("average_parent_chunk_size",
                         PFloat (inject_Z total_chunk_length / n)%Q);
                        ("average_confidence",
                         PFloat
                           (PyFloat.sum
                              (map ParentChunk.confidence_score parent_chunks)
                            / n)%Q);
                        ("quality_assessment",
                         PDict (_assess_chunk_quality result))])))
      end
  end.

(** The statements under [try:] in [chunk_ocr_content]. *)
Definition chunk_ocr_content_try (ocr_results : list OCRResult.t)
  (page_context : option (gmap string pyval)) : M ChunkingResult.t :=
  let combined_text := _combine_ocr_results ocr_results in
  if PyStr.is_empty (PyStr.strip combined_text)
  then _create_empty_result "No meaningful text content"
  else
    context <- _prepare_context combined_text ocr_results page_context ;;
    result <- _chunk_with_retry combined_text context ;;
    _validate_and_enhance_result result combined_text.

Definition chunk_ocr_content (ocr_results : list OCRResult.t)
  (page_context : option (gmap string pyval)) : M ChunkingResult.t :=
  try_except (chunk_ocr_content_try ocr_results page_context)
    (fun e => _create_fallback_result ocr_results e).

End WithAgent.

End AgenticChunker.

(** ** chunking_service.py *)

Module ChunkingService.

(** [str(RecursionError)]: the two path functions call each other from
    their [except] blocks, and the interpreter bounds the nesting. *)
Definition recursion_error : string := "maximum recursion depth exceeded".

(** [str(UnboundLocalError)] for the local name [ProcessingPath], in the
    wording of Python 3.11 and later (3.10 says: local variable
    'ProcessingPath' referenced before assignment). *)
Definition unbound_local_error : string :=
  "cannot access local variable 'ProcessingPath' where it is not associated with a value".

Definition DocumentType_value (t : DocumentType) : string :=
  match t with
  | NATIVE => "native"
  | SCANNED => "scanned"
  | MIXED => "mixed"
  end.

Definition opt_int (o : option Z) : pyval :=
  match o with Some z => PInt z | None => PNone end.

Definition opt_str (o : option string) : pyval :=
  match o with Some s => PStr s | None => PNone end.

(** [result.fallback_occurred = True; result.fallback_reason = reason] *)
Definition set_fallback (result : HybridChunkingResult.t) (reason : string)
  : HybridChunkingResult.t :=
  HybridChunkingResult.mk
    (HybridChunkingResult.document_analysis result)
    (HybridChunkingResult.processing_path_used result)
    true (Some reason)
    (HybridChunkingResult.parent_chunks result)
    (HybridChunkingResult.child_chunks result)
    (HybridChunkingResult.processing_time_seconds result)
    (HybridChunkingResult.ocr_metrics result)
    (HybridChunkingResult.agentic_metrics result)
    (HybridChunkingResult.quality_score result)
    (HybridChunkingResult.confidence_score result)
    (HybridChunkingResult.metadata result).

(** Step 4 of [process_document]: the three assignments to [result]. *)
Definition set_processing_info (result : HybridChunkingResult.t)
  (processing_time_seconds : Q) (document_analysis : DocumentAnalysisResult.t)
  (processing_path : ProcessingPath) : HybridChunkingResult.t :=
  HybridChunkingResult.mk
    document_analysis processing_path
    (HybridChunkingResult.fallback_occurred result)
    (HybridChunkingResult.fallback_reason result)
    (HybridChunkingResult.parent_chunks result)
    (HybridChunkingResult.child_chunks result)
    processing_time_seconds
    (HybridChunkingResult.ocr_metrics result)
    (HybridChunkingResult.agentic_metrics result)
    (HybridChunkingResult.quality_score result)
    (HybridChunkingResult.confidence_score result)
    (HybridChunkingResult.metadata result).

(** The [parent_data] and [child_data] dictionaries of the structural
    path. *)
Definition structural_parent_data (textbook_id : Z)
  (parent_chunk : StructuralChunkData.t) : gmap string pyval :=
  PyDict.dict
    [("content", PStr (StructuralChunkData.content parent_chunk));
     ("document_type", PStr "native");
     ("processing_path", PStr "structural");
     ("textbook_id", PInt textbook_id);
     ("page_number", opt_int (StructuralChunkData.page_number parent_chunk));
     ("chapter_title",
      opt_str (StructuralChunkData.chapter_title parent_chunk));
     ("chunk_size", PInt (PyStr.len (StructuralChunkData.content parent_chunk)));
     ("processing_metadata",
      PDict (PyDict.dict
               [("chunking_method", PStr "MarkdownHeaderTextSplitter");
                ("confidence", PFloat 0.9)]))].

Definition structural_child_data (j : nat) (child_chunk : StructuralChunkData.t)
  : gmap string pyval :=
  PyDict.dict
    [("content", PStr (StructuralChunkData.content child_chunk));
     ("sequence_number", PInt (Z.of_nat j + 1));
     ("embedding_model", PStr "bge-m3");
     ("embedding_dimension", PInt 1024);
     ("language_code", PStr "en");
     ("chunk_size", PInt (PyStr.len (StructuralChunkData.content child_chunk)));
     ("processing_metadata",
      PDict (PyDict.dict
               [("chunking_method", PStr "RecursiveCharacterTextSplitter");
                ("overlap_size",
                 opt_int (StructuralChunkData.overlap_size child_chunk))]))].

(** The two nested [for] loops of the structural path, from parent [i]
    on; the inner loop runs over [structural_result['child_chunks'][i]]. *)
Fixpoint structural_convert (textbook_id : Z)
  (structural_result : StructuralChunkingResult.t) (i : nat)
  (parents : list StructuralChunkData.t)
  : exc (list (gmap string pyval) * list (gmap string pyval)) :=
  match parents with
  | [] => Return ([], [])
  | parent_chunk :: parents' =>
      match subscript_model "StructuralChunkingResult" structural_result
              "child_chunks" with
      | Raise msg => Raise msg
      | Return child_groups =>
          match (child_groups : list (list StructuralChunkData.t)) !! i with
          | None => Raise "list index out of range"
          | Some group =>
              match structural_convert textbook_id structural_result (S i)
                      parents' with
              | Raise msg => Raise msg
              | Return (parent_chunks_data, child_chunks_data) =>
                  Return
                    (structural_parent_data textbook_id parent_chunk
                       :: parent_chunks_data,
                     imap structural_child_data group ++ child_chunks_data)
              end
          end
      end
  end.

Definition ocr_average_confidence (ocr_results : list OCRResult.t) : Q :=
  (PyFloat.sum (map OCRResult.confidence ocr_results)
   / inject_Z (Z.of_nat (length ocr_results)))%Q.

Definition _detect_primary_language (ocr_results : list OCRResult.t)
  : string :=
  let language_counts :=
    fold_left
      (fun counts r => PyDict.incr (OCRResult.language_detected r) counts)
      ocr_results [] in
  match PyDict.max_by_value language_counts with
  | None => "en"
  | Some (lang, _) => lang
  end.

Definition _convert_agentic_result_to_db_format
  (chunking_result : ChunkingResult.t) (ocr_results : list OCRResult.t)
  (textbook_id : Z) : list (gmap string pyval) * list (gmap string pyval) :=
  let avg_ocr_confidence :=
    match ocr_results with
    | [] => 0%Q
    | _ :: _ => ocr_average_confidence ocr_results
    end in
  let primary_language := _detect_primary_language ocr_results in
  let parent_data (parent_chunk : ParentChunk.t) :=
    PyDict.dict
      [("content", PStr (ParentChunk.content parent_chunk));
       ("document_type", PStr "scanned");
       ("processing_path", PStr "agentic");
       ("ocr_confidence", PInt (PyFloat.to_int avg_ocr_confidence));
       ("ocr_language_detected", PStr primary_language);
       ("textbook_id", PInt textbook_id);
       ("chunk_size", PInt (PyStr.len (ParentChunk.content parent_chunk)));
       ("processing_metadata",
        PDict (PyDict.dict
                 [("chunking_method", PStr "agentic");
                  ("thematic_summary",
                   PStr (ParentChunk.thematic_summary parent_chunk));
                  ("confidence",
                   PFloat (ParentChunk.confidence_score parent_chunk));
                  ("ocr_pages", PInt (Z.of_nat (length ocr_results)))]))] in
  let child_data (child_chunk : ChildChunk.t) :=
    PyDict.dict
      [("content", PStr (ChildChunk.content child_chunk));
       ("sequence_number", PInt (ChildChunk.sequence_number child_chunk));
       ("embedding_model", PStr "bge-m3");
       ("embedding_dimension", PInt 1024);
       ("language_code", PStr primary_language);
       ("chunk_size", PInt (PyStr.len (ChildChunk.content child_chunk)));
       ("processing_metadata",
        PDict (PyDict.dict
                 [("chunking_method", PStr "agentic");
                  ("semantic_role",
                   PStr (ChildChunk.semantic_role child_chunk));
                  ("ocr_confidence", PFloat avg_ocr_confidence)]))] in
  (map parent_data (ChunkingResult.parent_chunks chunking_result),
   flat_map (fun parent_chunk =>
               map child_data (ParentChunk.child_chunks parent_chunk))
     (ChunkingResult.parent_chunks chunking_result)).

Definition _calculate_ocr_metrics (ocr_results : list OCRResult.t)
  (processing_time : Q) : gmap string pyval :=
  match ocr_results with
  | [] => ∅
  | r0 :: rest =>
      let confidences := map OCRResult.confidence ocr_results in
      let processing_times := map OCRResult.processing_time_ms ocr_results in
      let n := inject_Z (Z.of_nat (length ocr_results)) in
      PyDict.dict
        [("pages_processed", PInt (Z.of_nat (length ocr_results)));
         ("average_confidence", PFloat (PyFloat.sum confidences / n)%Q);
         ("min_confidence",
          PFloat (fold_left (fun m c => PyFloat.min m c)
                    (map OCRResult.confidence rest) (OCRResult.confidence r0)));
         ("max_confidence",
          PFloat (fold_left (fun m c => PyFloat.max m c)
                    (map OCRResult.confidence rest) (OCRResult.confidence r0)));
         ("low_confidence_pages",
          PInt (PyList.count (fun c => PyFloat.ltb c 70) confidences));
         ("total_processing_time_ms",
          PInt (fold_left Z.add processing_times 0));
         ("average_processing_time_ms",
          PFloat (inject_Z (fold_left Z.add processing_times 0%Z) / n)%Q);
         ("total_processing_time_seconds", PFloat processing_time);
         ("preprocessing_applied",
          PBool (existsb
                   (fun r =>
                      default_val
                        (OCRResult.preprocessing_applied r !! "noise_reduction")
                        false)
                   ocr_results))]
  end.

Definition average_chunk_confidence (parent_chunks : list ParentChunk.t) : Q :=
  (PyFloat.sum (map ParentChunk.confidence_score parent_chunks)
   / inject_Z (Z.of_nat (length parent_chunks)))%Q.

Definition _calculate_agentic_metrics (chunking_result : ChunkingResult.t)
  (processing_time : Q) : gmap string pyval :=
  let metadata := ChunkingResult.processing_metadata chunking_result in
  let parent_chunks := ChunkingResult.parent_chunks chunking_result in
  PyDict.dict
    [("total_parent_chunks", PInt (Z.of_nat (length parent_chunks)));
     ("total_child_chunks",
      PInt (fold_left Z.add
              (map (fun chunk =>
                      Z.of_nat (length (ParentChunk.child_chunks chunk)))
                 parent_chunks) 0));
     ("average_chunk_confidence",
      match parent_chunks with
      | [] => PInt 0
      | _ :: _ => PFloat (average_chunk_confidence parent_chunks)
      end);
     ("processing_time_seconds", PFloat processing_time);
     ("tokens_used", PyDict.get metadata "tokens_used" (PInt 0));
     ("api_calls_made", PyDict.get metadata "api_calls_made" (PInt 0));
     ("quality_assessment",
      PyDict.get metadata "quality_assessment" (PDict ∅));
     ("fallback_used",
      PBool (match metadata !! "status" with
             | Some (PStr s) => String.eqb s "fallback"
             | _ => false
             end))].

Definition _calculate_quality_score (ocr_results : list OCRResult.t)
  (chunking_result : ChunkingResult.t) : Q :=
  let scores : list Q := [] in
  let scores :=
    match ocr_results with
    | [] => scores
    | _ :: _ =>
        let avg_ocr_confidence := ocr_average_confidence ocr_results in
        let ocr_quality := PyFloat.min 1 (avg_ocr_confidence / 100)%Q in
        scores ++ [(ocr_quality * 0.4)%Q]
    end in
  let scores :=
    match ChunkingResult.parent_chunks chunking_result with
    | [] => scores
    | parent_chunks =>
        let avg_chunk_confidence := average_chunk_confidence parent_chunks in
        let scores := scores ++ [(avg_chunk_confidence * 0.4)%Q] in
        let total_content_length :=
          fold_left Z.add
            (map (fun chunk => PyStr.len (ParentChunk.content chunk))
               parent_chunks) 0 in
        if 100 <? total_content_length then scores ++ [0.2%Q] else scores
    end in
  match scores with
  | [] => 0.3%Q
  | _ :: _ => PyFloat.sum scores
  end.

(** The keyword arguments of the [HybridChunkingResult(...)] call that
    ends the [try] block of [_process_structural_path]. *)
Definition structural_outcome_args
  (document_analysis : DocumentAnalysisResult.t)
  (parent_chunks_data child_chunks_data : list (gmap string pyval))
  : HybridChunkingResult.kwargs :=
  HybridChunkingResult.given None (Some STRUCTURAL) None None
    (Some parent_chunks_data) (Some child_chunks_data) None
    None None (Some 0.85%Q)
    (Some (DocumentAnalysisResult.confidence document_analysis))
    (Some (PyDict.dict
             [("method", PStr "structural");
              ("total_parent_chunks",
               PInt (Z.of_nat (length parent_chunks_data)));
              ("total_child_chunks",
               PInt (Z.of_nat (length child_chunks_data)))])).

(** The keyword arguments of the [HybridChunkingResult(...)] call that
    ends the [try] block of [_process_ocr_agentic_path]. *)
Definition ocr_agentic_outcome_args
  (document_analysis : DocumentAnalysisResult.t)
  (parent_chunks_data child_chunks_data : list (gmap string pyval))
  (ocr_metrics agentic_metrics : gmap string pyval) (quality_score : Q)
  (ocr_processing_time agentic_processing_time : Q)
  : HybridChunkingResult.kwargs :=
  HybridChunkingResult.given None (Some OCR_AGENTIC) None None
    (Some parent_chunks_data) (Some child_chunks_data) None
    (Some ocr_metrics) (Some agentic_metrics)
    (Some quality_score)
    (Some (PyFloat.min
             (DocumentAnalysisResult.confidence document_analysis)
             quality_score))
    (Some (PyDict.dict
             [("method", PStr "ocr_agentic");
              ("ocr_processing_time", PFloat ocr_processing_time);
              ("agentic_processing_time", PFloat agentic_processing_time);
              ("total_parent_chunks",
               PInt (Z.of_nat (length parent_chunks_data)));
              ("total_child_chunks",
               PInt (Z.of_nat (length child_chunks_data)))])).

Section WithService.
Variable env : Env.
Variable _has_meaningful_text : string -> bool.
Variable _estimate_readability : string -> Q.

(** [self.enable_fallback], and the nesting depth the interpreter allows
    to the path functions. *)
Variable enable_fallback : bool.
Variable recursion_limit : nat.

Definition analyze_pdf_type : string -> M DocumentAnalysisResult.t :=
  DocumentAnalyzer.analyze_pdf_type env _has_meaningful_text
    _estimate_readability.

(** The statements under [try:] in [_process_structural_path].  The
    result of the structural chunker is a pydantic model, and the loop
    header subscripts it; the call that builds the outcome passes neither
    [document_analysis] nor [processing_time_seconds]. *)
Definition _process_structural_path_try (pdf_path : string)
  (document_analysis : DocumentAnalysisResult.t) (textbook_id : Z)
  : M HybridChunkingResult.t :=
  structural_result <- call_structural_chunker env pdf_path textbook_id ;;
  parent_chunks <-
    lift (subscript_model "StructuralChunkingResult" structural_result
            "parent_chunks") ;;
  converted <-
    lift (structural_convert textbook_id structural_result 0 parent_chunks) ;;
  let '(parent_chunks_data, child_chunks_data) := converted in
  lift (new_HybridChunkingResult env
          (structural_outcome_args document_analysis parent_chunks_data
             child_chunks_data)).

(** The statements under [try:] in [_process_ocr_agentic_path]; the call
    that builds the outcome passes neither [document_analysis] nor
    [processing_time_seconds]. *)
Definition _process_ocr_agentic_path_try (ocr_start_time : Q)
  (pdf_path : string) (document_analysis : DocumentAnalysisResult.t)
  (textbook_id : Z) : M HybridChunkingResult.t :=
  ocr_results <- call_ocr_service env pdf_path ;;
  ocr_end_time <- time_time env ;;
  let ocr_processing_time := (ocr_end_time - ocr_start_time)%Q in
  match ocr_results with
  | [] => raise "OCR processing produced no results"
  | _ :: _ =>
      agentic_start_time <- time_time env ;;
      let page_context :=
        PyDict.dict
          [("document_type",
            PStr (DocumentType_value
                    (DocumentAnalysisResult.document_type document_analysis)));
           ("total_pages",
            PInt (DocumentAnalysisResult.total_pages document_analysis));
           ("textbook_id", PInt textbook_id)] in
      chunking_result <-
        AgenticChunker.chunk_ocr_content env ocr_results (Some page_context) ;;
      agentic_end_time <- time_time env ;;
      let agentic_processing_time :=
        (agentic_end_time - agentic_start_time)%Q in
      let '(parent_chunks_data, child_chunks_data) :=
        _convert_agentic_result_to_db_format chunking_result ocr_results
          textbook_id in
      let ocr_metrics := _calculate_ocr_metrics ocr_results ocr_processing_time in
      let agentic_metrics :=
        _calculate_agentic_metrics chunking_result agentic_processing_time in
      let quality_score :=
        _calculate_quality_score ocr_results chunking_result in
      lift (new_HybridChunkingResult env
              (ocr_agentic_outcome_args document_analysis parent_chunks_data
                 child_chunks_data ocr_metrics agentic_metrics quality_score
                 ocr_processing_time agentic_processing_time))
  end.

Fixpoint _process_structural_path (depth : nat) (pdf_path : string)
  (document_analysis : DocumentAnalysisResult.t) (textbook_id : Z)
  {struct depth} : M HybridChunkingResult.t :=
  match depth with
  | O => raise recursion_error
  | S depth' =>
      try_except
        (_process_structural_path_try pdf_path document_analysis textbook_id)
        (fun e =>
           if enable_fallback then
             result <- _process_ocr_agentic_path depth' pdf_path
                         document_analysis textbook_id ;;
             ret (set_fallback result
                    ("Structural processing failed: " +:+ e))
           else raise e)
  end
with _process_ocr_agentic_path (depth : nat) (pdf_path : string)
  (document_analysis : DocumentAnalysisResult.t) (textbook_id : Z)
  {struct depth} : M HybridChunkingResult.t :=
  match depth with
  | O => raise recursion_error
  | S depth' =>
      ocr_start_time <- time_time env ;;
      try_except
        (_process_ocr_agentic_path_try ocr_start_time pdf_path
           document_analysis textbook_id)
        (fun e =>
           if enable_fallback then
             result <- _process_structural_path depth' pdf_path
                         document_analysis textbook_id ;;
             ret (set_fallback result
                    ("OCR+Agentic processing failed: " +:+ e))
           else raise e)
  end.

Definition _route_processing (pdf_path : string)
  (processing_path : ProcessingPath)
  (document_analysis : DocumentAnalysisResult.t) (textbook_id : Z)
  : M HybridChunkingResult.t :=
  match processing_path with
  | STRUCTURAL =>
      _process_structural_path recursion_limit pdf_path document_analysis
        textbook_id
  | OCR_AGENTIC =>
      _process_ocr_agentic_path recursion_limit pdf_path document_analysis
        textbook_id
  end.

(** [_create_fallback_result].  The [import] in its [except] block makes
    [ProcessingPath] a local name of the whole function, bound only when
    that block has run; the boolean tells whether it has.  The call that
    builds the outcome reads the name. *)
Definition _create_fallback_result (pdf_path : string) (textbook_id : Z)
  (error : string) (processing_time : Q) : M HybridChunkingResult.t :=
  analysed <-
    try_except
      (document_analysis <- analyze_pdf_type pdf_path ;;
       ret (document_analysis, false))
      (fun _ =>
         ret (DocumentAnalysisResult.mk SCANNED OCR_AGENTIC 0.1%Q 1 0 1 []
                "fallback" [AnalysisFailedFactor error], true)) ;;
  let '(document_analysis, ProcessingPath_bound) := analysed in
  if (ProcessingPath_bound : bool) then
    lift (new_HybridChunkingResult env
            (HybridChunkingResult.given (Some document_analysis)
               (Some OCR_AGENTIC) (Some true) (Some error) (Some [])
               (Some []) (Some processing_time) None None (Some 0.1%Q)
               (Some 0.1%Q)
               (Some (PyDict.dict [("method", PStr "fallback");
                                   ("error", PStr error);
                                   ("status", PStr "failed")]))))
  else raise unbound_local_error.

(** The statements under [try:] in [process_document]. *)
Definition process_document_try (start_time : Q) (pdf_path : string)
  (textbook_id : Z) (force_processing_path : option ProcessingPath)
  : M HybridChunkingResult.t :=
  document_analysis <- analyze_pdf_type pdf_path ;;
  let processing_path :=
    default_val force_processing_path
      (DocumentAnalysisResult.processing_path document_analysis) in
  result <- _route_processing pdf_path processing_path document_analysis
              textbook_id ;;
  end_time <- time_time env ;;
  ret (set_processing_info result (end_time - start_time)%Q document_analysis
         processing_path).

Definition process_document (pdf_path : string) (textbook_id : Z)
  (force_processing_path : option ProcessingPath)
  : M HybridChunkingResult.t :=
  start_time <- time_time env ;;
  try_except
    (process_document_try start_time pdf_path textbook_id
       force_processing_path)
    (fun e =>
       end_time <- time_time env ;;
       _create_fallback_result pdf_path textbook_id e
         (end_time - start_time)%Q).

End WithService.

End ChunkingService.

(** * Vocabulary of the statements and sample inputs *)

Definition page_with_text (n : Z) : PageAnalysis.t :=
  PageAnalysis.mk n true 2%Q 120 (1 # 2)%Q false.

Definition page_without_text (n : Z) : PageAnalysis.t :=
  PageAnalysis.mk n false 0%Q 0 0%Q true.

(** A text for the validation error of the sample environments. *)
Definition missing_fields_text (k : HybridChunkingResult.kwargs) : string :=
  "validation errors for HybridChunkingResult: Field required".

(** An environment whose PDF library cannot open the file. *)
Definition env_unreadable : Env := {|
  clock := fun n => inject_Z (Z.of_nat n);
  fitz_open := fun _ _ => Raise "cannot open broken document";
  structural_chunker_process_document := fun _ _ _ => Raise "no such file";
  ocr_service_extract_text_from_pdf := fun _ _ => Raise "no such file";
  agent_run := fun _ _ _ => AgentTimeout;
  validation_error := missing_fields_text |}.

Definition outside_size_range (chunk : StructuralChunkData.t) : bool :=
  (StructuralChunkData.chunk_size chunk <? 100)
  || (2000 <? StructuralChunkData.chunk_size chunk).

Definition chunk_of_size (n : Z) : StructuralChunkData.t :=
  StructuralChunkData.mk "text" None None None n None.

(** No whitespace anywhere in the string. *)
Fixpoint all_nonspace (s : string) : bool :=
  match s with
  | EmptyString => true
  | String c s' => negb (PyStr.isspace c) && all_nonspace s'
  end.

(** A word: not empty and without whitespace. *)
Definition clean (w : string) : Prop :=
  PyStr.is_empty w = false /\ all_nonspace w = true.

Definition starts_nonspace (s : string) : bool :=
  match s with
  | EmptyString => false
  | String c _ => negb (PyStr.isspace c)
  end.

Fixpoint ends_nonspace (s : string) : bool :=
  match s with
  | EmptyString => false
  | String c s' =>
      if PyStr.is_empty s' then negb (PyStr.isspace c) else ends_nonspace s'
  end.

(** A chunk closed inside the word loop, and the chunk made of the words
    left over after it. *)
Definition loop_parent_ok (p : ParentChunk.t) : Prop :=
  ParentChunk.confidence_score p = 0.6%Q
  /\ 100 <= PyStr.len (ParentChunk.content p).

Definition final_parent_ok (p : ParentChunk.t) : Prop :=
  ParentChunk.confidence_score p = 0.5%Q
  /\ 50 <= PyStr.len (ParentChunk.content p).

Definition text_of_59_chars : string :=
  "aaaaaaaaa bbbbbbbbb ccccccccc ddddddddd eeeeeeeee fffffffff".

Ltac case_leb :=
  match goal with
  | |- context [?a <=? ?b] => destruct (Z.leb_spec a b)
  end.

Definition ocr_page (n : Z) (text : string) : OCRResult.t :=
  OCRResult.mk text 90%Q "en" n 12 ∅ None.

(** One attempt of a path: the statements under its [try], with the clock
    reading the OCR path makes in front of it. *)
Definition path_attempt (env : Env) (p : ProcessingPath) (pdf_path : string)
  (document_analysis : DocumentAnalysisResult.t) (textbook_id : Z)
  : M HybridChunkingResult.t :=
  match p with
  | STRUCTURAL =>
      ChunkingService._process_structural_path_try env pdf_path
        document_analysis textbook_id
  | OCR_AGENTIC =>
      ocr_start_time <- time_time env ;;
      ChunkingService._process_ocr_agentic_path_try env ocr_start_time
        pdf_path document_analysis textbook_id
  end.

(** The path function of a path, and the path its [except] block turns
    to. *)
Definition run_path (env : Env) (enable_fallback : bool) (depth : nat)
  (p : ProcessingPath) : string -> DocumentAnalysisResult.t -> Z ->
                         M HybridChunkingResult.t :=
  match p with
  | STRUCTURAL =>
      ChunkingService._process_structural_path env enable_fallback depth
  | OCR_AGENTIC =>
      ChunkingService._process_ocr_agentic_path env enable_fallback depth
  end.

Definition other_path (p : ProcessingPath) : ProcessingPath :=
  match p with
  | STRUCTURAL => OCR_AGENTIC
  | OCR_AGENTIC => STRUCTURAL
  end.

Definition fallback_prefix (p : ProcessingPath) : string :=
  match p with
  | STRUCTURAL => "Structural processing failed: "
  | OCR_AGENTIC => "OCR+Agentic processing failed: "
  end.

(** A one-page PDF with extractable text, and a one-page scan without
    any. *)
Definition native_page : PdfPage :=
  {| get_text := "Chapter 1. This page carries ordinary machine readable text.";
     rect_width := 600%Q; rect_height := 800%Q |}.

Definition scanned_page : PdfPage :=
  {| get_text := ""; rect_width := 600%Q; rect_height := 800%Q |}.

(** Stand-ins for the two text heuristics: a page is meaningful from 50
    characters on, and every text reads half well. *)
Definition long_enough (text : string) : bool := 50 <=? PyStr.len text.

Definition half_readable (text : string) : Q := (1 # 2)%Q.

(** A scan whose only page carries a short note: the structural chunker
    finds nothing to extract, OCR reads the note, the agent times out. *)
Definition env_short_scan : Env := {|
  clock := fun n => inject_Z (Z.of_nat n);
  fitz_open := fun _ _ => Return [Return scanned_page];
  structural_chunker_process_document := fun _ _ _ =>
    Raise "No structured content could be extracted from PDF";
  ocr_service_extract_text_from_pdf := fun _ _ =>
    Return [ocr_page 1 "Scanned note."];
  agent_run := fun _ _ _ => AgentTimeout;
  validation_error := missing_fields_text |}.

(** The native PDF with a structural chunker that works. *)
Definition env_native : Env := {|
  clock := fun n => inject_Z (Z.of_nat n);
  fitz_open := fun _ _ => Return [Return native_page];
  structural_chunker_process_document := fun _ _ _ =>
    Return (StructuralChunkingResult.mk
              [StructuralChunkData.mk "ordinary text" (Some 1)
                 (Some "Chapter 1") None 13 None]
              [[StructuralChunkData.mk "ordinary text" None None None 13
                  (Some 50)]]
              ∅);
  ocr_service_extract_text_from_pdf := fun _ _ => Raise "not a scan";
  agent_run := fun _ _ _ => AgentTimeout;
  validation_error := missing_fields_text |}.

(** * Further vocabulary *)

(** A PDF without pages. *)
Definition env_empty_pdf : Env := {|
  clock := fun n => inject_Z (Z.of_nat n);
  fitz_open := fun _ _ => Return [];
  structural_chunker_process_document := fun _ _ _ =>
    Raise "No structured content could be extracted from PDF";
  ocr_service_extract_text_from_pdf := fun _ _ => Return [];
  agent_run := fun _ _ _ => AgentTimeout;
  validation_error := missing_fields_text |}.

(** Only whitespace in the string. *)
Fixpoint all_space (s : string) : bool :=
  match s with
  | EmptyString => true
  | String c s' => PyStr.isspace c && all_space s'
  end.

(** A page whose text is blank. *)
Definition blank_page (r : OCRResult.t) : bool := all_space (OCRResult.text r).

(** A reply of the agent that makes the attempt fail, and the error text
    the retry loop keeps for it. *)
Definition reply_failed (reply : AgentReply) : bool :=
  match reply with
  | AgentTimeout | AgentError _ => true
  | AgentData _ | AgentOther => false
  end.

Definition reply_error (reply : AgentReply) : string :=
  match reply with
  | AgentError msg => msg
  | _ => "Chunking timeout after 120s"
  end.

(** The seconds slept after a failed attempt that is not the last. *)
Definition backoff (attempt : Z) (reply : AgentReply) : list Z :=
  match reply with
  | AgentError _ => [2 ^ attempt]
  | _ => []
  end.

(** The second world differs from the first at most in the clock. *)
Definition same_calls (w w' : World) : Prop :=
  pdf_opens w' = pdf_opens w
  /\ structural_calls w' = structural_calls w
  /\ ocr_calls w' = ocr_calls w
  /\ agent_calls w' = agent_calls w
  /\ slept w' = slept w.

(** The two kinds of parent chunk the fallback splitter builds. *)
Definition loop_parent (chunk_text : string) (n : Z) : ParentChunk.t :=
  ParentChunk.mk chunk_text ("Content section " +:+ PyStr.of_Z n) 0.6%Q
    (AgenticChunker.sentence_children chunk_text).

Definition final_parent (remaining_text : string) : ParentChunk.t :=
  ParentChunk.mk remaining_text "Final content section" 0.5%Q
    [ChildChunk.mk remaining_text 1 "conclusion"].

Definition splitter_parent (p : ParentChunk.t) : Prop :=
  (exists chunk_text n, p = loop_parent chunk_text n)
  \/ (exists remaining_text, p = final_parent remaining_text).

(** The words of a parent chunk's content. *)
Definition parent_words (p : ParentChunk.t) : list string :=
  PyStr.split (ParentChunk.content p).

(** The path [p] has not called the collaborators of the other path
    between [w] and [w']. *)
Definition other_path_untouched (p : ProcessingPath) (w w' : World) : Prop :=
  match p with
  | STRUCTURAL =>
      ocr_calls w' = ocr_calls w /\ agent_calls w' = agent_calls w
  | OCR_AGENTIC => structural_calls w' = structural_calls w
  end.

(** The page context leaves the average OCR confidence of the context a
    number, so that the prompt can be rendered. *)
Definition confidence_renders (page_context : option (gmap string pyval))
  : bool :=
  match page_context with
  | None => true
  | Some extra =>
      match extra !! "average_ocr_confidence" with
      | None => true
      | Some value =>
          match AgenticChunker.format_1f_error value with
          | None => true
          | Some _ => false
          end
      end
  end.



(** An agent whose first reply is the one-chunk result below, and an
    agent that answers with no chunk at all. *)
Definition agent_chunk : ParentChunk.t :=
  ParentChunk.mk "Scanned note." "A note" 0%Q [].



(** The number of OCR pages whose detected language is [lang]. *)
Definition pages_in (lang : string) (ocr_results : list OCRResult.t) : Z :=
  PyList.count (fun r => String.eqb (OCRResult.language_detected r) lang)
    ocr_results.

(** The entry of a language in a counter, and a counter with one entry
    per language. *)
Fixpoint count_lookup (k : string) (counts : list (string * Z)) : option Z :=
  match counts with
  | [] => None
  | (k', n) :: counts' =>
      if String.eqb k k' then Some n else count_lookup k counts'
  end.

Fixpoint distinct_keys (counts : list (string * Z)) : Prop :=
  match counts with
  | [] => True
  | (k, _) :: counts' => count_lookup k counts' = None /\ distinct_keys counts'
  end.

(** The counter [counts] holds, for the pages [seen], one entry per
    language that occurs, with the number of its pages. *)
Definition counts_of (seen : list OCRResult.t) (counts : list (string * Z))
  : Prop :=
  distinct_keys counts
  /\ forall k,
       count_lookup k counts
       = if pages_in k seen =? 0 then None else Some (pages_in k seen).


(** The number of attempts the path [q] makes in [d] turns that alternate
    between the two paths and start with [p]. *)
Fixpoint attempts_of (q p : ProcessingPath) (d : nat) : nat :=
  match d with
  | O => 0
  | S d' =>
      (match q, p with
       | STRUCTURAL, STRUCTURAL | OCR_AGENTIC, OCR_AGENTIC => 1
       | _, _ => 0
       end + attempts_of q (other_path p) d')%nat
  end.
(** * Properties *)

(** ** Floats *)

Section FloatFacts.
#[local] Open Scope Q_scope.

Lemma leb_true_iff (a b : Q) : PyFloat.leb a b = true <-> a <= b.
Proof. unfold PyFloat.leb. apply Qle_bool_iff. Qed.

Lemma ltb_true_iff (a b : Q) : PyFloat.ltb a b = true <-> a < b.
Proof.
  unfold PyFloat.ltb. rewrite negb_true_iff.
  split; intros H.
  - apply Qnot_le_lt. intros Hle. apply Qle_bool_iff in Hle. congruence.
  - destruct (Qle_bool b a) eqn:E; [|reflexivity].
    apply Qle_bool_iff in E. exfalso. exact (Qlt_not_le _ _ H E).
Qed.

Lemma ltb_false_iff (a b : Q) : PyFloat.ltb a b = false <-> b <= a.
Proof.
  unfold PyFloat.ltb. rewrite negb_false_iff. apply Qle_bool_iff.
Qed.

Lemma min_lower_bound (l a b : Q) : l <= a -> l <= b -> l <= PyFloat.min a b.
Proof. intros Ha Hb. unfold PyFloat.min. destruct (PyFloat.ltb b a); assumption. Qed.

Lemma max_lower_bound (a b : Q) : a <= PyFloat.max a b.
Proof.
  unfold PyFloat.max. destruct (PyFloat.ltb a b) eqn:E.
  - apply ltb_true_iff in E. apply Qlt_le_weak, E.
  - apply Qle_refl.
Qed.

Lemma min_upper_bound (a b : Q) : PyFloat.min a b <= a.
Proof.
  unfold PyFloat.min. destruct (PyFloat.ltb b a) eqn:E.
  - apply ltb_true_iff in E. apply Qlt_le_weak, E.
  - apply Qle_refl.
Qed.

Lemma round3_lower_bound (x : Q) : 1 # 2 <= x -> 1 # 2 <= PyFloat.round x 3.
Proof.
  intros Hx. unfold PyFloat.round.
  change (inject_Z (10 ^ Z.of_nat 3)) with (inject_Z 1000).
  set (n := Qfloor (x * inject_Z 1000)).
  assert (Hn : (500 <= n)%Z).
  { change 500%Z with (Qfloor (inject_Z 500)). apply Qfloor_resp_le.
    apply Qle_trans with ((1 # 2) * inject_Z 1000).
    - unfold Qle. simpl. lia.
    - apply Qmult_le_compat_r; [exact Hx | discriminate]. }
  match goal with
  | |- _ <= inject_Z ?m / _ => assert (Hm : (500 <= m)%Z)
  end.
  { destruct (if PyFloat.ltb _ _ then _ else _); lia. }
  match goal with
  | |- _ <= inject_Z ?m / _ => generalize dependent m
  end.
  intros m Hm. unfold Qdiv, Qle. simpl. lia.
Qed.

End FloatFacts.

(** ** The document analyzer *)

Section AnalyzerFacts.
Import DocumentAnalyzer.
#[local] Open Scope Q_scope.

Lemma count_bounds {A} (p : A -> bool) (l : list A) :
  (0 <= PyList.count p l <= Z.of_nat (length l))%Z.
Proof.
  unfold PyList.count. split; [lia|].
  apply inj_le. induction l as [|x l IH]; simpl; [lia|].
  destruct (p x); simpl; lia.
Qed.

Lemma div_nonneg (a b : Z) : (0 <= a)%Z -> (0 < b)%Z -> 0 <= PyFloat.div a b.
Proof.
  intros Ha Hb. unfold PyFloat.div.
  apply Qle_shift_div_l.
  - unfold Qlt. simpl. lia.
  - unfold Qle. simpl. lia.
Qed.

Lemma ocr_page_ratio_nonneg (page_analyses : list PageAnalysis.t) :
  0 <= ocr_page_ratio page_analyses.
Proof.
  destruct page_analyses as [|p l]; [discriminate|].
  unfold ocr_page_ratio. apply div_nonneg.
  - apply count_bounds.
  - simpl length. lia.
Qed.

Lemma classify_by_ratio_floor (t o : Q) :
  0 <= o -> 1 # 2 <= (classify_by_ratio t o).1.2.
Proof.
  intros Ho. unfold classify_by_ratio.
  destruct (PyFloat.leb native_page_threshold t) eqn:E1;
    [|destruct (PyFloat.leb t mixed_threshold) eqn:E2]; simpl.
  - apply leb_true_iff in E1. unfold native_page_threshold in E1.
    apply min_lower_bound; [discriminate|].
    apply Qle_trans with (0.5 + 0.8 * 0.5); [discriminate|].
    apply Qplus_le_r. apply Qmult_le_compat_r; [exact E1|discriminate].
  - apply min_lower_bound; [discriminate|].
    apply Qle_trans with (0.5 + 0 * 0.5); [discriminate|].
    apply Qplus_le_r. apply Qmult_le_compat_r; [exact Ho|discriminate].
  - discriminate.
Qed.

Lemma adjust_by_quality_floor (page_analyses : list PageAnalysis.t) (c : Q) :
  1 # 2 <= c -> 1 # 2 <= (adjust_by_quality page_analyses c).1.
Proof.
  intros Hc. unfold adjust_by_quality.
  destruct page_analyses as [|p l]; [exact Hc|]. simpl fst.
  destruct (PyFloat.ltb 0.8 _); [|destruct (PyFloat.ltb _ 0.3)].
  - apply min_lower_bound; [discriminate|].
    apply Qle_trans with (c + 0); [now rewrite Qplus_0_r|].
    apply Qplus_le_r. discriminate.
  - apply Qle_trans with 0.5; [discriminate|apply max_lower_bound].
  - exact Hc.
Qed.

(** The fields of a classification, read off the two helper blocks. *)
Lemma classify_document_fields (page_analyses : list PageAnalysis.t)
  (total_pages : Z) :
  let by_ratio :=
    classify_by_ratio (text_page_ratio page_analyses)
      (ocr_page_ratio page_analyses) in
  let r := _classify_document page_analyses total_pages in
  DocumentAnalysisResult.document_type r = by_ratio.1.1.1
  /\ DocumentAnalysisResult.processing_path r = by_ratio.1.1.2
  /\ DocumentAnalysisResult.confidence r
     = PyFloat.round (adjust_by_quality page_analyses by_ratio.1.2).1 3
  /\ DocumentAnalysisResult.total_pages r = total_pages
  /\ (DocumentAnalysisResult.pages_with_text r
      + DocumentAnalysisResult.pages_requiring_ocr r = total_pages)%Z.
Proof.
  unfold _classify_document.
  destruct (classify_by_ratio _ _) as [[[ty pth] c] f].
  destruct (adjust_by_quality _ _) as [c' f']. simpl.
  repeat split. lia.
Qed.

Lemma classify_confidence_floor (page_analyses : list PageAnalysis.t)
  (total_pages : Z) :
  1 # 2 <= DocumentAnalysisResult.confidence
             (_classify_document page_analyses total_pages).
Proof.
  destruct (classify_document_fields page_analyses total_pages)
    as (_ & _ & -> & _).
  apply round3_lower_bound, adjust_by_quality_floor, classify_by_ratio_floor.
  apply ocr_page_ratio_nonneg.
Qed.

(** Type and path are decided by the text ratio alone. *)
Lemma classify_by_text_ratio (pa1 pa2 : list PageAnalysis.t) (t1 t2 : Z) :
  text_page_ratio pa1 = text_page_ratio pa2 ->
  DocumentAnalysisResult.document_type (_classify_document pa1 t1)
  = DocumentAnalysisResult.document_type (_classify_document pa2 t2)
  /\ DocumentAnalysisResult.processing_path (_classify_document pa1 t1)
     = DocumentAnalysisResult.processing_path (_classify_document pa2 t2).
Proof.
  intros Ht.
  destruct (classify_document_fields pa1 t1) as (-> & -> & _).
  destruct (classify_document_fields pa2 t2) as (-> & -> & _).
  rewrite Ht. unfold classify_by_ratio.
  destruct (PyFloat.leb native_page_threshold _);
    [|destruct (PyFloat.leb _ mixed_threshold)]; split; reflexivity.
Qed.

(** The text ratio looks at the [has_text] flags only. *)
Lemma text_page_ratio_flags (pa1 pa2 : list PageAnalysis.t) :
  map PageAnalysis.has_text pa1 = map PageAnalysis.has_text pa2 ->
  text_page_ratio pa1 = text_page_ratio pa2.
Proof.
  intros Hm.
  assert (Hlen : length pa1 = length pa2).
  { rewrite <- (length_map PageAnalysis.has_text pa1), Hm.
    apply length_map. }
  assert (Hc : PyList.count PageAnalysis.has_text pa1
               = PyList.count PageAnalysis.has_text pa2).
  { unfold PyList.count. f_equal. clear Hlen.
    revert pa2 Hm. induction pa1 as [|p l IH]; intros [|q m] Hm;
      try discriminate; [reflexivity|].
    simpl in Hm. injection Hm as Hpq Hm. simpl. rewrite Hpq.
    destruct (PageAnalysis.has_text q); simpl; rewrite (IH m Hm); reflexivity. }
  unfold text_page_ratio.
  destruct pa1, pa2; try discriminate; [reflexivity|].
  rewrite Hc, Hlen. reflexivity.
Qed.

Section Runs.
Variable env : Env.
Variable _has_meaningful_text : string -> bool.
Variable _estimate_readability : string -> Q.

(** A run of the analyzer ends in one of two ways. *)
Lemma analyze_pdf_type_run (pdf_path : string) (w : World) :
  (exists page_analyses total_pages w',
      analyze_pdf_type_try env _has_meaningful_text _estimate_readability
        pdf_path w
      = (Return (_classify_document page_analyses total_pages), w')
      /\ analyze_pdf_type env _has_meaningful_text _estimate_readability
           pdf_path w
         = (Return (_classify_document page_analyses total_pages), w'))
  \/ (exists e w',
         analyze_pdf_type_try env _has_meaningful_text _estimate_readability
           pdf_path w = (Raise e, w')
         /\ analyze_pdf_type env _has_meaningful_text _estimate_readability
              pdf_path w = (Return (_create_fallback_result e), w')).
Proof.
  unfold analyze_pdf_type, try_except.
  destruct (analyze_pdf_type_try _ _ _ _ w) as [[r|e] w'] eqn:E.
  - left. unfold analyze_pdf_type_try, bind in E.
    destruct (open_pdf env pdf_path w) as [[doc|e] w1]; [|discriminate].
    destruct (mapM _ _ w1) as [[pas|e] w2]; [|discriminate].
    unfold ret in E. injection E as <- <-. eauto.
  - right. eauto.
Qed.

(** Analysing a page neither reads nor changes the state. *)
Lemma analyze_page_stateless (doc : PdfDoc) (page_num : Z) (w : World) :
  _analyze_page _has_meaningful_text _estimate_readability doc page_num w
  = ((_analyze_page _has_meaningful_text _estimate_readability doc page_num
        initial_world).1, w).
Proof.
  unfold _analyze_page, bind, load_page.
  destruct (doc !! Z.to_nat page_num) as [[page|e]|]; reflexivity.
Qed.

Lemma mapM_stateless {A B} (f : A -> M B) (l : list A) :
  (forall x w, f x w = ((f x initial_world).1, w)) ->
  forall w, mapM f l w = ((mapM f l initial_world).1, w).
Proof.
  intros Hf. induction l as [|x l IH]; intros w; [reflexivity|].
  simpl. unfold bind. rewrite (Hf x w), (Hf x initial_world). simpl.
  destruct (f x initial_world).1 as [y|e]; [|reflexivity].
  rewrite (IH w), (IH initial_world). simpl.
  destruct (mapM f l initial_world).1; reflexivity.
Qed.

(** Two runs of the analyzer for which the PDF library hands out the same
    document return the same classification. *)
Lemma analyze_pdf_type_deterministic (pdf_path : string) (w1 w2 : World) :
  fitz_open env pdf_path (pdf_opens w1) = fitz_open env pdf_path (pdf_opens w2) ->
  (analyze_pdf_type env _has_meaningful_text _estimate_readability pdf_path
     w1).1
  = (analyze_pdf_type env _has_meaningful_text _estimate_readability pdf_path
       w2).1.
Proof.
  intros Hdoc.
  unfold analyze_pdf_type, try_except, analyze_pdf_type_try, bind, open_pdf.
  rewrite Hdoc.
  destruct (fitz_open env pdf_path (pdf_opens w2)) as [doc|e]; [|reflexivity].
  rewrite (mapM_stateless _ _ (analyze_page_stateless doc)).
  symmetry.
  rewrite (mapM_stateless _ _ (analyze_page_stateless doc)).
  destruct (mapM _ _ initial_world).1; reflexivity.
Qed.

End Runs.

End AnalyzerFacts.

Section RatioFacts.
Import DocumentAnalyzer.
#[local] Open Scope Q_scope.

Lemma ratio_one_native (t o : Q) :
  t == 1 ->
  classify_by_ratio t o
  = (NATIVE, STRUCTURAL, PyFloat.min 0.95 (0.5 + t * 0.5),
     [TextPagesFactor t])
  /\ PyFloat.min 0.95 (0.5 + t * 0.5) == 0.95.
Proof.
  intros Ht. unfold classify_by_ratio.
  assert (E : PyFloat.leb native_page_threshold t = true).
  { apply leb_true_iff. rewrite Ht. discriminate. }
  rewrite E. split; [reflexivity|].
  unfold PyFloat.min.
  assert (E' : PyFloat.ltb (0.5 + t * 0.5) 0.95 = false).
  { apply ltb_false_iff. rewrite Ht. discriminate. }
  rewrite E'. reflexivity.
Qed.

Lemma ratio_zero_scanned (t o : Q) :
  t == 0 ->
  (classify_by_ratio t o).1.1 = (SCANNED, OCR_AGENTIC).
Proof.
  intros Ht. unfold classify_by_ratio.
  assert (E : PyFloat.leb native_page_threshold t = false).
  { destruct (PyFloat.leb native_page_threshold t) eqn:E; [|reflexivity].
    apply leb_true_iff in E. rewrite Ht in E.
    unfold native_page_threshold, Qle in E. simpl in E. lia. }
  assert (E' : PyFloat.leb t mixed_threshold = true).
  { apply leb_true_iff. rewrite Ht. discriminate. }
  rewrite E, E'. reflexivity.
Qed.

End RatioFacts.

Example sample_pages_of_small_document :
  DocumentAnalyzer._determine_sample_pages 3 = [0; 1; 2].
Proof. reflexivity. Qed.

Example sample_pages_of_large_document :
  DocumentAnalyzer._determine_sample_pages 10 = [0; 2; 4; 6; 9].
Proof. reflexivity. Qed.

Example three_native_pages :
  let r :=
    DocumentAnalyzer._classify_document
      [page_with_text 1; page_with_text 2; page_with_text 3] 3 in
  DocumentAnalysisResult.document_type r = NATIVE
  /\ DocumentAnalysisResult.processing_path r = STRUCTURAL
  /\ (0.8 <= DocumentAnalysisResult.confidence r)%Q
  /\ DocumentAnalysisResult.analysis_method r = "complete".
Proof. vm_compute. repeat split; discriminate. Qed.

Example ten_scanned_pages_sampled_at_five :
  let r :=
    DocumentAnalyzer._classify_document
      [page_without_text 1; page_without_text 3; page_without_text 5;
       page_without_text 7; page_without_text 10] 10 in
  DocumentAnalysisResult.document_type r = SCANNED
  /\ DocumentAnalysisResult.processing_path r = OCR_AGENTIC
  /\ DocumentAnalysisResult.pages_requiring_ocr r = 10
  /\ DocumentAnalysisResult.analysis_method r = "sampling".
Proof. vm_compute. repeat split. Qed.

(** C4.  For a non-empty list of page analyses: when the fraction of pages
    with meaningful text is 1, the classifier returns type native and the
    structural path, and the confidence before the readability adjustment
    is min(0.95, 0.5 + ratio * 0.5), which is 0.95; the returned confidence
    is that value after the adjustment and the rounding.  When the fraction
    is 0, it returns type scanned and the OCR path. *)
Theorem C4_classification_by_text_ratio
  (page_analyses : list PageAnalysis.t) (total_pages : Z) :
  page_analyses <> [] ->
  let t := DocumentAnalyzer.text_page_ratio page_analyses in
  let r := DocumentAnalyzer._classify_document page_analyses total_pages in
  (t == 1 ->
   DocumentAnalysisResult.document_type r = NATIVE
   /\ DocumentAnalysisResult.processing_path r = STRUCTURAL
   /\ exists c factors,
       DocumentAnalyzer.classify_by_ratio t
         (DocumentAnalyzer.ocr_page_ratio page_analyses)
       = (NATIVE, STRUCTURAL, c, factors)
       /\ c = PyFloat.min 0.95 (0.5 + t * 0.5)
       /\ c == 0.95
       /\ DocumentAnalysisResult.confidence r
          = PyFloat.round
              (DocumentAnalyzer.adjust_by_quality page_analyses c).1 3)%Q
  /\ (t == 0 ->
      DocumentAnalysisResult.document_type r = SCANNED
      /\ DocumentAnalysisResult.processing_path r = OCR_AGENTIC)%Q.
Proof.
  intros _ t r.
  destruct (classify_document_fields page_analyses total_pages)
    as (Hty & Hpath & Hconf & _).
  fold t in Hty, Hpath, Hconf. fold r in Hty, Hpath, Hconf.
  split; intros Ht.
  - destruct (ratio_one_native t
                (DocumentAnalyzer.ocr_page_ratio page_analyses) Ht)
      as [Hc H95].
    rewrite Hc in Hty, Hpath, Hconf. simpl in Hty, Hpath, Hconf.
    repeat split; try assumption.
    eexists _, _. repeat split; [exact Hc | exact H95 | exact Hconf].
  - pose proof (ratio_zero_scanned t
                  (DocumentAnalyzer.ocr_page_ratio page_analyses) Ht) as Hc.
    rewrite Hty, Hpath.
    destruct (DocumentAnalyzer.classify_by_ratio _ _) as [[[ty pth] c] f].
    simpl in *. injection Hc as -> ->. split; reflexivity.
Qed.

Lemma C4_classification_by_text_ratio_witness :
  DocumentAnalysisResult.document_type
    (DocumentAnalyzer._classify_document
       [page_with_text 1; page_with_text 2; page_with_text 3] 3) = NATIVE
  /\ DocumentAnalysisResult.document_type
       (DocumentAnalyzer._classify_document
          [page_without_text 1; page_without_text 2] 10) = SCANNED.
Proof.
  split.
  - destruct (C4_classification_by_text_ratio
                [page_with_text 1; page_with_text 2; page_with_text 3] 3
                ltac:(discriminate)) as [H _].
    destruct (H ltac:(reflexivity)) as [Hty _]. exact Hty.
  - destruct (C4_classification_by_text_ratio
                [page_without_text 1; page_without_text 2] 10
                ltac:(discriminate)) as [_ H].
    destruct (H ltac:(reflexivity)) as [Hty _]. exact Hty.
Defined.

(** C5.  A run of the analyzer always returns a classification and never
    raises.  When the statements under [try] raise [e], the classification
    is the fallback one: it takes the OCR path, assumes a scanned document
    and has confidence 0.3, below 0.5.  When they succeed, the returned
    classification is theirs and its confidence is at least 0.5. *)
Theorem C5_analyzer_never_raises (env : Env)
  (_has_meaningful_text : string -> bool) (_estimate_readability : string -> Q)
  (pdf_path : string) (w : World) :
  exists r w',
    DocumentAnalyzer.analyze_pdf_type env _has_meaningful_text
      _estimate_readability pdf_path w = (Return r, w')
    /\ (forall e w1,
           DocumentAnalyzer.analyze_pdf_type_try env _has_meaningful_text
             _estimate_readability pdf_path w = (Raise e, w1) ->
           r = DocumentAnalyzer._create_fallback_result e
           /\ DocumentAnalysisResult.processing_path r = OCR_AGENTIC
           /\ DocumentAnalysisResult.document_type r = SCANNED
           /\ (DocumentAnalysisResult.confidence r == 0.3)%Q
           /\ (DocumentAnalysisResult.confidence r < 0.5)%Q)
    /\ (forall r0 w1,
           DocumentAnalyzer.analyze_pdf_type_try env _has_meaningful_text
             _estimate_readability pdf_path w = (Return r0, w1) ->
           r = r0 /\ (0.5 <= DocumentAnalysisResult.confidence r)%Q).
Proof.
  destruct (analyze_pdf_type_run env _has_meaningful_text
              _estimate_readability pdf_path w)
    as [(pas & tp & w' & Htry & Hrun) | (e & w' & Htry & Hrun)].
  - exists (DocumentAnalyzer._classify_document pas tp), w'.
    split; [exact Hrun|]. split.
    + intros e w1 He. rewrite He in Htry. discriminate.
    + intros r0 w1 Hr. rewrite Hr in Htry. injection Htry as -> _.
      split; [reflexivity|].
      apply Qle_trans with (1 # 2)%Q; [discriminate|].
      apply classify_confidence_floor.
  - exists (DocumentAnalyzer._create_fallback_result e), w'.
    split; [exact Hrun|]. split.
    + intros e' w1 He. rewrite He in Htry. injection Htry as -> _.
      repeat split; reflexivity.
    + intros r0 w1 Hr. rewrite Hr in Htry. discriminate.
Qed.

Lemma C5_analyzer_never_raises_witness :
  exists r w',
    DocumentAnalyzer.analyze_pdf_type env_unreadable (fun _ => true)
      (fun _ => 1 # 2)%Q "broken.pdf" initial_world = (Return r, w')
    /\ DocumentAnalysisResult.processing_path r = OCR_AGENTIC
    /\ (DocumentAnalysisResult.confidence r < 0.5)%Q.
Proof.
  destruct (C5_analyzer_never_raises env_unreadable (fun _ => true)
              (fun _ => 1 # 2)%Q "broken.pdf" initial_world)
    as (r & w' & Hrun & Hfail & _).
  exists r, w'. split; [exact Hrun|].
  destruct (Hfail "cannot open broken document"
              {| clock_reads := 0; pdf_opens := 1; structural_calls := 0;
                 ocr_calls := 0; agent_calls := 0; slept := [] |}
              ltac:(reflexivity)) as (_ & Hp & _ & _ & Hc).
  split; [exact Hp | exact Hc].
Defined.

(** C8.  Two runs of the classifier on the same list of page analyses and
    the same total page count give the same document type and the same
    processing path. *)
Theorem C8_classification_deterministic
  (page_analyses1 page_analyses2 : list PageAnalysis.t)
  (total_pages1 total_pages2 : Z) :
  page_analyses1 = page_analyses2 ->
  total_pages1 = total_pages2 ->
  DocumentAnalysisResult.document_type
    (DocumentAnalyzer._classify_document page_analyses1 total_pages1)
  = DocumentAnalysisResult.document_type
      (DocumentAnalyzer._classify_document page_analyses2 total_pages2)
  /\ DocumentAnalysisResult.processing_path
       (DocumentAnalyzer._classify_document page_analyses1 total_pages1)
     = DocumentAnalysisResult.processing_path
         (DocumentAnalyzer._classify_document page_analyses2 total_pages2).
Proof.
  intros Hpa _. apply classify_by_text_ratio, text_page_ratio_flags.
  now rewrite Hpa.
Qed.

Lemma C8_classification_deterministic_witness :
  DocumentAnalysisResult.document_type
    (DocumentAnalyzer._classify_document
       [page_with_text 1; page_without_text 2] 7)
  = DocumentAnalysisResult.document_type
      (DocumentAnalyzer._classify_document
         [page_with_text 1; page_without_text 2] 7).
Proof.
  exact (proj1 (C8_classification_deterministic
                  [page_with_text 1; page_without_text 2]
                  [page_with_text 1; page_without_text 2] 7 7
                  eq_refl eq_refl)).
Defined.

(** C9.  In every result the analyzer produces, from a classification or
    from the failure fallback, pages_with_text plus pages_requiring_ocr is
    total_pages. *)
Theorem C9_page_estimates_sum_to_total (env : Env)
  (_has_meaningful_text : string -> bool) (_estimate_readability : string -> Q)
  (pdf_path : string) (w : World) :
  (forall page_analyses total_pages,
      let r := DocumentAnalyzer._classify_document page_analyses total_pages in
      DocumentAnalysisResult.pages_with_text r
      + DocumentAnalysisResult.pages_requiring_ocr r
      = DocumentAnalysisResult.total_pages r)
  /\ (forall error_message,
         let r := DocumentAnalyzer._create_fallback_result error_message in
         DocumentAnalysisResult.pages_with_text r
         + DocumentAnalysisResult.pages_requiring_ocr r
         = DocumentAnalysisResult.total_pages r)
  /\ exists r w',
      DocumentAnalyzer.analyze_pdf_type env _has_meaningful_text
        _estimate_readability pdf_path w = (Return r, w')
      /\ DocumentAnalysisResult.pages_with_text r
         + DocumentAnalysisResult.pages_requiring_ocr r
         = DocumentAnalysisResult.total_pages r.
Proof.
  assert (Hc : forall page_analyses total_pages,
             let r := DocumentAnalyzer._classify_document page_analyses
                        total_pages in
             DocumentAnalysisResult.pages_with_text r
             + DocumentAnalysisResult.pages_requiring_ocr r
             = DocumentAnalysisResult.total_pages r).
  { intros pas tp r.
    destruct (classify_document_fields pas tp) as (_ & _ & _ & Ht & Hs).
    fold r in Ht, Hs. rewrite Ht. exact Hs. }
  split; [exact Hc|]. split; [reflexivity|].
  destruct (analyze_pdf_type_run env _has_meaningful_text
              _estimate_readability pdf_path w)
    as [(pas & tp & w' & _ & Hrun) | (e & w' & _ & Hrun)];
    eexists _, _; (split; [exact Hrun|]); [apply Hc | reflexivity].
Qed.

(** ** The structural chunker's validation *)

Lemma count_outside_split (parent_chunks : list StructuralChunkData.t) :
  PyList.count outside_size_range parent_chunks
  = PyList.count (fun s => s <? 100)
      (map StructuralChunkData.chunk_size parent_chunks)
    + PyList.count (fun s => 2000 <? s)
        (map StructuralChunkData.chunk_size parent_chunks).
Proof.
  unfold PyList.count.
  induction parent_chunks as [|c l IH]; [reflexivity|].
  simpl. unfold outside_size_range at 1.
  destruct (Z.ltb_spec (StructuralChunkData.chunk_size c) 100);
    destruct (Z.ltb_spec 2000 (StructuralChunkData.chunk_size c));
    simpl; lia.
Qed.

Lemma validate_chunks_valid_field (parent_chunks : list StructuralChunkData.t) :
  StructuralChunker.validate_chunks parent_chunks !! "valid"
  = Some (PBool
            (match parent_chunks with
             | [] => false
             | _ :: _ =>
                 negb (PyFloat.ltb
                         (inject_Z (Z.of_nat (length parent_chunks)) * 0.3)%Q
                         (inject_Z
                            (PyList.count outside_size_range parent_chunks)))
             end)).
Proof.
  rewrite count_outside_split. unfold StructuralChunker.validate_chunks.
  destruct parent_chunks as [|c l]; [reflexivity|].
  cbn [map length]. rewrite !length_map.
  destruct (PyFloat.ltb _ _); unfold PyDict.dict; cbn [list_to_map foldr];
    simplify_map_eq; reflexivity.
Qed.

(** C7.  The validation marks a list of parent chunks invalid exactly when
    the list is empty or strictly more than 30% of the chunks have a size
    below 100 or above 2000 characters. *)
Theorem C7_validate_chunks_invalid_iff
  (parent_chunks : list StructuralChunkData.t) :
  StructuralChunker.validate_chunks parent_chunks !! "valid"
  = Some (PBool false)
  <-> parent_chunks = []
      \/ (inject_Z (Z.of_nat (length parent_chunks)) * 0.3
          < inject_Z (PyList.count outside_size_range parent_chunks))%Q.
Proof.
  rewrite validate_chunks_valid_field.
  destruct parent_chunks as [|c l].
  - split; [now left | reflexivity].
  - destruct (PyFloat.ltb _ _) eqn:E; simpl negb.
    + split; [|reflexivity]. intros _. right. now apply ltb_true_iff.
    + split; [discriminate|]. intros [H|H]; [discriminate|].
      apply ltb_true_iff in H. congruence.
Qed.

Lemma C7_validate_chunks_invalid_iff_witness :
  StructuralChunker.validate_chunks
    [chunk_of_size 40; chunk_of_size 2500; chunk_of_size 900] !! "valid"
  = Some (PBool false)
  /\ StructuralChunker.validate_chunks
       [chunk_of_size 40; chunk_of_size 500; chunk_of_size 900;
        chunk_of_size 2000; chunk_of_size 100; chunk_of_size 2001;
        chunk_of_size 99; chunk_of_size 1000; chunk_of_size 1000;
        chunk_of_size 1000] !! "valid"
     <> Some (PBool false).
Proof.
  split.
  - apply (proj2 (C7_validate_chunks_invalid_iff
                    [chunk_of_size 40; chunk_of_size 2500; chunk_of_size 900])).
    right. reflexivity.
  - intros H.
    apply (proj1 (C7_validate_chunks_invalid_iff _)) in H.
    destruct H as [H|H]; [discriminate H|].
    vm_compute in H. discriminate H.
Defined.

(** ** Strings *)

Section StringFacts.
Import PyStr.

Lemma cons_word_clean (w : string) (ws : list string) :
  all_nonspace w = true -> Forall clean ws -> Forall clean (cons_word w ws).
Proof.
  intros Hw Hws. unfold cons_word.
  destruct (is_empty w) eqn:E; [exact Hws|].
  constructor; [split; assumption | exact Hws].
Qed.

Lemma split_go_clean (s : string) :
  all_nonspace (split_go s).1 = true /\ Forall clean (split_go s).2.
Proof.
  induction s as [|c s [IHw IHws]]; simpl; [split; [reflexivity|constructor]|].
  destruct (split_go s) as [w ws]. simpl in IHw, IHws.
  destruct (isspace c) eqn:E; simpl.
  - split; [reflexivity | now apply cons_word_clean].
  - rewrite E. simpl. split; assumption.
Qed.

Lemma split_clean (s : string) : Forall clean (split s).
Proof.
  unfold split. pose proof (split_go_clean s) as [Hw Hws].
  destruct (split_go s) as [w ws]. now apply cons_word_clean.
Qed.

Lemma clean_starts (w : string) : clean w -> starts_nonspace w = true.
Proof.
  intros [He Hn]. destruct w as [|c w]; [discriminate|].
  simpl in *. now apply andb_prop in Hn.
Qed.

Lemma all_nonspace_ends (w : string) :
  is_empty w = false -> all_nonspace w = true -> ends_nonspace w = true.
Proof.
  induction w as [|c w IH]; [discriminate|].
  intros _ Hn. simpl in Hn. apply andb_prop in Hn as [Hc Hw]. simpl.
  destruct (is_empty w) eqn:E; [exact Hc | now apply IH].
Qed.

Lemma starts_nonspace_app (a b : string) :
  starts_nonspace a = true -> starts_nonspace (a +:+ b) = true.
Proof. destruct a; [discriminate | trivial]. Qed.

Lemma is_empty_app (a b : string) :
  is_empty b = false -> is_empty (a +:+ b) = false.
Proof. destruct a; trivial. Qed.

Lemma ends_nonspace_nonempty (s : string) :
  ends_nonspace s = true -> is_empty s = false.
Proof. destruct s; [discriminate | trivial]. Qed.

Lemma ends_nonspace_app (a b : string) :
  ends_nonspace b = true -> ends_nonspace (a +:+ b) = true.
Proof.
  intros Hb. induction a as [|c a IH]; [exact Hb|].
  simpl. rewrite is_empty_app; [exact IH|].
  now apply ends_nonspace_nonempty.
Qed.

Lemma lstrip_id (s : string) : starts_nonspace s = true -> lstrip s = s.
Proof.
  destruct s as [|c s]; [discriminate|]. simpl.
  intros H. apply negb_true_iff in H. now rewrite H.
Qed.

Lemma rstrip_id (s : string) : ends_nonspace s = true -> rstrip s = s.
Proof.
  induction s as [|c s IH]; [discriminate|]. simpl.
  destruct (is_empty s) eqn:E.
  - destruct s; [|discriminate]. intros H. apply negb_true_iff in H.
    simpl. now rewrite H.
  - intros H. rewrite (IH H), E, andb_false_r. reflexivity.
Qed.

Lemma strip_id (s : string) :
  starts_nonspace s = true -> ends_nonspace s = true -> strip s = s.
Proof.
  intros Hs He. unfold strip. rewrite (rstrip_id s He). now apply lstrip_id.
Qed.

Lemma join_cons (sep w : string) (l : list string) :
  l <> [] -> join sep (w :: l) = w +:+ sep +:+ join sep l.
Proof. destruct l; [congruence | reflexivity]. Qed.

Lemma join_starts (sep w : string) (l : list string) :
  starts_nonspace w = true -> starts_nonspace (join sep (w :: l)) = true.
Proof.
  intros Hw. destruct l as [|x l]; [exact Hw|].
  rewrite join_cons by discriminate. now apply starts_nonspace_app.
Qed.

Lemma join_ends (sep w : string) (l : list string) :
  ends_nonspace w = true -> ends_nonspace (join sep (l ++ [w])) = true.
Proof.
  intros Hw. induction l as [|x l IH]; [exact Hw|].
  change ((x :: l) ++ [w]) with (x :: (l ++ [w])).
  rewrite join_cons by (destruct l; discriminate).
  now do 2 apply ends_nonspace_app.
Qed.

(** Joining words with any separator gives a string that [strip] leaves
    alone. *)
Lemma strip_join_words (sep w : string) (l : list string) :
  Forall clean (l ++ [w]) -> strip (join sep (l ++ [w])) = join sep (l ++ [w]).
Proof.
  intros Hall. apply strip_id.
  - destruct l as [|x l].
    + simpl. apply clean_starts. now inversion Hall.
    + change ((x :: l) ++ [w]) with (x :: (l ++ [w])).
      apply join_starts, clean_starts. now inversion Hall.
  - apply join_ends.
    apply Forall_app in Hall as [_ Hw]. inversion Hw as [|? ? [He Hn] _]; subst.
    now apply all_nonspace_ends.
Qed.

(** Whitespace at the end of a string does not survive [rstrip]. *)
Lemma rstrip_app_space (s t : string) :
  rstrip t = EmptyString -> rstrip (s +:+ t) = rstrip s.
Proof.
  intros Ht. induction s as [|c s IH]; [exact Ht|].
  simpl. now rewrite IH.
Qed.

End StringFacts.

(** ** The fallback splitter of the agentic chunker *)

Section FallbackSplitter.
Import AgenticChunker.

Lemma fallback_step_inv (st : list ParentChunk.t * list string)
  (word : string) :
  Forall loop_parent_ok st.1 -> Forall clean st.2 -> clean word ->
  Forall loop_parent_ok (fallback_step st word).1
  /\ Forall clean (fallback_step st word).2.
Proof.
  destruct st as [chunks cur]. simpl. intros Hchunks Hcur Hword.
  assert (Hall : Forall clean (cur ++ [word])).
  { apply Forall_app. split; [exact Hcur | now constructor]. }
  unfold fallback_step.
  destruct (_ || _); [|now split].
  destruct (Z.leb_spec 100 (PyStr.len (PyStr.join " " (cur ++ [word]))))
    as [Hlen|Hlen]; [|now split].
  simpl. split; [|constructor].
  apply Forall_app. split; [exact Hchunks|].
  constructor; [|constructor].
  split; [reflexivity|]. simpl.
  now rewrite strip_join_words.
Qed.

Lemma fallback_loop_inv (words : list string)
  (st : list ParentChunk.t * list string) :
  Forall clean words ->
  Forall loop_parent_ok st.1 -> Forall clean st.2 ->
  Forall loop_parent_ok (fold_left fallback_step words st).1
  /\ Forall clean (fold_left fallback_step words st).2.
Proof.
  revert st. induction words as [|word words IH]; intros st Hwords H1 H2.
  - now split.
  - simpl. inversion Hwords as [|? ? Hword Hrest]; subst.
    destruct (fallback_step_inv st word H1 H2 Hword) as [H1' H2'].
    now apply IH.
Qed.

Lemma fallback_remaining_shape (st : list ParentChunk.t * list string) :
  exists last,
    fallback_remaining st = st.1 ++ last
    /\ Forall final_parent_ok last /\ (length last <= 1)%nat.
Proof.
  destruct st as [chunks cur]. unfold fallback_remaining. simpl.
  destruct cur as [|x cur].
  - exists []. rewrite app_nil_r. repeat split; [constructor | simpl; lia].
  - destruct (Z.leb_spec 50
                (PyStr.len (PyStr.strip (PyStr.join " " (x :: cur)))))
      as [Hlen|Hlen].
    + eexists [_]. split; [reflexivity|]. split; [|simpl; lia].
      constructor; [|constructor]. split; [reflexivity | exact Hlen].
    + exists []. rewrite app_nil_r. repeat split; [constructor | simpl; lia].
Qed.

(** The parents the splitter builds from a text. *)
Lemma fallback_parents_shape (text : string) :
  exists main last,
    fallback_remaining (fold_left fallback_step (PyStr.split text) ([], []))
    = main ++ last
    /\ Forall loop_parent_ok main
    /\ Forall final_parent_ok last /\ (length last <= 1)%nat.
Proof.
  destruct (fallback_loop_inv (PyStr.split text) ([], []) (split_clean text))
    as [Hmain _]; [constructor | constructor |].
  destruct (fallback_remaining_shape
              (fold_left fallback_step (PyStr.split text) ([], [])))
    as (last & Heq & Hlast & Hlen).
  eexists _, last. split; [exact Heq|]. now split.
Qed.

Lemma simple_fallback_run (env : Env) (text : string) (w : World) :
  exists result w',
    _create_simple_fallback_chunks env text w = (Return result, w')
    /\ (PyStr.split text <> [] ->
        ChunkingResult.parent_chunks result
        = fallback_remaining
            (fold_left fallback_step (PyStr.split text) ([], []))
        /\ ChunkingResult.processing_metadata result !! "status"
           = Some (PStr "fallback"))
    /\ (PyStr.split text = [] ->
        ChunkingResult.parent_chunks result = []
        /\ ChunkingResult.processing_metadata result !! "status"
           = Some (PStr "empty")).
Proof.
  unfold _create_simple_fallback_chunks.
  destruct (PyStr.split text) as [|word words] eqn:E.
  - eexists _, _. split; [reflexivity|].
    split; [congruence|]. intros _. split; [reflexivity|].
    simpl. unfold PyDict.dict. cbn [list_to_map foldr].
    simplify_map_eq. reflexivity.
  - eexists _, _. split; [reflexivity|].
    split; [|discriminate]. intros _. split; [reflexivity|].
    simpl. unfold PyDict.dict. cbn [list_to_map foldr].
    simplify_map_eq. reflexivity.
Qed.

End FallbackSplitter.

(** C6, as stated, fails: a text of 59 characters gives one parent chunk
    whose content has 59 characters, fewer than 100; and a text without
    words gives a result whose status is 'empty'. *)
Lemma C6_counterexample :
  (exists result w' p,
      AgenticChunker._create_simple_fallback_chunks env_unreadable
        text_of_59_chars initial_world = (Return result, w')
      /\ In p (ChunkingResult.parent_chunks result)
      /\ PyStr.len (ParentChunk.content p) = 59
      /\ ~ 100 <= PyStr.len (ParentChunk.content p))
  /\ (exists result w',
         AgenticChunker._create_simple_fallback_chunks env_unreadable
           "   " initial_world = (Return result, w')
         /\ ChunkingResult.processing_metadata result !! "status"
            <> Some (PStr "fallback")).
Proof.
  split.
  - eexists _, _, _. split; [vm_compute; reflexivity|].
    split; [left; reflexivity|]. split; [reflexivity|].
    vm_compute. intros H. apply H. reflexivity.
  - eexists _, _. split; [vm_compute; reflexivity|]. vm_compute. discriminate.
Qed.

(** C6, amended.  The fallback splitter always returns a result.  Its
    parent chunks are the chunks closed inside the word loop, each with
    confidence 0.6 and at least 100 characters of content, followed by at
    most one chunk made of the remaining words, with confidence 0.5 and at
    least 50 characters of content.  When the text has at least one word
    the metadata records status 'fallback'. *)
Theorem C6_fallback_splitter_chunks (env : Env) (text : string) (w : World) :
  exists result w',
    AgenticChunker._create_simple_fallback_chunks env text w
    = (Return result, w')
    /\ (exists main last,
           ChunkingResult.parent_chunks result = main ++ last
           /\ Forall loop_parent_ok main
           /\ Forall final_parent_ok last /\ (length last <= 1)%nat)
    /\ (forall p,
           In p (ChunkingResult.parent_chunks result) ->
           50 <= PyStr.len (ParentChunk.content p)
           /\ (0.5 <= ParentChunk.confidence_score p <= 0.6)%Q)
    /\ (PyStr.split text <> [] ->
        ChunkingResult.processing_metadata result !! "status"
        = Some (PStr "fallback")).
Proof.
  destruct (simple_fallback_run env text w)
    as (result & w' & Hrun & Hwords & Hnone).
  exists result, w'. split; [exact Hrun|].
  assert (Hshape : exists main last,
             ChunkingResult.parent_chunks result = main ++ last
             /\ Forall loop_parent_ok main
             /\ Forall final_parent_ok last /\ (length last <= 1)%nat).
  { destruct (PyStr.split text) as [|word words] eqn:E.
    - destruct (Hnone eq_refl) as [-> _].
      exists [], []. repeat split; try constructor. simpl. lia.
    - destruct (Hwords ltac:(discriminate)) as [-> _].
      rewrite <- E. apply fallback_parents_shape. }
  split; [exact Hshape|]. split.
  - destruct Hshape as (main & last & -> & Hmain & Hlast & _).
    intros p Hp. apply in_app_or in Hp as [Hp|Hp].
    + rewrite Forall_forall in Hmain.
      rewrite <- list_elem_of_In in Hp.
      destruct (Hmain p Hp) as [-> Hlen].
      split; [lia|]. split; discriminate.
    + rewrite Forall_forall in Hlast.
      rewrite <- list_elem_of_In in Hp.
      destruct (Hlast p Hp) as [-> Hlen].
      split; [lia|]. split; discriminate.
  - intros Hne. now destruct (Hwords Hne).
Qed.

Lemma C6_fallback_splitter_chunks_witness :
  exists result w',
    AgenticChunker._create_simple_fallback_chunks env_unreadable
      text_of_59_chars initial_world = (Return result, w')
    /\ ChunkingResult.processing_metadata result !! "status"
       = Some (PStr "fallback").
Proof.
  destruct (C6_fallback_splitter_chunks env_unreadable text_of_59_chars
              initial_world) as (result & w' & Hrun & _ & _ & Hstatus).
  exists result, w'. split; [exact Hrun|].
  apply Hstatus. vm_compute. discriminate.
Defined.

(** The agent times out on each of the three attempts: the chunker falls
    back to the splitter, whose single parent has confidence 0.5. *)
Example agent_timeouts_fall_back :
  let run :=
    AgenticChunker.chunk_ocr_content env_unreadable
      [ocr_page 1 text_of_59_chars] None initial_world in
  exists result,
    run.1 = Return result
    /\ map ParentChunk.confidence_score (ChunkingResult.parent_chunks result)
       = [0.5%Q]
    /\ ChunkingResult.processing_metadata result !! "status"
       = Some (PStr "fallback")
    /\ agent_calls run.2 = 3%nat.
Proof. cbv zeta. eexists. split; [vm_compute; reflexivity|]. repeat split. Qed.

(** ** Sorting by a key *)

Section SortedFacts.
Context {A : Type} (key : A -> Z).

Lemma insert_by_perm (x : A) (l : list A) :
  Permutation (PyList.insert_by key x l) (x :: l).
Proof.
  induction l as [|y l IH]; simpl; [reflexivity|].
  destruct (key x <=? key y); [reflexivity|].
  rewrite IH. apply perm_swap.
Qed.

Lemma sorted_perm (l : list A) : Permutation (PyList.sorted key l) l.
Proof.
  induction l as [|x l IH]; simpl; [reflexivity|].
  rewrite insert_by_perm. now constructor.
Qed.

Lemma insert_by_comm (x y : A) (l : list A) :
  key x <> key y ->
  PyList.insert_by key x (PyList.insert_by key y l)
  = PyList.insert_by key y (PyList.insert_by key x l).
Proof.
  intros Hxy. induction l as [|z l IH]; simpl.
  - repeat (case_leb; simpl); try reflexivity; lia.
  - repeat (case_leb; simpl); try lia; try reflexivity.
    now rewrite IH.
Qed.

(** Sorting forgets the order of the input when the keys are distinct. *)
Lemma sorted_permutation_invariant (l l' : list A) :
  NoDup (map key l) -> Permutation l l' ->
  PyList.sorted key l = PyList.sorted key l'.
Proof.
  intros Hnd Hperm. induction Hperm as [|x l l' Hp IH|x y l|l l' l'' H1 IH1 H2 IH2].
  - reflexivity.
  - simpl. rewrite IH; [reflexivity|].
    simpl in Hnd. now apply NoDup_cons in Hnd.
  - simpl. apply insert_by_comm.
    simpl in Hnd. apply NoDup_cons in Hnd as [Hin _].
    intros Heq. apply Hin. rewrite Heq. left.
  - rewrite IH1 by exact Hnd. apply IH2.
    now rewrite <- (Permutation_map key H1).
Qed.

Lemma insert_by_ascending (x : A) (l : list A) :
  StronglySorted (fun a b => key a <= key b) l ->
  StronglySorted (fun a b => key a <= key b) (PyList.insert_by key x l).
Proof.
  induction l as [|y l IH]; simpl; intros Hs.
  - repeat constructor.
  - apply StronglySorted_inv in Hs as [Hl Hy].
    destruct (Z.leb_spec (key x) (key y)).
    + constructor; [now constructor|].
      constructor; [assumption|].
      eapply Forall_impl; [exact Hy|]. simpl. intros. lia.
    + constructor; [now apply IH|].
      rewrite insert_by_perm. constructor; [lia | exact Hy].
Qed.

Lemma sorted_ascending (l : list A) :
  StronglySorted (fun a b => key a <= key b) (PyList.sorted key l).
Proof.
  induction l as [|x l IH]; simpl; [constructor|].
  now apply insert_by_ascending.
Qed.

Lemma ascending_strict (l : list A) :
  NoDup (map key l) ->
  StronglySorted (fun a b => key a <= key b) l ->
  StronglySorted (fun a b => key a < key b) l.
Proof.
  induction l as [|x l IH]; intros Hnd Hs; [constructor|].
  simpl in Hnd. apply NoDup_cons in Hnd as [Hin Hnd].
  apply StronglySorted_inv in Hs as [Hl Hx].
  constructor; [now apply IH|].
  rewrite Forall_forall in Hx |- *. intros y Hy.
  specialize (Hx y Hy). simpl in Hx.
  assert (key x <> key y); [|lia].
  intros Heq. apply Hin. rewrite Heq.
  apply list_elem_of_fmap_2. exact Hy.
Qed.

Lemma sorted_strictly_ascending (l : list A) :
  NoDup (map key l) ->
  StronglySorted (fun a b => key a < key b) (PyList.sorted key l).
Proof.
  intros Hnd. apply ascending_strict; [|apply sorted_ascending].
  now rewrite (Permutation_map key (sorted_perm l)).
Qed.

End SortedFacts.

(** ** Combining the OCR pages *)

Lemma combine_single_page (r : OCRResult.t) :
  AgenticChunker._combine_ocr_results [r] = PyStr.strip (OCRResult.text r).
Proof.
  unfold AgenticChunker._combine_ocr_results, AgenticChunker.page_parts.
  simpl. destruct (PyStr.is_empty (PyStr.strip (OCRResult.text r))) eqn:E.
  - simpl. destruct (PyStr.strip (OCRResult.text r)); [reflexivity|discriminate].
  - simpl. unfold PyStr.strip. now rewrite rstrip_app_space.
Qed.

(** C10.  For OCR results with pairwise distinct page numbers, the combined
    text is the same for every permutation of the list: it is made from the
    pages taken in strictly ascending page-number order, each page
    contributing [page_parts], which carries the page separator only when
    the list has more than one element; a one-element list gives the
    stripped text of its page. *)
Theorem C10_combine_permutation_invariant
  (ocr_results ocr_results' : list OCRResult.t) :
  NoDup (map OCRResult.page_number ocr_results) ->
  Permutation ocr_results ocr_results' ->
  AgenticChunker._combine_ocr_results ocr_results
  = AgenticChunker._combine_ocr_results ocr_results'
  /\ (exists pages,
         Permutation pages ocr_results
         /\ StronglySorted
              (fun a b => OCRResult.page_number a < OCRResult.page_number b)
              pages
         /\ AgenticChunker._combine_ocr_results ocr_results
            = PyStr.strip
                (PyStr.concat
                   (flat_map
                      (AgenticChunker.page_parts
                         (bool_decide (1 < length ocr_results)%nat))
                      pages)))
  /\ (forall r,
         PyStr.is_empty (PyStr.strip (OCRResult.text r)) = false ->
         AgenticChunker.page_parts false r
         = [OCRResult.text r; AgenticChunker.nl +:+ AgenticChunker.nl]
         /\ AgenticChunker.page_parts true r
            = [AgenticChunker.nl +:+ "--- Page "
               +:+ PyStr.of_Z (OCRResult.page_number r)
               +:+ " ---" +:+ AgenticChunker.nl;
               OCRResult.text r; AgenticChunker.nl +:+ AgenticChunker.nl])
  /\ (forall r,
         ocr_results = [r] ->
         AgenticChunker._combine_ocr_results ocr_results
         = PyStr.strip (OCRResult.text r)).
Proof.
  intros Hnd Hperm. split; [|split; [|split]].
  - unfold AgenticChunker._combine_ocr_results.
    rewrite (Permutation_length Hperm).
    now rewrite (sorted_permutation_invariant _ _ _ Hnd Hperm).
  - exists (PyList.sorted OCRResult.page_number ocr_results).
    split; [apply sorted_perm|].
    split; [now apply sorted_strictly_ascending|].
    unfold AgenticChunker._combine_ocr_results.
    replace (1 <? Z.of_nat (length ocr_results))
      with (bool_decide (1 < length ocr_results)%nat); [reflexivity|].
    destruct (Z.ltb_spec 1 (Z.of_nat (length ocr_results)));
      [apply bool_decide_eq_true | apply bool_decide_eq_false]; lia.
  - intros r Hr. unfold AgenticChunker.page_parts. rewrite Hr.
    split; reflexivity.
  - intros r ->. apply combine_single_page.
Qed.

Lemma C10_combine_permutation_invariant_witness :
  AgenticChunker._combine_ocr_results
    [ocr_page 2 "second page"; ocr_page 1 "first page"]
  = AgenticChunker._combine_ocr_results
      [ocr_page 1 "first page"; ocr_page 2 "second page"].
Proof.
  refine (proj1 (C10_combine_permutation_invariant
                   [ocr_page 2 "second page"; ocr_page 1 "first page"]
                   [ocr_page 1 "first page"; ocr_page 2 "second page"] _ _)).
  - simpl. apply NoDup_cons. split; [|apply NoDup_singleton].
    intros H. apply list_elem_of_singleton in H. discriminate H.
  - apply perm_swap.
Defined.

(** ** Blank text *)

Section BlankFacts.
Import PyStr.

Lemma all_space_app (a b : string) :
  all_space (a +:+ b) = all_space a && all_space b.
Proof.
  induction a as [|c a IH]; [reflexivity|].
  simpl. rewrite IH. now rewrite andb_assoc.
Qed.

Lemma all_space_rstrip (s : string) : all_space (rstrip s) = all_space s.
Proof.
  induction s as [|c s IH]; [reflexivity|]. simpl.
  destruct (isspace c) eqn:Ec; simpl.
  - destruct (rstrip s) as [|d r] eqn:Er; simpl in *.
    + now rewrite <- IH.
    + now rewrite Ec, IH.
  - now rewrite Ec.
Qed.

Lemma all_space_lstrip (s : string) : all_space (lstrip s) = all_space s.
Proof.
  induction s as [|c s IH]; [reflexivity|]. simpl.
  destruct (isspace c) eqn:Ec; simpl; [exact IH | now rewrite Ec].
Qed.

Lemma lstrip_all_space (s : string) :
  all_space s = true -> lstrip s = EmptyString.
Proof.
  induction s as [|c s IH]; [reflexivity|]. simpl.
  intros H. apply andb_prop in H as [-> Hs]. now apply IH.
Qed.

(** [s.strip()] is empty exactly for blank [s]. *)
Lemma strip_empty_iff (s : string) :
  is_empty (strip s) = true <-> all_space s = true.
Proof.
  unfold strip. split; intros H.
  - rewrite <- all_space_rstrip, <- all_space_lstrip.
    now destruct (lstrip (rstrip s)).
  - rewrite lstrip_all_space; [reflexivity|]. now rewrite all_space_rstrip.
Qed.

Lemma rstrip_ends (s : string) :
  rstrip s = EmptyString \/ ends_nonspace (rstrip s) = true.
Proof.
  induction s as [|c s IH]; [now left|]. simpl.
  destruct (rstrip s) as [|d r] eqn:Er.
  - destruct (isspace c) eqn:Ec; simpl; [now left|]. right. now rewrite Ec.
  - rewrite andb_false_r. right. destruct IH as [IH|IH]; [discriminate|].
    exact IH.
Qed.

Lemma lstrip_starts (s : string) :
  lstrip s = EmptyString \/ starts_nonspace (lstrip s) = true.
Proof.
  induction s as [|c s IH]; [now left|]. simpl.
  destruct (isspace c) eqn:Ec; [exact IH|]. right. simpl. now rewrite Ec.
Qed.

Lemma ends_nonspace_lstrip (s : string) :
  ends_nonspace s = true -> ends_nonspace (lstrip s) = true.
Proof.
  induction s as [|c s IH]; [discriminate|]. intros H. simpl.
  destruct (isspace c) eqn:Ec; [|exact H].
  simpl in H. destruct (is_empty s); [now rewrite Ec in H | now apply IH].
Qed.

(** Stripping twice is stripping once. *)
Lemma strip_strip (s : string) : strip (strip s) = strip s.
Proof.
  unfold strip at 2 3.
  destruct (rstrip_ends s) as [->|Hends]; [reflexivity|].
  apply ends_nonspace_lstrip in Hends.
  destruct (lstrip_starts (rstrip s)) as [E|Hstarts].
  - rewrite E in Hends. discriminate.
  - now apply strip_id.
Qed.


End BlankFacts.

(** ** The retry loop of the agentic chunker *)

Ltac retry_world :=
  cbn [agent_calls clock_reads pdf_opens structural_calls ocr_calls slept
       time_time call_agent asyncio_sleep snd fst
       reply_failed reply_error backoff];
  change (1 <? AgenticChunker.max_retries) with true;
  change (2 <? AgenticChunker.max_retries) with true;
  change (3 <? AgenticChunker.max_retries) with false;
  cbn [agent_calls clock_reads pdf_opens structural_calls ocr_calls slept
       time_time call_agent asyncio_sleep snd fst].

Ltac retry_done :=
  cbn [AgenticChunker.retry_loop default_val]; unfold raise;
  retry_world;
  repeat match goal with
    | |- _ /\ _ => split
    | |- forall _, _ => intro
    | H : Return _ = Raise _ |- _ => discriminate H
    | H : Raise _ = Raise _ |- _ => injection H as <-
    | H : false = true |- _ => discriminate H
    | H : true = false |- _ => discriminate H
    end;
  try reflexivity; try lia;
  try (rewrite <- ?app_assoc; rewrite ?app_nil_r; reflexivity);
  try (eexists; split;
       [rewrite <- ?app_assoc; try (symmetry; apply app_nil_r); reflexivity
       | simpl; lia]).

Section RetryFacts.
Import AgenticChunker.
Variable env : Env.

(** A prompt that can be rendered is the pair it is rendered from. *)
Lemma prompt_returns (text : string) (context : gmap string pyval)
  (prompt : string * gmap string pyval) :
  _create_chunking_prompt text context = Return prompt ->
  prompt = (text, context).
Proof.
  unfold _create_chunking_prompt.
  destruct (format_1f_error _); [discriminate|]. intros H. now injection H.
Qed.

(** One turn of the loop when the prompt can be rendered. *)
Lemma retry_loop_cons (text : string) (context : gmap string pyval)
  (prompt : string * gmap string pyval)
  (attempt : Z) (rest : list Z) (last_error : option string) (w : World) :
  _create_chunking_prompt text context = Return prompt ->
  retry_loop env text context (attempt :: rest) last_error w
  = let w1 := (time_time env w).2 in
    let w2 := (call_agent env text context w1).2 in
    match agent_run env text context (agent_calls w) with
    | AgentData data =>
        (Return
           (IsChunkingResult
              (ChunkingResult.mk (ChunkingResult.parent_chunks data)
                 (PyDict.update (ChunkingResult.processing_metadata data)
                    (PyDict.dict
                       [("processing_time_seconds",
                         PFloat (clock env (clock_reads w2)
                                 - clock env (clock_reads w))%Q);
                        ("attempt_number", PInt attempt);
                        ("model_used", PStr model_name);
                        ("context", PDict context)])))),
         (time_time env w2).2)
    | AgentOther => (Return RunResult, (time_time env w2).2)
    | AgentTimeout =>
        retry_loop env text context rest
          (Some ("Chunking timeout after " +:+ PyStr.of_Z timeout_seconds
                 +:+ "s")) w2
    | AgentError msg =>
        retry_loop env text context rest (Some msg)
          (if attempt <? max_retries
           then (asyncio_sleep (2 ^ attempt) w2).2 else w2)
    end.
Proof.
  intros Hprompt. rewrite (prompt_returns _ _ _ Hprompt) in Hprompt.
  cbn [retry_loop]. rewrite Hprompt. cbn [fst snd]. cbv zeta.
  unfold bind at 1. unfold time_time at 1.
  unfold bind at 1. unfold call_agent at 1.
  cbn [agent_calls clock_reads].
  destruct (agent_run env text context (agent_calls w)); try reflexivity.
  unfold bind. destruct (attempt <? max_retries); reflexivity.
Qed.

(** One turn of the loop when rendering the prompt raises. *)
Lemma retry_loop_cons_unrendered (text : string)
  (context : gmap string pyval) (e : string)
  (attempt : Z) (rest : list Z) (last_error : option string) (w : World) :
  _create_chunking_prompt text context = Raise e ->
  retry_loop env text context (attempt :: rest) last_error w
  = retry_loop env text context rest (Some e)
      (if attempt <? max_retries
       then (asyncio_sleep (2 ^ attempt) w).2 else w).
Proof.
  intros Hprompt. cbn [retry_loop]. rewrite Hprompt.
  unfold bind. destruct (attempt <? max_retries); reflexivity.
Qed.

(** What one run of the retry loop does when the prompt can be rendered,
    by the three replies of the agent. *)
Lemma retry_attempts (text : string) (context : gmap string pyval)
  (prompt : string * gmap string pyval) (w : World) :
  _create_chunking_prompt text context = Return prompt ->
  let run := _chunk_with_retry env text context w in
  let r1 := agent_run env text context (agent_calls w) in
  let r2 := agent_run env text context (S (agent_calls w)) in
  let r3 := agent_run env text context (S (S (agent_calls w))) in
  (agent_calls w < agent_calls run.2 <= agent_calls w + 3)%nat
  /\ (exists s,
         slept run.2 = slept w ++ s /\ fold_left Z.add s 0 <= 6)
  /\ pdf_opens run.2 = pdf_opens w
  /\ structural_calls run.2 = structural_calls w
  /\ ocr_calls run.2 = ocr_calls w
  /\ (reply_failed r1 = false ->
      agent_calls run.2 = S (agent_calls w) /\ slept run.2 = slept w)
  /\ (forall msg,
         run.1 = Raise msg ->
         reply_failed r1 = true /\ reply_failed r2 = true
         /\ reply_failed r3 = true
         /\ msg = "All chunking attempts failed. Last error: "
                  +:+ reply_error r3
         /\ agent_calls run.2 = S (S (S (agent_calls w)))
         /\ slept run.2 = slept w ++ backoff 1 r1 ++ backoff 2 r2)
  /\ (reply_failed r1 = true -> reply_failed r2 = true ->
      reply_failed r3 = true ->
      run.1 = Raise ("All chunking attempts failed. Last error: "
                     +:+ reply_error r3)).
Proof.
  intros Hprompt. unfold _chunk_with_retry.
  change (PyList.range 1 (max_retries + 1)) with [1; 2; 3]. cbv zeta.
  rewrite (retry_loop_cons _ _ _ _ _ _ _ Hprompt). cbv zeta.
  destruct (agent_run env text context (agent_calls w)) as [d1| | |m1];
    [retry_done | retry_done | |];
    (rewrite (retry_loop_cons _ _ _ _ _ _ _ Hprompt); cbv zeta; retry_world;
     destruct (agent_run env text context (S (agent_calls w)))
       as [d2| | |m2];
     [retry_done | retry_done | |]);
    (rewrite (retry_loop_cons _ _ _ _ _ _ _ Hprompt); cbv zeta; retry_world;
     destruct (agent_run env text context (S (S (agent_calls w))))
       as [d3| | |m3];
     retry_done).
Qed.

(** What one run of the retry loop does when rendering the prompt
    raises: the agent is never called. *)
Lemma retry_unrendered (text : string) (context : gmap string pyval)
  (e : string) (w : World) :
  _create_chunking_prompt text context = Raise e ->
  _chunk_with_retry env text context w
  = (Raise ("All chunking attempts failed. Last error: " +:+ e),
     (asyncio_sleep 4 (asyncio_sleep 2 w).2).2).
Proof.
  intros Hprompt. unfold _chunk_with_retry.
  change (PyList.range 1 (max_retries + 1)) with [1; 2; 3].
  rewrite !(retry_loop_cons_unrendered _ _ _ _ _ _ _ Hprompt).
  reflexivity.
Qed.

(** The counters after a run of the retry loop, whatever the context. *)
Lemma retry_world_bounds (text : string) (context : gmap string pyval)
  (w : World) :
  let run := _chunk_with_retry env text context w in
  (agent_calls w <= agent_calls run.2 <= agent_calls w + 3)%nat
  /\ (exists s,
         slept run.2 = slept w ++ s /\ fold_left Z.add s 0 <= 6)
  /\ pdf_opens run.2 = pdf_opens w
  /\ structural_calls run.2 = structural_calls w
  /\ ocr_calls run.2 = ocr_calls w.
Proof.
  destruct (_create_chunking_prompt text context) as [prompt|e] eqn:Hprompt.
  - destruct (retry_attempts _ _ _ w Hprompt) as (Hc & Hs & Hp & Hst & Ho & _).
    cbv zeta. repeat split; try assumption; lia.
  - cbv zeta. rewrite (retry_unrendered _ _ _ w Hprompt).
    cbn [snd asyncio_sleep agent_calls slept pdf_opens structural_calls
         ocr_calls].
    split; [lia|]. split; [|now repeat split].
    exists [2; 4]. split; [now rewrite <- app_assoc | reflexivity].
Qed.

End RetryFacts.


(** ** Runs of the agentic chunker *)

Section ChunkerRuns.
Import AgenticChunker.
Variable env : Env.

Lemma same_calls_refl (w : World) : same_calls w w.
Proof. repeat split. Qed.

Lemma same_calls_tick (w : World) : same_calls w (time_time env w).2.
Proof. repeat split. Qed.

Lemma same_calls_trans (w1 w2 w3 : World) :
  same_calls w1 w2 -> same_calls w2 w3 -> same_calls w1 w3.
Proof.
  unfold same_calls. intros (?&?&?&?&?) (?&?&?&?&?).
  repeat split; congruence.
Qed.

Lemma create_empty_result_run (reason : string) (w : World) :
  _create_empty_result env reason w
  = (Return (ChunkingResult.mk []
               (PyDict.dict [("status", PStr "empty");
                             ("reason", PStr reason);
                             ("timestamp", PFloat (clock env (clock_reads w)))])),
     (time_time env w).2).
Proof. reflexivity. Qed.

Lemma simple_fallback_world (text : string) (w : World) :
  exists result,
    _create_simple_fallback_chunks env text w
    = (Return result, (time_time env w).2).
Proof.
  unfold _create_simple_fallback_chunks.
  destruct (PyStr.split text); eexists; reflexivity.
Qed.

Lemma create_fallback_result_world (ocr_results : list OCRResult.t)
  (error : string) (w : World) :
  exists result,
    _create_fallback_result env ocr_results error w
    = (Return result, (time_time env w).2).
Proof.
  unfold _create_fallback_result.
  destruct (PyStr.is_empty _); [eexists; apply create_empty_result_run|].
  apply simple_fallback_world.
Qed.

Lemma validate_world (value : AgentValue) (original_text : string)
  (w : World) :
  same_calls w (_validate_and_enhance_result env value original_text w).2.
Proof.
  unfold _validate_and_enhance_result.
  destruct value as [data|]; [|apply same_calls_refl].
  destruct (ChunkingResult.parent_chunks data); [|apply same_calls_refl].
  destruct (simple_fallback_world original_text w) as (r & ->).
  apply same_calls_tick.
Qed.

(** What each page contributes is blank exactly when the page is. *)
Lemma all_space_concat (parts : list string) :
  all_space (PyStr.concat parts) = forallb all_space parts.
Proof.
  induction parts as [|p parts IH]; [reflexivity|].
  unfold PyStr.concat in *. simpl. now rewrite all_space_app, IH.
Qed.

Lemma page_parts_blank (multi_page : bool) (r : OCRResult.t) :
  forallb all_space (page_parts multi_page r) = blank_page r.
Proof.
  unfold page_parts, blank_page.
  destruct (PyStr.is_empty (PyStr.strip (OCRResult.text r))) eqn:E.
  - apply strip_empty_iff in E. now rewrite E.
  - assert (Ht : all_space (OCRResult.text r) = false).
    { destruct (all_space (OCRResult.text r)) eqn:Ht; [|reflexivity].
      apply strip_empty_iff in Ht. congruence. }
    rewrite Ht, forallb_app. simpl. rewrite Ht. simpl.
    now rewrite andb_false_r.
Qed.

Lemma combine_blank_iff (ocr_results : list OCRResult.t) :
  PyStr.is_empty (_combine_ocr_results ocr_results) = true
  <-> Forall (fun r => blank_page r = true) ocr_results.
Proof.
  unfold _combine_ocr_results. rewrite strip_empty_iff, all_space_concat.
  set (multi := 1 <? Z.of_nat (length ocr_results)).
  rewrite <- (sorted_perm OCRResult.page_number ocr_results) at 2.
  induction (PyList.sorted OCRResult.page_number ocr_results) as [|r l IH].
  - split; [constructor | reflexivity].
  - simpl. rewrite forallb_app, andb_true_iff, IH, page_parts_blank.
    rewrite Forall_cons. reflexivity.
Qed.

Lemma combine_stripped (ocr_results : list OCRResult.t) :
  PyStr.strip (_combine_ocr_results ocr_results)
  = _combine_ocr_results ocr_results.
Proof. unfold _combine_ocr_results. apply strip_strip. Qed.

End ChunkerRuns.

Section ChunkerTheorems.
Import AgenticChunker.

Lemma chunk_ocr_content_blank (env : Env)
  (ocr_results : list OCRResult.t)
  (page_context : option (gmap string pyval)) (w : World) :
  Forall (fun r => blank_page r = true) ocr_results ->
  chunk_ocr_content env ocr_results page_context w
  = _create_empty_result env "No meaningful text content" w.
Proof.
  intros Hblank. apply combine_blank_iff in Hblank.
  unfold chunk_ocr_content, try_except, chunk_ocr_content_try.
  rewrite combine_stripped, Hblank. now rewrite create_empty_result_run.
Qed.

(** The context prepared for the agent, and whether its prompt can be
    rendered: the average confidence is a float unless the page context
    replaces it. *)
Lemma prepare_context_prompt (text : string) (o : OCRResult.t)
  (os : list OCRResult.t) (page_context : option (gmap string pyval))
  (w : World) :
  exists context,
    _prepare_context text (o :: os) page_context w = (Return context, w)
    /\ if confidence_renders page_context
       then _create_chunking_prompt text context = Return (text, context)
       else exists e, _create_chunking_prompt text context = Raise e.
Proof.
  unfold _prepare_context, ret. cbv zeta.
  eexists. split; [reflexivity|].
  unfold _create_chunking_prompt, PyDict.get, confidence_renders.
  destruct page_context as [extra|].
  - unfold PyDict.update.
    destruct (extra !! "average_ocr_confidence") as [value|] eqn:E.
    + rewrite (lookup_union_Some_l _ _ _ _ E). cbn [default_val].
      destruct (format_1f_error value); eauto.
    + rewrite lookup_union_r by exact E.
      unfold PyDict.dict. cbn [list_to_map foldr fst snd].
      simplify_map_eq. reflexivity.
  - unfold PyDict.dict. cbn [list_to_map foldr fst snd].
    simplify_map_eq. reflexivity.
Qed.

(** The run of the chunker on pages that are not all blank, by what the
    retry loop and the validation did. *)
Lemma chunk_ocr_content_nonblank (env : Env)
  (ocr_results : list OCRResult.t)
  (page_context : option (gmap string pyval)) (w : World) :
  ~ Forall (fun r => blank_page r = true) ocr_results ->
  let combined_text := _combine_ocr_results ocr_results in
  all_space combined_text = false
  /\ exists context,
      (if confidence_renders page_context
       then _create_chunking_prompt combined_text context
            = Return (combined_text, context)
       else exists e, _create_chunking_prompt combined_text context = Raise e)
      /\ chunk_ocr_content env ocr_results page_context w
      = match _chunk_with_retry env combined_text context w with
        | (Return value, w1) =>
            match _validate_and_enhance_result env value combined_text w1 with
            | (Return result, w2) => (Return result, w2)
            | (Raise e, w2) => _create_fallback_result env ocr_results e w2
            end
        | (Raise e, w1) => _create_fallback_result env ocr_results e w1
        end.
Proof.
  intros Hnot. cbv zeta.
  set (combined_text := _combine_ocr_results ocr_results).
  assert (Hstrip : PyStr.strip combined_text = combined_text)
    by apply combine_stripped.
  assert (Hne : PyStr.is_empty combined_text = false).
  { destruct (PyStr.is_empty combined_text) eqn:E; [|reflexivity].
    apply combine_blank_iff in E. contradiction. }
  assert (Hsp : all_space combined_text = false).
  { destruct (all_space combined_text) eqn:E; [|reflexivity].
    apply strip_empty_iff in E. rewrite Hstrip in E. congruence. }
  split; [exact Hsp|].
  destruct ocr_results as [|o os].
  { exfalso. apply Hnot. constructor. }
  destruct (prepare_context_prompt combined_text o os page_context w)
    as (context & Hctx & Hprompt).
  exists context. split; [exact Hprompt|].
  unfold chunk_ocr_content, try_except, chunk_ocr_content_try.
  fold combined_text. rewrite Hstrip, Hne. unfold bind at 1.
  rewrite Hctx. unfold bind.
  destruct (_chunk_with_retry env combined_text context w)
    as [[value|e] w1]; reflexivity.
Qed.


(** The chunker always returns, and what it leaves of the counters. *)
Lemma chunk_ocr_content_world (env : Env)
  (ocr_results : list OCRResult.t)
  (page_context : option (gmap string pyval)) (w : World) :
  exists result w',
    chunk_ocr_content env ocr_results page_context w = (Return result, w')
    /\ pdf_opens w' = pdf_opens w
    /\ structural_calls w' = structural_calls w
    /\ ocr_calls w' = ocr_calls w
    /\ (agent_calls w <= agent_calls w' <= agent_calls w + 3)%nat.
Proof.
  destruct (decide (Forall (fun r => blank_page r = true) ocr_results))
    as [Hblank|Hnot].
  - rewrite (chunk_ocr_content_blank env _ _ _ Hblank), create_empty_result_run.
    eexists _, _. split; [reflexivity|]. simpl. repeat split; lia.
  - destruct (chunk_ocr_content_nonblank env _ page_context w Hnot)
      as (_ & context & _ & ->).
    pose proof (retry_world_bounds env
                  (_combine_ocr_results ocr_results) context w) as Hretry.
    cbv zeta in Hretry.
    destruct Hretry as (Hcalls & _ & Hpdf & Hstruct & Hocr).
    destruct (_chunk_with_retry env _ context w) as [[value|e] w1];
      simpl in Hcalls, Hpdf, Hstruct, Hocr.
    + pose proof (validate_world env value
                    (_combine_ocr_results ocr_results) w1) as Hval.
      destruct (_validate_and_enhance_result env value _ w1)
        as [[result|e] w2]; simpl in Hval.
      * destruct Hval as (?&?&?&?&?).
        eexists _, _. split; [reflexivity|]. repeat split; lia.
      * destruct (create_fallback_result_world env ocr_results e w2)
          as (result & ->).
        destruct Hval as (?&?&?&?&?).
        eexists _, _. split; [reflexivity|]. simpl. repeat split; lia.
    + destruct (create_fallback_result_world env ocr_results e w1)
        as (result & ->).
      eexists _, _. split; [reflexivity|]. simpl. repeat split; lia.
Qed.


(** X8.  The chunker never raises: whatever the OCR results and whatever
    the agent does, it returns a result.  It makes at most three agent
    calls and touches neither the PDF library, nor the OCR service, nor
    the structural chunker. *)
Theorem chunk_ocr_content_never_raises (env : Env)
  (ocr_results : list OCRResult.t)
  (page_context : option (gmap string pyval)) (w : World) :
  exists result w',
    chunk_ocr_content env ocr_results page_context w = (Return result, w')
    /\ pdf_opens w' = pdf_opens w
    /\ structural_calls w' = structural_calls w
    /\ ocr_calls w' = ocr_calls w
    /\ (agent_calls w <= agent_calls w' <= agent_calls w + 3)%nat.
Proof. exact (chunk_ocr_content_world env ocr_results page_context w). Qed.





End ChunkerTheorems.
(** ** The chunking coordinator *)

Section CoordinatorFacts.
Import ChunkingService.
Variable env : Env.
Variable _has_meaningful_text : string -> bool.
Variable _estimate_readability : string -> Q.

Lemma run_path_0 (ef : bool) (p : ProcessingPath) (pdf_path : string)
  (da : DocumentAnalysisResult.t) (tid : Z) (w : World) :
  run_path env ef 0 p pdf_path da tid w = (Raise recursion_error, w).
Proof. destruct p; reflexivity. Qed.

Lemma run_path_S (ef : bool) (d : nat) (p : ProcessingPath)
  (pdf_path : string) (da : DocumentAnalysisResult.t) (tid : Z) (w : World) :
  run_path env ef (S d) p pdf_path da tid w
  = match path_attempt env p pdf_path da tid w with
    | (Return r, w') => (Return r, w')
    | (Raise e, w') =>
        if ef then
          match run_path env ef d (other_path p) pdf_path da tid w' with
          | (Return r, w'') =>
              (Return (set_fallback r (fallback_prefix p +:+ e)), w'')
          | (Raise e', w'') => (Raise e', w'')
          end
        else (Raise e, w')
    end.
Proof.
  destruct p; simpl; unfold try_except, bind.
  - destruct (_process_structural_path_try _ _ _ _ w) as [[r|e] w'];
      [reflexivity|].
    destruct ef; [|reflexivity].
    destruct (_process_ocr_agentic_path _ _ _ _ _ _ w') as [[r|e'] w''];
      reflexivity.
  - simpl.
    destruct (_process_ocr_agentic_path_try _ _ _ _ _ _) as [[r|e] w'];
      [reflexivity|].
    destruct ef; [|reflexivity].
    destruct (_process_structural_path _ _ _ _ _ _ w') as [[r|e'] w''];
      reflexivity.
Qed.

Lemma route_is_run_path (ef : bool) (limit : nat) (p : ProcessingPath)
  (pdf_path : string) (da : DocumentAnalysisResult.t) (tid : Z) :
  _route_processing env ef limit pdf_path p da tid
  = run_path env ef limit p pdf_path da tid.
Proof. destruct p; reflexivity. Qed.

(** The analyzer opens the PDF once and calls nothing else. *)
Lemma analyze_calls (pdf_path : string) (w w' : World)
  (x : exc DocumentAnalysisResult.t) :
  DocumentAnalyzer.analyze_pdf_type env _has_meaningful_text
    _estimate_readability pdf_path w = (x, w') ->
  pdf_opens w' = S (pdf_opens w)
  /\ structural_calls w' = structural_calls w
  /\ ocr_calls w' = ocr_calls w /\ agent_calls w' = agent_calls w.
Proof.
  unfold DocumentAnalyzer.analyze_pdf_type, try_except,
    DocumentAnalyzer.analyze_pdf_type_try, bind, open_pdf.
  destruct (fitz_open env pdf_path (pdf_opens w)) as [doc|e];
    [|intros H; injection H as _ <-; now repeat split].
  rewrite (mapM_stateless _ _
             (analyze_page_stateless _has_meaningful_text
                _estimate_readability doc)).
  destruct (mapM _ _ initial_world).1;
    intros H; injection H as _ <-; now repeat split.
Qed.

(** The analyzer always returns. *)
Lemma analyze_returns (pdf_path : string) (w : World) :
  exists da w',
    DocumentAnalyzer.analyze_pdf_type env _has_meaningful_text
      _estimate_readability pdf_path w = (Return da, w').
Proof.
  destruct (analyze_pdf_type_run env _has_meaningful_text
              _estimate_readability pdf_path w)
    as [(pas & tp & w' & _ & H) | (e & w' & _ & H)]; eauto.
Qed.

(** The attempt of the structural path always raises: the error of the
    structural chunker, or, when the chunker returns its result, the type
    error of the subscript in the loop header. *)
Lemma structural_attempt_raises (pdf_path : string)
  (da : DocumentAnalysisResult.t) (tid : Z) (w : World) :
  path_attempt env STRUCTURAL pdf_path da tid w
  = (Raise
       (match structural_chunker_process_document env pdf_path tid
                (structural_calls w) with
        | Raise e => e
        | Return _ =>
            "'StructuralChunkingResult' object is not subscriptable"
        end),
     (call_structural_chunker env pdf_path tid w).2).
Proof.
  unfold path_attempt, _process_structural_path_try, bind,
    call_structural_chunker.
  destruct (structural_chunker_process_document env pdf_path tid
              (structural_calls w)); reflexivity.
Qed.

(** The attempt of the OCR path always raises: the error of the OCR
    service, the complaint about an empty OCR result, or, after the
    agentic chunker has run, the validation error for the two required
    fields that the call building the outcome leaves out. *)
Lemma ocr_attempt_raises (pdf_path : string)
  (da : DocumentAnalysisResult.t) (tid : Z) (w : World) :
  exists e w',
    path_attempt env OCR_AGENTIC pdf_path da tid w = (Raise e, w')
    /\ pdf_opens w' = pdf_opens w
    /\ structural_calls w' = structural_calls w
    /\ ocr_calls w' = S (ocr_calls w)
    /\ (agent_calls w <= agent_calls w' <= agent_calls w + 3)%nat
    /\ match ocr_service_extract_text_from_pdf env pdf_path (ocr_calls w) with
       | Raise e0 => e = e0 /\ agent_calls w' = agent_calls w
       | Return [] =>
           e = "OCR processing produced no results"
           /\ agent_calls w' = agent_calls w
       | Return (_ :: _) =>
           exists k,
             e = validation_error env k
             /\ HybridChunkingResult.document_analysis_arg k = None
             /\ HybridChunkingResult.processing_time_seconds_arg k = None
       end.
Proof.
  unfold path_attempt, _process_ocr_agentic_path_try.
  unfold bind at 1. unfold time_time at 1. unfold bind at 1.
  unfold call_ocr_service at 1.
  cbn [pdf_opens structural_calls ocr_calls clock_reads agent_calls slept].
  destruct (ocr_service_extract_text_from_pdf env pdf_path (ocr_calls w))
    as [ocr_results|e].
  2: { eexists _, _. split; [reflexivity|]. cbn. repeat split; lia. }
  unfold bind at 1. unfold time_time at 1.
  destruct ocr_results as [|o os].
  { eexists _, _. split; [reflexivity|]. cbn. repeat split; lia. }
  unfold bind at 1. unfold time_time at 1. unfold bind at 1.
  match goal with
  | |- context [AgenticChunker.chunk_ocr_content env ?l ?c ?w0] =>
      destruct (chunk_ocr_content_world env l c w0)
        as (cr & w2 & -> & Hpdf & Hstruct & Hocr & Hagent)
  end.
  unfold bind at 1. unfold time_time at 1.
  destruct (_convert_agentic_result_to_db_format _ _ _) as [ps cs].
  unfold lift, new_HybridChunkingResult, ocr_agentic_outcome_args.
  cbn [HybridChunkingResult.validated
       HybridChunkingResult.document_analysis_arg].
  eexists _, _. split; [reflexivity|].
  cbn [pdf_opens structural_calls ocr_calls agent_calls] in *.
  repeat (split; [lia|]). eexists. split; [reflexivity|]. split; reflexivity.
Qed.

(** Every attempt raises, after one call to the chunker or to the OCR
    service of its path, and without touching the other path. *)
Lemma attempt_raises (p : ProcessingPath) (pdf_path : string)
  (da : DocumentAnalysisResult.t) (tid : Z) (w : World) :
  exists e w',
    path_attempt env p pdf_path da tid w = (Raise e, w')
    /\ pdf_opens w' = pdf_opens w
    /\ other_path_untouched p w w'
    /\ structural_calls w'
       = (structural_calls w + attempts_of STRUCTURAL p 1)%nat
    /\ ocr_calls w' = (ocr_calls w + attempts_of OCR_AGENTIC p 1)%nat.
Proof.
  destruct p.
  - rewrite structural_attempt_raises. eexists _, _.
    split; [reflexivity|]. cbn. repeat split; lia.
  - destruct (ocr_attempt_raises pdf_path da tid w)
      as (e & w' & -> & Hpdf & Hstruct & Hocr & _).
    eexists _, _. split; [reflexivity|]. cbn. repeat split; lia.
Qed.

(** With fallback enabled the two path functions call each other until
    the nesting bound is reached. *)
Lemma run_path_enabled (pdf_path : string) (da : DocumentAnalysisResult.t)
  (tid : Z) (d : nat) :
  forall p w, exists w',
    run_path env true d p pdf_path da tid w = (Raise recursion_error, w')
    /\ pdf_opens w' = pdf_opens w
    /\ structural_calls w'
       = (structural_calls w + attempts_of STRUCTURAL p d)%nat
    /\ ocr_calls w' = (ocr_calls w + attempts_of OCR_AGENTIC p d)%nat.
Proof.
  induction d as [|d IH]; intros p w.
  - rewrite run_path_0. exists w. cbn. repeat split; lia.
  - rewrite run_path_S.
    destruct (attempt_raises p pdf_path da tid w)
      as (e & w1 & -> & Hpdf & _ & Hs & Ho).
    destruct (IH (other_path p) w1) as (w2 & -> & Hpdf2 & Hs2 & Ho2).
    exists w2. split; [reflexivity|].
    cbn [attempts_of] in *. destruct p; cbn [other_path] in *;
      repeat split; lia.
Qed.

(** With fallback disabled a path function makes its one attempt. *)
Lemma run_path_disabled (pdf_path : string) (da : DocumentAnalysisResult.t)
  (tid : Z) (d : nat) (p : ProcessingPath) (w : World) :
  run_path env false (S d) p pdf_path da tid w
  = path_attempt env p pdf_path da tid w.
Proof.
  rewrite run_path_S.
  destruct (attempt_raises p pdf_path da tid w) as (e & w1 & -> & _).
  reflexivity.
Qed.

(** The routing always raises. *)
Lemma run_path_raises (ef : bool) (pdf_path : string)
  (da : DocumentAnalysisResult.t) (tid : Z) (d : nat) (p : ProcessingPath)
  (w : World) :
  exists e w',
    run_path env ef d p pdf_path da tid w = (Raise e, w')
    /\ pdf_opens w' = pdf_opens w.
Proof.
  destruct ef.
  - destruct (run_path_enabled pdf_path da tid d p w) as (w' & -> & H & _).
    eauto.
  - destruct d as [|d]; [rewrite run_path_0; eauto|].
    rewrite run_path_disabled.
    destruct (attempt_raises p pdf_path da tid w) as (e & w' & -> & H & _).
    eauto.
Qed.

(** [_create_fallback_result] re-runs the analyzer, which returns, so the
    [except] block that would bind [ProcessingPath] is skipped and the
    function raises. *)
Lemma create_fallback_result_raises (pdf_path : string) (tid : Z)
  (error : string) (processing_time : Q) (w : World) :
  exists w',
    _create_fallback_result env _has_meaningful_text _estimate_readability
      pdf_path tid error processing_time w
    = (Raise unbound_local_error, w')
    /\ pdf_opens w' = S (pdf_opens w)
    /\ structural_calls w' = structural_calls w
    /\ ocr_calls w' = ocr_calls w /\ agent_calls w' = agent_calls w.
Proof.
  unfold _create_fallback_result, analyze_pdf_type.
  unfold bind at 1. unfold try_except. unfold bind at 1.
  destruct (analyze_returns pdf_path w) as (da & w' & Han).
  rewrite Han. exists w'. split; [reflexivity|].
  exact (analyze_calls _ _ _ _ Han).
Qed.

(** [process_document], by what the routing did. *)
Lemma process_document_eq (ef : bool) (limit : nat) (pdf_path : string)
  (tid : Z) (force : option ProcessingPath) (w0 w2 : World)
  (da : DocumentAnalysisResult.t) :
  let start_time := clock env (clock_reads w0) in
  let p := default_val force (DocumentAnalysisResult.processing_path da) in
  DocumentAnalyzer.analyze_pdf_type env _has_meaningful_text
    _estimate_readability pdf_path (time_time env w0).2 = (Return da, w2) ->
  process_document env _has_meaningful_text _estimate_readability
    ef limit pdf_path tid force w0
  = match run_path env ef limit p pdf_path da tid w2 with
    | (Return r, w3) =>
        (Return (set_processing_info r
                   (clock env (clock_reads w3) - start_time)%Q da p),
         (time_time env w3).2)
    | (Raise e, w3) =>
        _create_fallback_result env _has_meaningful_text
          _estimate_readability pdf_path tid e
          (clock env (clock_reads w3) - start_time)%Q (time_time env w3).2
    end.
Proof.
  intros start_time p Han.
  unfold process_document, process_document_try, analyze_pdf_type.
  unfold bind at 1. unfold try_except. unfold bind at 1.
  change (time_time env w0)
    with (Return start_time, (time_time env w0).2).
  cbv beta iota. rewrite Han. cbv beta iota.
  fold p. rewrite route_is_run_path. unfold bind at 1.
  destruct (run_path _ _ _ _ _ _ _ w2) as [[r|e] w3]; reflexivity.
Qed.

(** [process_document] raises on every input: the routing raises, and so
    does [_create_fallback_result], called from the [except] block. *)
Lemma process_document_raises (ef : bool) (limit : nat) (pdf_path : string)
  (tid : Z) (force : option ProcessingPath) (w0 : World) :
  exists w',
    process_document env _has_meaningful_text _estimate_readability
      ef limit pdf_path tid force w0 = (Raise unbound_local_error, w')
    /\ pdf_opens w' = S (S (pdf_opens w0)).
Proof.
  destruct (analyze_returns pdf_path (time_time env w0).2)
    as (da & w2 & Han).
  rewrite (process_document_eq ef limit pdf_path tid force w0 w2 da Han).
  destruct (run_path_raises ef pdf_path da tid limit
              (default_val force (DocumentAnalysisResult.processing_path da))
              w2) as (e & w3 & -> & Hpdf).
  match goal with
  | |- context [_create_fallback_result _ _ _ ?a ?b ?c ?d ?w] =>
      destruct (create_fallback_result_raises a b c d w)
        as (w' & -> & Hpdf' & _)
  end.
  exists w'. split; [reflexivity|].
  destruct (analyze_calls _ _ _ _ Han) as (Hpdf2 & _).
  cbn [time_time snd pdf_opens] in *. lia.
Qed.

End CoordinatorFacts.

(** C2 fails in the code.  For the unreadable file both paths fail (the
    structural chunker and the OCR service raise), and [process_document]
    does not return a failed outcome: the [except] block calls
    [_create_fallback_result], whose [import] in an [except] block that
    is skipped leaves the name [ProcessingPath] unbound, and the
    [UnboundLocalError] reaches the caller.  This is so with fallback
    enabled or disabled, for every nesting bound and every forced path. *)
Lemma C2_process_document_raises :
  (forall p da w,
      (path_attempt env_unreadable p "broken.pdf" da 7 w).1
      = Raise "no such file")
  /\ forall enable_fallback recursion_limit force_processing_path,
       (ChunkingService.process_document env_unreadable (fun _ => true)
          (fun _ => 1 # 2)%Q enable_fallback recursion_limit "broken.pdf" 7
          force_processing_path initial_world).1
       = Raise ChunkingService.unbound_local_error.
Proof.
  split.
  - intros [|] da w.
    + now rewrite structural_attempt_raises.
    + destruct (ocr_attempt_raises env_unreadable "broken.pdf" da 7 w)
        as (e & w' & -> & _ & _ & _ & _ & Hcase).
      cbn [env_unreadable ocr_service_extract_text_from_pdf] in Hcase.
      destruct Hcase as [-> _]. reflexivity.
  - intros ef limit force.
    destruct (process_document_raises env_unreadable (fun _ => true)
                (fun _ => 1 # 2)%Q ef limit "broken.pdf" 7 force
                initial_world) as (w' & -> & _).
    reflexivity.
Qed.

(** C1 fails in the code.  The caller forces the structural path on a
    scan; the structural chunker raises, so the primary path fails, and
    fallback is enabled.  The attempt of the OCR path that follows reads
    the page and runs the agentic chunker, and then raises too: the call
    that builds its outcome leaves out the required fields
    [document_analysis] and [processing_time_seconds].  The two path
    functions go on calling each other up to the nesting bound, and
    [process_document] raises the [UnboundLocalError] of
    [_create_fallback_result].  No outcome is returned, so none with
    [fallback_occurred] true. *)
Lemma C1_fallback_run_raises :
  let w1 := (time_time env_short_scan initial_world).2 in
  let analysis :=
    DocumentAnalyzer.analyze_pdf_type env_short_scan long_enough
      half_readable "scan.pdf" w1 in
  exists da k,
    analysis.1 = Return da
    /\ structural_chunker_process_document env_short_scan "scan.pdf" 7 0
       = Raise "No structured content could be extracted from PDF"
    /\ (path_attempt env_short_scan STRUCTURAL "scan.pdf" da 7 analysis.2).1
       = Raise "No structured content could be extracted from PDF"
    /\ (path_attempt env_short_scan OCR_AGENTIC "scan.pdf" da 7
          (path_attempt env_short_scan STRUCTURAL "scan.pdf" da 7
             analysis.2).2).1
       = Raise (validation_error env_short_scan k)
    /\ HybridChunkingResult.document_analysis_arg k = None
    /\ HybridChunkingResult.processing_time_seconds_arg k = None
    /\ forall recursion_limit,
         (ChunkingService.process_document env_short_scan long_enough
            half_readable true recursion_limit "scan.pdf" 7
            (Some STRUCTURAL) initial_world).1
         = Raise ChunkingService.unbound_local_error.
Proof.
  cbv zeta.
  destruct (analyze_returns env_short_scan long_enough half_readable
              "scan.pdf" (time_time env_short_scan initial_world).2)
    as (da & w2 & Han).
  destruct (ocr_attempt_raises env_short_scan "scan.pdf" da 7
              (call_structural_chunker env_short_scan "scan.pdf" 7 w2).2)
    as (e & w' & Hocr & _ & _ & _ & _ & Hcase).
  cbn [env_short_scan ocr_service_extract_text_from_pdf] in Hcase.
  destruct Hcase as (k & -> & Hda & Htime).
  exists da, k. rewrite Han. cbn [fst snd].
  rewrite (structural_attempt_raises env_short_scan "scan.pdf" da 7 w2).
  cbn [fst snd]. rewrite Hocr.
  repeat (split; [first [reflexivity | assumption]|]).
  intros limit.
  destruct (process_document_raises env_short_scan long_enough
              half_readable true limit "scan.pdf" 7 (Some STRUCTURAL)
              initial_world) as (w'' & -> & _).
  reflexivity.
Qed.

(** * Further properties *)

(** ** Sampling and classification *)

Section SamplingFacts.
Import DocumentAnalyzer.

Lemma range_ascending (a b : Z) : StronglySorted Z.lt (PyList.range a b).
Proof.
  unfold PyList.range. generalize (Z.to_nat (b - a)) as n. intros n.
  generalize 0%nat as k. induction n as [|n IH]; intros k; simpl; [constructor|].
  constructor; [apply IH|].
  apply Forall_forall. intros x Hx. apply list_elem_of_In in Hx.
  apply in_map_iff in Hx as (i & <- & Hi). apply in_seq in Hi. lia.
Qed.

Lemma range_bounds (a b : Z) :
  Forall (fun x => a <= x < b) (PyList.range a b).
Proof.
  apply Forall_forall. intros x Hx. apply list_elem_of_In in Hx.
  unfold PyList.range in Hx. apply in_map_iff in Hx as (i & <- & Hi).
  apply in_seq in Hi. lia.
Qed.

Lemma range_length (a b : Z) :
  length (PyList.range a b) = Z.to_nat (b - a).
Proof. unfold PyList.range. now rewrite length_map, length_seq. Qed.

Lemma distinct_In (x : Z) (l : list Z) : In x (PyList.distinct l) <-> In x l.
Proof.
  induction l as [|y l IH]; simpl; [tauto|].
  rewrite List.filter_In, IH. destruct (Z.eqb_spec y x); simpl.
  - split; [tauto|]. intros _. now left.
  - split; [intros [?|[? _]]; tauto|].
    intros [?|?]; [tauto|]. right. now split.
Qed.

Lemma distinct_NoDup (l : list Z) : NoDup (PyList.distinct l).
Proof.
  induction l as [|y l IH]; simpl; [constructor|].
  apply NoDup_cons. split.
  - rewrite list_elem_of_In, List.filter_In.
    intros [_ H]. now rewrite Z.eqb_refl in H.
  - clear -IH. induction IH as [|z m Hz Hm IHm]; simpl; [constructor|].
    destruct (negb (y =? z)); [|exact IHm].
    apply NoDup_cons. split; [|exact IHm].
    rewrite list_elem_of_In, List.filter_In. rewrite list_elem_of_In in Hz.
    tauto.
Qed.

Lemma distinct_length (l : list Z) :
  (length (PyList.distinct l) <= length l)%nat.
Proof.
  induction l as [|y l IH]; simpl; [lia|].
  pose proof (List.filter_length_le (fun z => negb (y =? z))
                (PyList.distinct l)). lia.
Qed.

Lemma sample_fold (step t : Z) (candidates acc : list Z) :
  let r :=
    fold_left
      (fun sample_pages i =>
         let page_num := Z.min (i * step) (t - 2) in
         if PyList.mem page_num sample_pages then sample_pages
         else sample_pages ++ [page_num])
      candidates acc in
  (forall x, In x acc -> In x r)
  /\ (length r <= length acc + length candidates)%nat
  /\ (forall x, In x r ->
      In x acc \/ exists i, In i candidates /\ x = Z.min (i * step) (t - 2)).
Proof.
  revert acc. induction candidates as [|i candidates IH]; intros acc;
    cbn [fold_left length].
  - repeat split; [tauto | lia | tauto].
  - match goal with
    | |- context [fold_left ?f candidates ?a] =>
        destruct (IH a) as (Hin & Hlen & Hfrom)
    end.
    cbv zeta in *.
    destruct (PyList.mem (Z.min (i * step) (t - 2)) acc); split; [|split| |split].
    + exact Hin.
    + lia.
    + intros x Hx. destruct (Hfrom x Hx) as [?|(j & Hj & ->)]; [tauto|].
      right. exists j. split; [now right | reflexivity].
    + intros x Hx. apply Hin, in_or_app. now left.
    + rewrite length_app in Hlen. simpl in Hlen. lia.
    + intros x Hx. destruct (Hfrom x Hx) as [Hx'|(j & Hj & ->)].
      * apply in_app_or in Hx' as [?|[<-|[]]]; [tauto|].
        right. exists i. split; [now left | reflexivity].
      * right. exists j. split; [now right | reflexivity].
Qed.

End SamplingFacts.

(** X1.  The sample of pages is strictly ascending, lies inside the
    document and has at most five pages; a document of at most five pages
    is sampled completely, and a longer one always has its first and its
    last page in the sample. *)
Theorem sample_pages_shape (total_pages : Z) :
  let pages := DocumentAnalyzer._determine_sample_pages total_pages in
  StronglySorted Z.lt pages
  /\ Forall (fun p => 0 <= p < total_pages) pages
  /\ (length pages <= 5)%nat
  /\ (total_pages <= 5 -> pages = PyList.range 0 total_pages)
  /\ (5 < total_pages -> In 0 pages /\ In (total_pages - 1) pages).
Proof.
  unfold DocumentAnalyzer._determine_sample_pages,
    DocumentAnalyzer.sample_size_limit.
  destruct (Z.leb_spec total_pages 5) as [Hsmall|Hlarge]; cbv zeta.
  - split; [apply range_ascending|]. split; [apply range_bounds|].
    split; [rewrite range_length; lia|]. split; [reflexivity | lia].
  - change (0 <? 5 - 2) with true. cbv iota.
    change (PyList.range 1 (5 - 2 + 1)) with [1; 2; 3].
    change (5 - 2 + 1) with 4.
    set (step := Z.max 1 (total_pages / 4)).
    destruct (sample_fold step total_pages [1; 2; 3] [0; total_pages - 1])
      as (Hin & Hlen & Hfrom).
    match type of Hin with
    | forall x, _ -> In x ?r => set (raw := r) in *
    end.
    assert (Hperm : Permutation (PyList.sorted (fun x => x) (PyList.distinct raw))
                      (PyList.distinct raw)) by apply sorted_perm.
    split; [|split; [|split; [|split]]].
    + apply (sorted_strictly_ascending (fun x : Z => x)).
      rewrite map_id. apply distinct_NoDup.
    + apply Forall_forall. intros x Hx. apply list_elem_of_In in Hx.
      apply (Permutation_in _ Hperm), distinct_In, Hfrom in Hx.
      assert (1 <= step) by (unfold step; lia).
      destruct Hx as [[<-|[<-|[]]]|(i & Hi & ->)]; [lia|lia|].
      simpl in Hi. destruct Hi as [<-|[<-|[<-|[]]]]; lia.
    + rewrite (Permutation_length Hperm).
      pose proof (distinct_length raw). simpl in Hlen. lia.
    + lia.
    + intros _. split;
        apply (Permutation_in _ (Permutation_sym Hperm)), distinct_In, Hin;
        simpl; tauto.
Qed.

Lemma sample_pages_shape_witness :
  In 0 (DocumentAnalyzer._determine_sample_pages 100)
  /\ In 99 (DocumentAnalyzer._determine_sample_pages 100).
Proof.
  exact (proj2 (proj2 (proj2 (proj2 (sample_pages_shape 100))))
           ltac:(reflexivity)).
Defined.

Section ClassificationFacts.
Import DocumentAnalyzer.
#[local] Open Scope Q_scope.

Lemma leb_false_iff (a b : Q) : PyFloat.leb a b = false <-> b < a.
Proof.
  unfold PyFloat.leb. split; intros H.
  - apply Qnot_le_lt. intros Hle. apply Qle_bool_iff in Hle. congruence.
  - destruct (Qle_bool a b) eqn:E; [|reflexivity].
    apply Qle_bool_iff in E. exfalso. exact (Qlt_not_le _ _ H E).
Qed.

Lemma max_upper_bound (u a b : Q) : a <= u -> b <= u -> PyFloat.max a b <= u.
Proof. intros Ha Hb. unfold PyFloat.max. destruct (PyFloat.ltb a b); assumption. Qed.

Lemma min_le_first (a b : Q) : PyFloat.min a b <= a.
Proof. apply min_upper_bound. Qed.

Lemma round3_upper_bound (x : Q) : x <= 0.98 -> PyFloat.round x 3 <= 0.98.
Proof.
  intros Hx. unfold PyFloat.round.
  change (inject_Z (10 ^ Z.of_nat 3)) with (inject_Z 1000).
  set (y := x * inject_Z 1000).
  assert (Hy : y <= inject_Z 980).
  { apply Qle_trans with (0.98 * inject_Z 1000).
    - apply Qmult_le_compat_r; [exact Hx | discriminate].
    - unfold Qle. simpl. lia. }
  set (n := Qfloor y).
  assert (Hn : (n <= 980)%Z).
  { change 980%Z with (Qfloor (inject_Z 980)). now apply Qfloor_resp_le. }
  assert (Hup : (n = 980)%Z -> PyFloat.ltb (y - inject_Z n) (1 # 2) = true).
  { intros E. apply ltb_true_iff. rewrite E.
    apply Qle_lt_trans with (inject_Z 980 - inject_Z 980).
    - apply Qplus_le_l. exact Hy.
    - reflexivity. }
  match goal with
  | |- inject_Z ?m / _ <= _ => assert (Hm : (m <= 980)%Z)
  end.
  { destruct (Z.eq_dec n 980%Z) as [E|E].
    - rewrite (Hup E). lia.
    - destruct (if PyFloat.ltb _ _ then _ else _); lia. }
  match goal with
  | |- inject_Z ?m / _ <= _ => generalize dependent m
  end.
  intros m Hm. unfold Qdiv, Qle. simpl. lia.
Qed.

Lemma classify_by_ratio_ceiling (t o : Q) : (classify_by_ratio t o).1.2 <= 0.95.
Proof.
  unfold classify_by_ratio.
  destruct (PyFloat.leb native_page_threshold t);
    [|destruct (PyFloat.leb t mixed_threshold)]; simpl;
    try apply min_le_first. discriminate.
Qed.

Lemma adjust_by_quality_ceiling (page_analyses : list PageAnalysis.t) (c : Q) :
  c <= 0.95 -> (adjust_by_quality page_analyses c).1 <= 0.98.
Proof.
  intros Hc. assert (Hc' : c <= 0.98).
  { apply Qle_trans with 0.95; [exact Hc | discriminate]. }
  unfold adjust_by_quality.
  destruct page_analyses as [|p l]; [exact Hc'|]. simpl fst.
  destruct (PyFloat.ltb 0.8 _); [|destruct (PyFloat.ltb _ 0.3)].
  - apply min_le_first.
  - apply max_upper_bound; [discriminate|].
    apply Qle_trans with (c - 0); [|now rewrite Qminus_0_r || (unfold Qminus; rewrite Qplus_0_r)].
    apply Qplus_le_r. discriminate.
  - exact Hc'.
Qed.

Lemma to_int_div (a b : Z) :
  (0 < b)%Z -> PyFloat.to_int (PyFloat.div a b) = Z.quot a b.
Proof.
  intros Hb. destruct b as [|p|p]; try lia.
  unfold PyFloat.to_int, PyFloat.div, Qdiv, Qmult, Qinv. simpl.
  f_equal; lia.
Qed.

End ClassificationFacts.

(** X2.  The classification follows the thresholds on the fraction of
    pages with text: native exactly from 0.8 on, scanned exactly up to
    0.3, mixed exactly strictly between, and the structural path is taken
    exactly for native documents (mixed ones go to the OCR path). *)
Theorem classification_thresholds (page_analyses : list PageAnalysis.t)
  (total_pages : Z) :
  let t := DocumentAnalyzer.text_page_ratio page_analyses in
  let r := DocumentAnalyzer._classify_document page_analyses total_pages in
  (DocumentAnalysisResult.document_type r = NATIVE <-> (0.8 <= t)%Q)
  /\ (DocumentAnalysisResult.document_type r = SCANNED <-> (t <= 0.3)%Q)
  /\ (DocumentAnalysisResult.document_type r = MIXED
      <-> (0.3 < t)%Q /\ (t < 0.8)%Q)
  /\ (DocumentAnalysisResult.processing_path r = STRUCTURAL
      <-> DocumentAnalysisResult.document_type r = NATIVE).
Proof.
  intros t r.
  destruct (classify_document_fields page_analyses total_pages)
    as (Hty & Hpath & _).
  fold t in Hty, Hpath. fold r in Hty, Hpath. rewrite Hty, Hpath.
  unfold DocumentAnalyzer.classify_by_ratio,
    DocumentAnalyzer.native_page_threshold, DocumentAnalyzer.mixed_threshold.
  destruct (PyFloat.leb 0.8 t) eqn:E1; [|destruct (PyFloat.leb t 0.3) eqn:E2];
    simpl.
  - apply leb_true_iff in E1.
    assert (~ (t <= 0.3)%Q).
    { intros H. pose proof (Qle_trans _ _ _ E1 H) as H'. now apply H'. }
    assert (~ (t < 0.8)%Q) by (intros H'; exact (Qlt_not_le _ _ H' E1)).
    repeat split; try tauto; try discriminate; intros; tauto.
  - apply leb_false_iff in E1. apply leb_true_iff in E2.
    assert (~ (0.8 <= t)%Q) by (intros H'; exact (Qlt_not_le _ _ E1 H')).
    assert (~ (0.3 < t)%Q) by (intros H'; exact (Qlt_not_le _ _ H' E2)).
    repeat split; try tauto; try discriminate; intros; tauto.
  - apply leb_false_iff in E1. apply leb_false_iff in E2.
    assert (~ (0.8 <= t)%Q) by (intros H'; exact (Qlt_not_le _ _ E1 H')).
    assert (~ (t <= 0.3)%Q) by (intros H'; exact (Qlt_not_le _ _ E2 H')).
    repeat split; try tauto; try discriminate; intros; tauto.
Qed.

Lemma classification_thresholds_witness :
  DocumentAnalysisResult.document_type
    (DocumentAnalyzer._classify_document
       [page_with_text 1; page_without_text 2] 2) = MIXED.
Proof.
  apply (proj2 (proj1 (proj2 (proj2 (classification_thresholds
                 [page_with_text 1; page_without_text 2] 2))))).
  split; reflexivity.
Defined.

(** X3.  The confidence of every classification lies between 0.5 and
    0.98. *)
Theorem classification_confidence_range (page_analyses : list PageAnalysis.t)
  (total_pages : Z) :
  (0.5 <= DocumentAnalysisResult.confidence
            (DocumentAnalyzer._classify_document page_analyses total_pages)
   <= 0.98)%Q.
Proof.
  split.
  - apply Qle_trans with (1 # 2)%Q; [discriminate|].
    apply classify_confidence_floor.
  - destruct (classify_document_fields page_analyses total_pages)
      as (_ & _ & -> & _).
    apply round3_upper_bound, adjust_by_quality_ceiling,
      classify_by_ratio_ceiling.
Qed.

(** X4.  For a non-negative page count, the extrapolated number of pages
    with text and the number of pages requiring OCR both lie between 0
    and the page count; when every sampled page has text, all pages are
    counted as text pages. *)
Theorem page_estimates_within_total (page_analyses : list PageAnalysis.t)
  (total_pages : Z) :
  0 <= total_pages ->
  let r := DocumentAnalyzer._classify_document page_analyses total_pages in
  0 <= DocumentAnalysisResult.pages_with_text r <= total_pages
  /\ 0 <= DocumentAnalysisResult.pages_requiring_ocr r <= total_pages
  /\ (page_analyses <> [] ->
      Forall (fun p => PageAnalysis.has_text p = true) page_analyses ->
      DocumentAnalysisResult.pages_with_text r = total_pages
      /\ DocumentAnalysisResult.pages_requiring_ocr r = 0).
Proof.
  intros Htotal r.
  assert (Hsum : DocumentAnalysisResult.pages_with_text r
                 + DocumentAnalysisResult.pages_requiring_ocr r = total_pages).
  { now destruct (classify_document_fields page_analyses total_pages)
      as (_ & _ & _ & _ & H). }
  assert (Hw : DocumentAnalysisResult.pages_with_text r
               = match page_analyses with
                 | [] => 0
                 | _ :: _ =>
                     Z.quot (PyList.count PageAnalysis.has_text page_analyses
                             * total_pages)
                       (Z.of_nat (length page_analyses))
                 end).
  { unfold r, DocumentAnalyzer._classify_document.
    destruct (DocumentAnalyzer.classify_by_ratio _ _) as [[[ty pth] c] f].
    destruct (DocumentAnalyzer.adjust_by_quality _ _) as [c' f']. simpl.
    destruct page_analyses as [|p l]; [reflexivity|].
    apply to_int_div. simpl length. lia. }
  pose proof (count_bounds PageAnalysis.has_text page_analyses) as Hc.
  assert (Hrange : 0 <= DocumentAnalysisResult.pages_with_text r <= total_pages).
  { rewrite Hw. destruct page_analyses as [|p l]; [lia|].
    set (n := Z.of_nat (length (p :: l))) in *.
    assert (0 < n) by (unfold n; simpl length; lia).
    rewrite Z.quot_div_nonneg by nia. split.
    - apply Z.div_pos; nia.
    - apply Z.div_le_upper_bound; nia. }
  split; [exact Hrange|]. split; [lia|].
  intros Hne Hall.
  assert (Hcount : PyList.count PageAnalysis.has_text page_analyses
                   = Z.of_nat (length page_analyses)).
  { unfold PyList.count. f_equal. clear -Hall.
    induction Hall as [|p l Hp _ IH]; [reflexivity|].
    simpl. rewrite Hp. simpl. now rewrite IH. }
  assert (DocumentAnalysisResult.pages_with_text r = total_pages); [|lia].
  rewrite Hw, Hcount. destruct page_analyses as [|p l]; [congruence|].
  set (n := Z.of_nat (length (p :: l))) in *.
  assert (0 < n) by (unfold n; simpl length; lia).
  rewrite Z.quot_div_nonneg by nia. rewrite Z.mul_comm. apply Z.div_mul. lia.
Qed.

Lemma page_estimates_within_total_witness :
  0 <= DocumentAnalysisResult.pages_with_text
         (DocumentAnalyzer._classify_document
            [page_with_text 1; page_without_text 4; page_with_text 7] 7)
    <= 7.
Proof.
  exact (proj1 (page_estimates_within_total
                  [page_with_text 1; page_without_text 4; page_with_text 7] 7
                  ltac:(lia))).
Defined.

(** ** Runs of the analyzer *)

Lemma mapM_inv {A B} (f : A -> M B) (l : list A) (w w' : World)
  (ys : list B) :
  mapM f l w = (Return ys, w') ->
  Forall2 (fun x y => exists w1 w2, f x w1 = (Return y, w2)) l ys.
Proof.
  revert w ys. induction l as [|x l IH]; intros w ys; simpl.
  - unfold ret. intros H. injection H as <- _. constructor.
  - unfold bind. destruct (f x w) as [[y|e] w1] eqn:Ef; [|discriminate].
    destruct (mapM f l w1) as [[ys'|e] w2] eqn:El; [|discriminate].
    unfold ret. intros H. injection H as <- <-.
    constructor; [eauto | exact (IH _ _ El)].
Qed.

Lemma analyze_page_fields (_has_meaningful_text : string -> bool)
  (_estimate_readability : string -> Q) (doc : PdfDoc) (page_num : Z)
  (w w' : World) (pa : PageAnalysis.t) :
  DocumentAnalyzer._analyze_page _has_meaningful_text _estimate_readability
    doc page_num w = (Return pa, w') ->
  PageAnalysis.page_number pa = page_num + 1
  /\ PageAnalysis.requires_ocr pa = negb (PageAnalysis.has_text pa)
  /\ 0 <= PageAnalysis.text_length pa.
Proof.
  unfold DocumentAnalyzer._analyze_page, bind, DocumentAnalyzer.load_page.
  destruct (doc !! Z.to_nat page_num) as [[page|e]|]; try discriminate.
  unfold lift, ret. intros H. injection H as <- _. simpl.
  repeat split. unfold PyStr.len. lia.
Qed.

Lemma analyzed_pages_fields (_has_meaningful_text : string -> bool)
  (_estimate_readability : string -> Q) (doc : PdfDoc)
  (page_nums : list Z) (pas : list PageAnalysis.t) :
  Forall2
    (fun page_num pa => exists w1 w2,
         DocumentAnalyzer._analyze_page _has_meaningful_text
           _estimate_readability doc page_num w1 = (Return pa, w2))
    page_nums pas ->
  map PageAnalysis.page_number pas
  = map (fun page_num => page_num + 1) page_nums
  /\ Forall (fun pa =>
               PageAnalysis.requires_ocr pa = negb (PageAnalysis.has_text pa))
       pas.
Proof.
  induction 1 as [|n pa ns pas' (w1 & w2 & Hpa) _ [IH1 IH2]];
    [split; [reflexivity | constructor]|].
  apply analyze_page_fields in Hpa as (Hn & Hocr & _).
  split; [simpl; now rewrite Hn, IH1 | now constructor].
Qed.

Lemma classify_document_pages (page_analyses : list PageAnalysis.t)
  (total_pages : Z) :
  let r := DocumentAnalyzer._classify_document page_analyses total_pages in
  DocumentAnalysisResult.page_analyses r = page_analyses
  /\ DocumentAnalysisResult.analysis_method r
     = if Z.of_nat (length page_analyses) <? total_pages
       then "sampling" else "complete".
Proof.
  unfold DocumentAnalyzer._classify_document.
  destruct (DocumentAnalyzer.classify_by_ratio _ _) as [[[ty pth] c] f].
  destruct (DocumentAnalyzer.adjust_by_quality _ _) as [c' f']. simpl.
  split; reflexivity.
Qed.

(** X5.  When the analysis of a PDF succeeds, the page analyses it
    returns are those of the sampled pages, numbered from 1, at most five
    of them; each one requires OCR exactly when it has no meaningful text;
    and the method is 'complete' exactly for documents of at most five
    pages. *)
Theorem analysis_covers_sampled_pages (env : Env)
  (_has_meaningful_text : string -> bool) (_estimate_readability : string -> Q)
  (pdf_path : string) (w w' : World) (r : DocumentAnalysisResult.t) :
  DocumentAnalyzer.analyze_pdf_type_try env _has_meaningful_text
    _estimate_readability pdf_path w = (Return r, w') ->
  exists doc,
    fitz_open env pdf_path (pdf_opens w) = Return doc
    /\ DocumentAnalysisResult.total_pages r = Z.of_nat (length doc)
    /\ map PageAnalysis.page_number (DocumentAnalysisResult.page_analyses r)
       = map (fun page_num => page_num + 1)
           (DocumentAnalyzer._determine_sample_pages (Z.of_nat (length doc)))
    /\ Forall (fun pa =>
                 PageAnalysis.requires_ocr pa = negb (PageAnalysis.has_text pa))
         (DocumentAnalysisResult.page_analyses r)
    /\ (length (DocumentAnalysisResult.page_analyses r) <= 5)%nat
    /\ (DocumentAnalysisResult.analysis_method r = "complete"
        <-> (length doc <= 5)%nat).
Proof.
  unfold DocumentAnalyzer.analyze_pdf_type_try, bind, open_pdf.
  destruct (fitz_open env pdf_path (pdf_opens w)) as [doc|e]; [|discriminate].
  destruct (mapM _ _ _) as [[pas|e] w1] eqn:Emap; [|discriminate].
  unfold ret. intros H. injection H as <- _. exists doc.
  split; [reflexivity|].
  set (total := Z.of_nat (length doc)) in *.
  destruct (classify_document_fields pas total) as (_ & _ & _ & Htotal & _).
  destruct (classify_document_pages pas total) as (Hpages & Hmethod).
  rewrite Hpages, Hmethod. split; [exact Htotal|].
  apply mapM_inv in Emap.
  pose proof (analyzed_pages_fields _ _ _ _ _ Emap) as Hnums.
  destruct Hnums as [Hnums Hocr]. split; [exact Hnums|]. split; [exact Hocr|].
  assert (Hlen : length pas
                 = length (DocumentAnalyzer._determine_sample_pages total)).
  { rewrite <- (length_map PageAnalysis.page_number pas), Hnums.
    apply length_map. }
  destruct (sample_pages_shape total) as (_ & _ & Hfive & Hsmall & _).
  split; [rewrite Hlen; exact Hfive|].
  rewrite Hlen. destruct (Z.le_gt_cases total 5) as [Hle|Hgt].
  - rewrite (Hsmall Hle), range_length.
    replace (Z.of_nat (Z.to_nat (total - 0)) <? total) with false
      by (symmetry; apply Z.ltb_ge; lia).
    split; [lia | reflexivity].
  - replace (Z.of_nat (length (DocumentAnalyzer._determine_sample_pages total))
             <? total) with true by (symmetry; apply Z.ltb_lt; lia).
    split; [discriminate | lia].
Qed.

Lemma analysis_covers_sampled_pages_witness :
  exists doc,
    fitz_open env_native "book.pdf" 0 = Return doc /\ length doc = 1%nat.
Proof.
  destruct (analysis_covers_sampled_pages env_native long_enough
              half_readable "book.pdf" initial_world
              {| clock_reads := 0; pdf_opens := 1; structural_calls := 0;
                 ocr_calls := 0; agent_calls := 0; slept := [] |}
              _ ltac:(vm_compute; reflexivity))
    as (doc & Hopen & _).
  exists doc. split; [exact Hopen|].
  vm_compute in Hopen. now injection Hopen as <-.
Defined.

(** X6.  A PDF that opens with no page at all is classified as scanned,
    routed to the OCR path with confidence 0.95, and reported with 0
    pages, both estimates 0, by the 'complete' method. *)
Theorem empty_document_is_scanned (env : Env)
  (_has_meaningful_text : string -> bool) (_estimate_readability : string -> Q)
  (pdf_path : string) (w : World) :
  fitz_open env pdf_path (pdf_opens w) = Return [] ->
  exists r,
    (DocumentAnalyzer.analyze_pdf_type env _has_meaningful_text
       _estimate_readability pdf_path w).1 = Return r
    /\ DocumentAnalysisResult.document_type r = SCANNED
    /\ DocumentAnalysisResult.processing_path r = OCR_AGENTIC
    /\ (DocumentAnalysisResult.confidence r == 0.95)%Q
    /\ DocumentAnalysisResult.total_pages r = 0
    /\ DocumentAnalysisResult.pages_with_text r = 0
    /\ DocumentAnalysisResult.pages_requiring_ocr r = 0
    /\ DocumentAnalysisResult.page_analyses r = []
    /\ DocumentAnalysisResult.analysis_method r = "complete".
Proof.
  intros Hopen.
  unfold DocumentAnalyzer.analyze_pdf_type, try_except,
    DocumentAnalyzer.analyze_pdf_type_try, bind, open_pdf.
  rewrite Hopen. simpl. eexists. split; [reflexivity|].
  repeat split.
Qed.

Lemma empty_document_is_scanned_witness :
  exists r,
    (DocumentAnalyzer.analyze_pdf_type env_empty_pdf long_enough
       half_readable "empty.pdf" initial_world).1 = Return r
    /\ DocumentAnalysisResult.document_type r = SCANNED.
Proof.
  destruct (empty_document_is_scanned env_empty_pdf long_enough half_readable
              "empty.pdf" initial_world eq_refl) as (r & Hr & Hty & _).
  exists r. split; assumption.
Defined.

(** ** The chunks of the fallback splitter *)

Section SplitterFacts.
Import AgenticChunker.

Lemma fallback_step_form (st : list ParentChunk.t * list string)
  (word : string) :
  Forall splitter_parent st.1 ->
  Forall splitter_parent (fallback_step st word).1.
Proof.
  destruct st as [chunks cur]. simpl. intros H. unfold fallback_step.
  destruct (_ || _); [|exact H].
  destruct (100 <=? _); [|exact H]. simpl.
  apply Forall_app. split; [exact H|].
  constructor; [|constructor]. left. eexists _, _. reflexivity.
Qed.

Lemma fallback_loop_form (words : list string)
  (st : list ParentChunk.t * list string) :
  Forall splitter_parent st.1 ->
  Forall splitter_parent (fold_left fallback_step words st).1.
Proof.
  revert st. induction words as [|word words IH]; intros st H; [exact H|].
  simpl. apply IH. now apply fallback_step_form.
Qed.

Lemma fallback_parents_form (text : string) :
  Forall splitter_parent
    (fallback_remaining (fold_left fallback_step (PyStr.split text) ([], []))).
Proof.
  pose proof (fallback_loop_form (PyStr.split text) ([], [])
                ltac:(constructor)) as H.
  destruct (fold_left fallback_step (PyStr.split text) ([], []))
    as [chunks cur]. simpl in H. unfold fallback_remaining.
  destruct cur as [|x cur]; [exact H|].
  destruct (50 <=? _); [|exact H].
  apply Forall_app. split; [exact H|].
  constructor; [|constructor]. right. eexists. reflexivity.
Qed.

Lemma endswith_append_dot (s : string) : PyStr.endswith "." (s +:+ ".") = true.
Proof.
  induction s as [|c s IH]; [reflexivity|].
  simpl. destruct (s +:+ ".") eqn:E; [|exact IH].
  destruct s; discriminate.
Qed.

Lemma sentence_children_facts (chunk_text : string) :
  (length (sentence_children chunk_text) <= 10)%nat
  /\ forall i c,
      sentence_children chunk_text !! i = Some c ->
      ChildChunk.sequence_number c = Z.of_nat i + 1
      /\ PyStr.endswith "." (ChildChunk.content c) = true
      /\ ChildChunk.semantic_role c = "main_point".
Proof.
  unfold sentence_children. split.
  - rewrite length_imap, length_take.
    change (Z.to_nat max_child_chunks_per_parent) with 10%nat. lia.
  - intros i c Hc. rewrite list_lookup_imap in Hc.
    destruct (take _ _ !! i) as [sentence|]; [|discriminate].
    simpl in Hc. injection Hc as <-. simpl.
    split; [reflexivity|]. split; [|reflexivity].
    destruct (PyStr.endswith "." sentence) eqn:E; [exact E|].
    apply endswith_append_dot.
Qed.

End SplitterFacts.

(** X11.  Every parent chunk of the fallback splitter has at most ten
    child chunks, numbered 1, 2, ... in order; each child ends with a
    period and has the role 'main_point', except that the remainder
    parent has a single child that repeats its content with the role
    'conclusion'. *)
Theorem splitter_children (env : Env) (text : string) (w w' : World)
  (result : ChunkingResult.t) (p : ParentChunk.t) :
  AgenticChunker._create_simple_fallback_chunks env text w
  = (Return result, w') ->
  In p (ChunkingResult.parent_chunks result) ->
  (length (ParentChunk.child_chunks p) <= 10)%nat
  /\ forall i c,
      ParentChunk.child_chunks p !! i = Some c ->
      ChildChunk.sequence_number c = Z.of_nat i + 1
      /\ ((PyStr.endswith "." (ChildChunk.content c) = true
           /\ ChildChunk.semantic_role c = "main_point")
          \/ (ParentChunk.child_chunks p = [c]
              /\ ChildChunk.content c = ParentChunk.content p
              /\ ChildChunk.semantic_role c = "conclusion")).
Proof.
  intros Hrun Hp.
  destruct (simple_fallback_run env text w)
    as (result' & w2 & Hrun' & Hwords & Hnone).
  rewrite Hrun in Hrun'. injection Hrun' as <- <-.
  destruct (PyStr.split text) as [|word words] eqn:E.
  - destruct (Hnone eq_refl) as [Hparents _].
    rewrite Hparents in Hp. destruct Hp.
  - destruct (Hwords ltac:(discriminate)) as [Hparents _].
    rewrite Hparents, <- E in Hp.
    pose proof (fallback_parents_form text) as Hform.
    rewrite Forall_forall in Hform.
    apply list_elem_of_In in Hp.
    destruct (Hform p Hp) as [(t & n & ->)|(t & ->)].
    + destruct (sentence_children_facts t) as [Hlen Hchildren].
      split; [exact Hlen|]. intros i c Hc.
      destruct (Hchildren i c Hc) as (Hseq & Hdot & Hrole).
      split; [exact Hseq|]. left. now split.
    + split; [simpl; lia|]. intros i c Hc.
      destruct i as [|i]; simpl in Hc; [|destruct i; discriminate].
      injection Hc as <-. split; [reflexivity|]. right. repeat split.
Qed.

Lemma splitter_children_witness :
  exists result p,
    (AgenticChunker._create_simple_fallback_chunks env_unreadable
       text_of_59_chars initial_world).1 = Return result
    /\ In p (ChunkingResult.parent_chunks result)
    /\ (length (ParentChunk.child_chunks p) <= 10)%nat.
Proof.
  destruct (simple_fallback_world env_unreadable text_of_59_chars
              initial_world) as (result & Hrun).
  assert (Hin : exists p, In p (ChunkingResult.parent_chunks result)).
  { vm_compute in Hrun. injection Hrun as <-. eexists. left. reflexivity. }
  destruct Hin as (p & Hp).
  exists result, p. split; [now rewrite Hrun|]. split; [exact Hp|].
  exact (proj1 (splitter_children env_unreadable text_of_59_chars
                  initial_world _ result p Hrun Hp)).
Defined.

(** ** Words in, words out *)

Section WordFacts.
Import PyStr.

Lemma append_empty_r (s : string) : s +:+ EmptyString = s.
Proof.
  induction s as [|c s IH]; [reflexivity|].
  change (String c (s +:+ EmptyString) = String c s). now rewrite IH.
Qed.

Lemma split_go_word (w s : string) :
  all_nonspace w = true ->
  split_go (w +:+ s) = (w +:+ (split_go s).1, (split_go s).2).
Proof.
  induction w as [|c w IH]; intros Hw.
  - change (EmptyString +:+ s) with s.
    change (EmptyString +:+ (split_go s).1) with (split_go s).1.
    now destruct (split_go s).
  - simpl in Hw. apply andb_prop in Hw as [Hc Hw].
    change (String c w +:+ s) with (String c (w +:+ s)).
    change (String c w +:+ (split_go s).1)
      with (String c (w +:+ (split_go s).1)).
    cbn [split_go]. rewrite (IH Hw). apply negb_true_iff in Hc.
    now rewrite Hc.
Qed.

Lemma split_word (w : string) : clean w -> split w = [w].
Proof.
  intros [Hne Hw]. unfold split.
  rewrite <- (append_empty_r w) at 1. rewrite (split_go_word w _ Hw).
  cbn [split_go fst snd]. rewrite append_empty_r. unfold cons_word.
  now rewrite Hne.
Qed.

(** Joining words with a space and splitting again gives the words
    back. *)
Lemma split_join (ws : list string) :
  Forall clean ws -> split (join " " ws) = ws.
Proof.
  induction ws as [|w ws IH]; intros Hall; [reflexivity|].
  inversion Hall as [|? ? Hw Hws]; subst.
  destruct ws as [|w' ws]; [now apply split_word|].
  rewrite join_cons by discriminate.
  specialize (IH Hws). unfold split in *.
  destruct Hw as [Hne Hns]. rewrite (split_go_word w _ Hns).
  change (" " +:+ join " " (w' :: ws))
    with (String " " (join " " (w' :: ws))).
  cbn [split_go]. destruct (split_go (join " " (w' :: ws))) as [x xs].
  change (isspace " ") with true. cbn [fst snd].
  rewrite append_empty_r, IH. unfold cons_word. now rewrite Hne.
Qed.

Lemma strip_join_clean (ws : list string) :
  Forall clean ws -> strip (join " " ws) = join " " ws.
Proof.
  intros Hall. destruct ws as [|w ws]; [reflexivity|].
  destruct (exists_last (l := w :: ws) ltac:(discriminate)) as (l & x & E).
  rewrite E in *. now apply strip_join_words.
Qed.

End WordFacts.

Section CoverageFacts.
Import AgenticChunker.

Lemma fallback_step_words (st : list ParentChunk.t * list string)
  (word : string) :
  Forall clean st.2 -> clean word ->
  Forall clean (fallback_step st word).2
  /\ flat_map parent_words (fallback_step st word).1
     ++ (fallback_step st word).2
     = flat_map parent_words st.1 ++ st.2 ++ [word].
Proof.
  destruct st as [chunks cur]. simpl. intros Hcur Hword.
  assert (Hall : Forall clean (cur ++ [word])).
  { apply Forall_app. split; [exact Hcur | now constructor]. }
  unfold fallback_step.
  destruct (_ || _); [|now split].
  destruct (100 <=? _); [|now split].
  simpl. split; [constructor|].
  rewrite flat_map_app. cbn [flat_map]. unfold parent_words at 2.
  cbn [ParentChunk.content].
  rewrite strip_join_clean, split_join by exact Hall.
  now rewrite !app_nil_r.
Qed.

Lemma fallback_loop_words (words : list string)
  (st : list ParentChunk.t * list string) :
  Forall clean words -> Forall clean st.2 ->
  Forall clean (fold_left fallback_step words st).2
  /\ flat_map parent_words (fold_left fallback_step words st).1
     ++ (fold_left fallback_step words st).2
     = flat_map parent_words st.1 ++ st.2 ++ words.
Proof.
  revert st. induction words as [|word words IH]; intros st Hwords Hcur.
  - simpl. now rewrite app_nil_r.
  - inversion Hwords as [|? ? Hword Hrest]; subst. simpl.
    destruct (fallback_step_words st word Hcur Hword) as [Hc Heq].
    destruct (IH _ Hrest Hc) as [Hc' Heq'].
    split; [exact Hc'|]. rewrite Heq', app_assoc, Heq.
    now rewrite <- !app_assoc.
Qed.

End CoverageFacts.

(** X12.  The fallback splitter keeps the words of the text in order:
    the words of its parent chunks, one chunk after the other, followed by
    the words it dropped, are the words of the text; and it drops only a
    tail whose words, joined by spaces, have fewer than 50 characters. *)
Theorem splitter_keeps_words (env : Env) (text : string) (w w' : World)
  (result : ChunkingResult.t) :
  AgenticChunker._create_simple_fallback_chunks env text w
  = (Return result, w') ->
  exists dropped,
    flat_map parent_words (ChunkingResult.parent_chunks result) ++ dropped
    = PyStr.split text
    /\ PyStr.len (PyStr.join " " dropped) < 50.
Proof.
  intros Hrun.
  destruct (simple_fallback_run env text w)
    as (result' & w2 & Hrun' & Hwords & Hnone).
  rewrite Hrun in Hrun'. injection Hrun' as <- <-.
  destruct (PyStr.split text) as [|word words] eqn:E.
  - destruct (Hnone eq_refl) as [-> _]. exists []. split; [reflexivity|].
    reflexivity.
  - destruct (Hwords ltac:(discriminate)) as [-> _]. rewrite <- E.
    destruct (fallback_loop_words (PyStr.split text) ([], [])
                (split_clean text) ltac:(constructor)) as [Hclean Heq].
    simpl in Heq.
    destruct (fold_left AgenticChunker.fallback_step (PyStr.split text)
                ([], [])) as [chunks cur].
    simpl in Hclean, Heq. unfold AgenticChunker.fallback_remaining.
    destruct cur as [|x cur].
    + exists []. split; [exact Heq | reflexivity].
    + rewrite (strip_join_clean _ Hclean).
      destruct (Z.leb_spec 50 (PyStr.len (PyStr.join " " (x :: cur))))
        as [Hlen|Hlen].
      * exists []. split; [|reflexivity].
        rewrite flat_map_app. cbn [flat_map]. unfold parent_words at 2.
        cbn [ParentChunk.content]. rewrite (split_join _ Hclean).
        now rewrite !app_nil_r.
      * exists (x :: cur). split; [exact Heq | exact Hlen].
Qed.

Lemma splitter_keeps_words_witness :
  exists result dropped,
    (AgenticChunker._create_simple_fallback_chunks env_unreadable
       "Scanned note." initial_world).1 = Return result
    /\ flat_map parent_words (ChunkingResult.parent_chunks result) ++ dropped
       = ["Scanned"; "note."].
Proof.
  destruct (simple_fallback_world env_unreadable "Scanned note."
              initial_world) as (result & Hrun).
  destruct (splitter_keeps_words _ _ _ _ _ Hrun) as (dropped & Heq & _).
  exists result, dropped. split; [now rewrite Hrun | exact Heq].
Defined.

(** ** Runs of the coordinator *)

Section TurnFacts.

Lemma attempts_of_total (p : ProcessingPath) (d : nat) :
  (attempts_of STRUCTURAL p d + attempts_of OCR_AGENTIC p d = d)%nat.
Proof.
  revert p. induction d as [|d IH]; intros p; [reflexivity|].
  cbn [attempts_of]. specialize (IH (other_path p)). destruct p; lia.
Qed.

Lemma attempts_of_alternate (p : ProcessingPath) (d : nat) :
  (attempts_of (other_path p) p d <= attempts_of p p d
   <= S (attempts_of (other_path p) p d))%nat.
Proof.
  assert (H : forall d p,
             (attempts_of (other_path p) p d <= attempts_of p p d
              <= S (attempts_of (other_path p) p d))%nat
             /\ (attempts_of p (other_path p) d
                 <= attempts_of (other_path p) (other_path p) d
                 <= S (attempts_of p (other_path p) d))%nat).
  { clear. induction d as [|d IH]; intros p; [cbn; lia|].
    destruct (IH p) as [H1 H2]. destruct (IH (other_path p)) as [H3 H4].
    cbn [attempts_of]. destruct p; cbn [other_path] in *; lia. }
  apply H.
Qed.

End TurnFacts.

(** X14.  With fallback disabled, a failure of the chosen path ends the
    run after that one attempt: the chunker or the OCR service of the
    chosen path has been called once, the collaborators of the other path
    not at all.  The run does not end with an outcome, though:
    [_create_fallback_result] runs the analyzer a second time, so that
    the analyzer has opened the PDF twice, and then raises the
    [UnboundLocalError] that reaches the caller. *)
Theorem fallback_disabled_fails_at_once (env : Env)
  (_has_meaningful_text : string -> bool) (_estimate_readability : string -> Q)
  (recursion_limit : nat) (pdf_path : string)
  (textbook_id : Z) (force_processing_path : option ProcessingPath)
  (w0 w2 : World) (da : DocumentAnalysisResult.t) :
  (0 < recursion_limit)%nat ->
  DocumentAnalyzer.analyze_pdf_type env _has_meaningful_text
    _estimate_readability pdf_path (time_time env w0).2 = (Return da, w2) ->
  let p :=
    default_val force_processing_path
      (DocumentAnalysisResult.processing_path da) in
  exists w',
    ChunkingService.process_document env _has_meaningful_text
      _estimate_readability false recursion_limit pdf_path
      textbook_id force_processing_path w0
    = (Raise ChunkingService.unbound_local_error, w')
    /\ pdf_opens w' = S (S (pdf_opens w0))
    /\ other_path_untouched p w0 w'
    /\ structural_calls w'
       = (structural_calls w0 + attempts_of STRUCTURAL p 1)%nat
    /\ ocr_calls w' = (ocr_calls w0 + attempts_of OCR_AGENTIC p 1)%nat.
Proof.
  intros Hlimit Han p.
  rewrite (process_document_eq env _has_meaningful_text
             _estimate_readability false recursion_limit pdf_path
             textbook_id force_processing_path w0 w2 da Han).
  fold p. clearbody p.
  destruct recursion_limit as [|d]; [lia|].
  rewrite run_path_disabled.
  destruct (attempt_raises env p pdf_path da textbook_id w2)
    as (e & w3 & -> & Hpdf & Hother & Hs & Ho).
  match goal with
  | |- context [ChunkingService._create_fallback_result _ _ _ ?a ?b ?c ?d ?w] =>
      destruct (create_fallback_result_raises env _has_meaningful_text
                  _estimate_readability a b c d w)
        as (w' & -> & Hpdf' & Hs' & Ho' & Ha')
  end.
  destruct (analyze_calls env _ _ _ _ _ _ Han) as (Hpdf2 & Hs2 & Ho2 & Ha2).
  exists w'. split; [reflexivity|].
  cbn [time_time snd pdf_opens structural_calls ocr_calls agent_calls] in *.
  split; [lia|]. split; [|split; lia].
  destruct p; unfold other_path_untouched in *.
  - destruct Hother as [H1 H2]. split; congruence.
  - congruence.
Qed.

Lemma fallback_disabled_fails_at_once_witness :
  exists w',
    ChunkingService.process_document env_short_scan long_enough
      half_readable false 1000 "scan.pdf" 7 (Some STRUCTURAL) initial_world
    = (Raise ChunkingService.unbound_local_error, w')
    /\ structural_calls w' = 1%nat /\ ocr_calls w' = 0%nat.
Proof.
  destruct (analyze_returns env_short_scan long_enough half_readable
              "scan.pdf" (time_time env_short_scan initial_world).2)
    as (da & w2 & Han).
  destruct (fallback_disabled_fails_at_once env_short_scan long_enough
              half_readable 1000 "scan.pdf" 7 (Some STRUCTURAL)
              initial_world w2 da ltac:(lia) Han)
    as (w' & Hrun & _ & _ & Hs & Ho).
  exists w'. split; [exact Hrun|]. split; [exact Hs | exact Ho].
Defined.

(** X16.  The coordinator never returns an outcome.  On every input,
    with fallback enabled or disabled, whatever the collaborators answer,
    [process_document] raises the [UnboundLocalError] of
    [_create_fallback_result]; by then the analyzer has opened the PDF
    twice, once for the analysis and once for the analysis that
    [_create_fallback_result] repeats. *)
Theorem process_document_never_returns (env : Env)
  (_has_meaningful_text : string -> bool) (_estimate_readability : string -> Q)
  (enable_fallback : bool) (recursion_limit : nat) (pdf_path : string)
  (textbook_id : Z) (force_processing_path : option ProcessingPath)
  (w0 : World) :
  exists w',
    ChunkingService.process_document env _has_meaningful_text
      _estimate_readability enable_fallback recursion_limit pdf_path
      textbook_id force_processing_path w0
    = (Raise ChunkingService.unbound_local_error, w')
    /\ pdf_opens w' = S (S (pdf_opens w0)).
Proof.
  exact (process_document_raises env _has_meaningful_text
           _estimate_readability enable_fallback recursion_limit pdf_path
           textbook_id force_processing_path w0).
Qed.

(** X17.  Every attempt of a path raises, and this is the error it
    raises.  The structural attempt raises the error of the structural
    chunker or, when the chunker returns its result, the type error of
    subscripting that result.  The OCR attempt raises the error of the OCR
    service, or the complaint about an OCR result without pages, or, when
    there are pages, the validation error of the call that builds the
    outcome without [document_analysis] and [processing_time_seconds];
    a failing agent does not change the error. *)
Theorem path_failure_causes (env : Env) (pdf_path : string)
  (da : DocumentAnalysisResult.t) (textbook_id : Z) (w : World) :
  (path_attempt env STRUCTURAL pdf_path da textbook_id w).1
  = Raise
      (match structural_chunker_process_document env pdf_path textbook_id
               (structural_calls w) with
       | Raise e => e
       | Return _ => "'StructuralChunkingResult' object is not subscriptable"
       end)
  /\ exists e,
       (path_attempt env OCR_AGENTIC pdf_path da textbook_id w).1 = Raise e
       /\ match ocr_service_extract_text_from_pdf env pdf_path
                  (ocr_calls w) with
          | Raise e0 => e = e0
          | Return [] => e = "OCR processing produced no results"
          | Return (_ :: _) =>
              exists k,
                e = validation_error env k
                /\ HybridChunkingResult.document_analysis_arg k = None
                /\ HybridChunkingResult.processing_time_seconds_arg k = None
          end.
Proof.
  split; [now rewrite structural_attempt_raises|].
  destruct (ocr_attempt_raises env pdf_path da textbook_id w)
    as (e & w' & -> & _ & _ & _ & _ & Hcase).
  exists e. split; [reflexivity|].
  destruct (ocr_service_extract_text_from_pdf env pdf_path (ocr_calls w))
    as [[|o os]|e0]; [tauto | exact Hcase | tauto].
Qed.

(** X22.  With fallback enabled no run stops after both paths have
    failed once: each path function calls the other one from its
    [except] block, so the two paths take turns, starting with the chosen
    one, until the nesting bound is reached.  For a bound of [n] nested
    path calls the structural chunker and the OCR service have been
    called [n] times in all, the chosen path as often as the other one or
    once more, before [process_document] raises. *)
Theorem fallback_alternates_until_nesting_bound (env : Env)
  (_has_meaningful_text : string -> bool) (_estimate_readability : string -> Q)
  (recursion_limit : nat) (pdf_path : string)
  (textbook_id : Z) (force_processing_path : option ProcessingPath)
  (w0 w2 : World) (da : DocumentAnalysisResult.t) :
  DocumentAnalyzer.analyze_pdf_type env _has_meaningful_text
    _estimate_readability pdf_path (time_time env w0).2 = (Return da, w2) ->
  let p :=
    default_val force_processing_path
      (DocumentAnalysisResult.processing_path da) in
  exists w',
    ChunkingService.process_document env _has_meaningful_text
      _estimate_readability true recursion_limit pdf_path
      textbook_id force_processing_path w0
    = (Raise ChunkingService.unbound_local_error, w')
    /\ structural_calls w'
       = (structural_calls w0 + attempts_of STRUCTURAL p recursion_limit)%nat
    /\ ocr_calls w'
       = (ocr_calls w0 + attempts_of OCR_AGENTIC p recursion_limit)%nat
    /\ (attempts_of STRUCTURAL p recursion_limit
        + attempts_of OCR_AGENTIC p recursion_limit = recursion_limit)%nat
    /\ (attempts_of (other_path p) p recursion_limit
        <= attempts_of p p recursion_limit
        <= S (attempts_of (other_path p) p recursion_limit))%nat.
Proof.
  intros Han p.
  rewrite (process_document_eq env _has_meaningful_text
             _estimate_readability true recursion_limit pdf_path
             textbook_id force_processing_path w0 w2 da Han).
  fold p. clearbody p.
  destruct (run_path_enabled env pdf_path da textbook_id recursion_limit
              p w2) as (w3 & -> & _ & Hs & Ho).
  match goal with
  | |- context [ChunkingService._create_fallback_result _ _ _ ?a ?b ?c ?d ?w] =>
      destruct (create_fallback_result_raises env _has_meaningful_text
                  _estimate_readability a b c d w)
        as (w' & -> & _ & Hs' & Ho' & _)
  end.
  destruct (analyze_calls env _ _ _ _ _ _ Han) as (_ & Hs2 & Ho2 & _).
  exists w'. split; [reflexivity|].
  cbn [time_time snd structural_calls ocr_calls] in *.
  split; [lia|]. split; [lia|].
  split; [apply attempts_of_total | apply attempts_of_alternate].
Qed.

Lemma fallback_alternates_until_nesting_bound_witness :
  exists w',
    ChunkingService.process_document env_short_scan long_enough
      half_readable true 5 "scan.pdf" 7 (Some STRUCTURAL) initial_world
    = (Raise ChunkingService.unbound_local_error, w')
    /\ structural_calls w' = 3%nat /\ ocr_calls w' = 2%nat.
Proof.
  destruct (analyze_returns env_short_scan long_enough half_readable
              "scan.pdf" (time_time env_short_scan initial_world).2)
    as (da & w2 & Han).
  destruct (fallback_alternates_until_nesting_bound env_short_scan
              long_enough half_readable 5 "scan.pdf" 7 (Some STRUCTURAL)
              initial_world w2 da Han)
    as (w' & Hrun & Hs & Ho & _).
  exists w'. split; [exact Hrun|]. split; [exact Hs | exact Ho].
Defined.
(** ** The replies of the agent *)

Section ReplyFacts.
Import AgenticChunker.


End ReplyFacts.





(** ** The quality score of the OCR path *)

Section QualityFacts.
#[local] Open Scope Q_scope.

Lemma sum_acc_bounds (a b : Q) (l : list Q) (acc : Q) :
  Forall (fun x => a <= x <= b) l ->
  acc + inject_Z (Z.of_nat (length l)) * a <= fold_left Qplus l acc
  /\ fold_left Qplus l acc <= acc + inject_Z (Z.of_nat (length l)) * b.
Proof.
  intros Hall. revert acc. induction Hall as [|x l [Hax Hxb] _ IH]; intros acc.
  - cbn [fold_left length]. change (inject_Z (Z.of_nat 0)) with 0.
    split; lra.
  - cbn [fold_left length]. destruct (IH (acc + x)) as [Hlo Hhi].
    rewrite Nat2Z.inj_succ, <- Z.add_1_r, inject_Z_plus.
    split; [eapply Qle_trans; [|exact Hlo] | eapply Qle_trans; [exact Hhi|]];
      change (inject_Z 1) with 1; lra.
Qed.

(** The mean of a non-empty list lies between any two bounds of its
    elements. *)
Lemma mean_bounds (a b : Q) (l : list Q) :
  l <> [] -> Forall (fun x => a <= x <= b) l ->
  a <= PyFloat.sum l / inject_Z (Z.of_nat (length l)) <= b.
Proof.
  intros Hne Hall. unfold PyFloat.sum.
  destruct (sum_acc_bounds a b l 0 Hall) as [Hlo Hhi].
  assert (Hn : 0 < inject_Z (Z.of_nat (length l))).
  { destruct l; [congruence|]. change 0 with (inject_Z 0).
    rewrite <- Zlt_Qlt. simpl. lia. }
  split.
  - apply Qle_shift_div_l; [exact Hn|]. lra.
  - apply Qle_shift_div_r; [exact Hn|]. lra.
Qed.

Lemma min_one_range (x : Q) : 0 <= x -> 0 <= PyFloat.min 1 x <= 1.
Proof.
  intros Hx. unfold PyFloat.min.
  destruct (PyFloat.ltb x 1) eqn:E; [|split; lra].
  apply ltb_true_iff in E. split; lra.
Qed.

End QualityFacts.

(** X20.  When no OCR page has a negative confidence and every parent
    chunk has a confidence between 0 and 1, the quality score of the OCR
    path lies between 0 and 1; without parent chunks it is at most 0.4.
    Without OCR pages and without parent chunks it is 0.3. *)
Theorem quality_score_range (ocr_results : list OCRResult.t)
  (chunking_result : ChunkingResult.t) :
  Forall (fun r => (0 <= OCRResult.confidence r)%Q) ocr_results ->
  Forall (fun c => (0 <= ParentChunk.confidence_score c <= 1)%Q)
    (ChunkingResult.parent_chunks chunking_result) ->
  let score :=
    ChunkingService._calculate_quality_score ocr_results chunking_result in
  (0 <= score <= 1)%Q
  /\ (ChunkingResult.parent_chunks chunking_result = [] ->
      (score <= 0.4)%Q)
  /\ (ocr_results = [] ->
      ChunkingResult.parent_chunks chunking_result = [] ->
      score = 0.3%Q).
Proof.
  intros Hocr Hchunks. cbv zeta.
  unfold ChunkingService._calculate_quality_score.
  assert (Ho : ocr_results <> [] ->
               (0 <= PyFloat.min 1
                       (ChunkingService.ocr_average_confidence ocr_results
                        / 100) <= 1)%Q).
  { intros Hne. apply min_one_range.
    unfold ChunkingService.ocr_average_confidence.
    rewrite <- (length_map OCRResult.confidence).
    assert (H : (0 <= PyFloat.sum (map OCRResult.confidence ocr_results)
                      / inject_Z (Z.of_nat (length (map OCRResult.confidence
                                                      ocr_results))))%Q).
    { assert (Hs : (0 <= PyFloat.sum (map OCRResult.confidence ocr_results))%Q).
      { unfold PyFloat.sum.
        assert (Hgen : forall l acc,
                   Forall (fun x => (0 <= x)%Q) l -> (0 <= acc)%Q ->
                   (0 <= fold_left Qplus l acc)%Q).
        { induction l as [|x l IH]; intros acc Hl Hacc; [exact Hacc|].
          inversion Hl; subst. cbn [fold_left]. apply IH; [assumption|lra]. }
        apply Hgen; [|lra]. apply Forall_map.
        exact Hocr. }
      apply Qle_shift_div_l; [|lra].
      destruct ocr_results; [congruence|].
      change 0%Q with (inject_Z 0). rewrite <- Zlt_Qlt. simpl. lia. }
    apply Qle_shift_div_l; [reflexivity|]. lra. }
  assert (Hc : ChunkingResult.parent_chunks chunking_result <> [] ->
               (0 <= ChunkingService.average_chunk_confidence
                       (ChunkingResult.parent_chunks chunking_result)
                <= 1)%Q).
  { intros Hne. unfold ChunkingService.average_chunk_confidence.
    rewrite <- (length_map ParentChunk.confidence_score).
    apply mean_bounds.
    - destruct (ChunkingResult.parent_chunks chunking_result);
        [congruence | discriminate].
    - apply Forall_map. exact Hchunks. }
  destruct ocr_results as [|o os];
    destruct (ChunkingResult.parent_chunks chunking_result) as [|c cs].
  - cbn. split; [split; lra|]. split; [intros _; lra | reflexivity].
  - specialize (Hc ltac:(discriminate)).
    destruct (100 <? _)%Z; unfold PyFloat.sum; cbn [app fold_left];
      (split; [split; lra|]); split; intros; congruence.
  - specialize (Ho ltac:(discriminate)).
    unfold PyFloat.sum; cbn [app fold_left].
    split; [split; lra|]. split; [intros _; lra | intros; congruence].
  - specialize (Ho ltac:(discriminate)). specialize (Hc ltac:(discriminate)).
    destruct (100 <? _)%Z; unfold PyFloat.sum; cbn [app fold_left];
      (split; [split; lra|]); split; intros; congruence.
Qed.

Lemma quality_score_range_witness :
  (0 <= ChunkingService._calculate_quality_score
          [ocr_page 1 "Scanned note."]
          (ChunkingResult.mk [agent_chunk] ∅) <= 1)%Q.
Proof.
  apply (quality_score_range [ocr_page 1 "Scanned note."]
           (ChunkingResult.mk [agent_chunk] ∅)).
  - repeat constructor. vm_compute. discriminate.
  - repeat constructor; vm_compute; discriminate.
Defined.

(** ** The primary language *)

Section LanguageFacts.

Lemma pages_in_snoc (lang : string) (seen : list OCRResult.t)
  (r : OCRResult.t) :
  pages_in lang (seen ++ [r])
  = pages_in lang seen
    + (if String.eqb (OCRResult.language_detected r) lang then 1 else 0).
Proof.
  unfold pages_in, PyList.count. rewrite List.filter_app, length_app.
  cbn [List.filter]. destruct (String.eqb _ lang); cbn [length]; lia.
Qed.

Lemma pages_in_nonneg (lang : string) (seen : list OCRResult.t) :
  0 <= pages_in lang seen.
Proof. unfold pages_in, PyList.count. lia. Qed.

Lemma pages_in_positive (lang : string) (seen : list OCRResult.t) :
  0 < pages_in lang seen <->
  exists r, In r seen /\ OCRResult.language_detected r = lang.
Proof.
  unfold pages_in, PyList.count. split.
  - intros Hpos.
    destruct (List.filter _ seen) as [|r l] eqn:E; [simpl in Hpos; lia|].
    assert (Hin : In r (List.filter
                          (fun r => String.eqb (OCRResult.language_detected r)
                                      lang) seen))
      by (rewrite E; now left).
    apply filter_In in Hin as [Hin Heq]. apply String.eqb_eq in Heq. eauto.
  - intros (r & Hin & Heq).
    assert (Hf : In r (List.filter
                         (fun r => String.eqb (OCRResult.language_detected r)
                                     lang) seen)).
    { apply filter_In. split; [exact Hin|]. now apply String.eqb_eq. }
    destruct (List.filter _ seen); [destruct Hf | simpl; lia].
Qed.

Lemma lookup_incr (k k' : string) (counts : list (string * Z)) :
  count_lookup k' (PyDict.incr k counts)
  = if String.eqb k' k
    then Some (default_val (count_lookup k counts) 0 + 1)
    else count_lookup k' counts.
Proof.
  induction counts as [|[k0 n0] counts IH]; cbn [PyDict.incr count_lookup].
  - destruct (String.eqb k' k); reflexivity.
  - destruct (String.eqb_spec k k0) as [->|Hne]; cbn [count_lookup].
    + destruct (String.eqb k' k0); reflexivity.
    + rewrite IH. destruct (String.eqb_spec k' k0) as [->|Hne'].
      * destruct (String.eqb_spec k0 k) as [->|_]; [congruence|reflexivity].
      * reflexivity.
Qed.

Lemma incr_distinct (k : string) (counts : list (string * Z)) :
  distinct_keys counts -> distinct_keys (PyDict.incr k counts).
Proof.
  induction counts as [|[k0 n0] counts IH];
    cbn [PyDict.incr distinct_keys].
  - intros _. now split.
  - intros [Hnone Hrest]. destruct (String.eqb_spec k k0) as [->|Hne];
      cbn [distinct_keys]; [now split|].
    split; [|now apply IH]. rewrite lookup_incr.
    destruct (String.eqb_spec k0 k) as [->|_]; [congruence | exact Hnone].
Qed.

Lemma lookup_of_entry (counts : list (string * Z)) (k : string) (n : Z) :
  distinct_keys counts -> In (k, n) counts -> count_lookup k counts = Some n.
Proof.
  induction counts as [|[k0 n0] counts IH]; [intros _ []|].
  cbn [distinct_keys count_lookup]. intros [Hnone Hrest] [E|Hin].
  - injection E as -> ->. now rewrite String.eqb_refl.
  - specialize (IH Hrest Hin).
    destruct (String.eqb_spec k k0) as [->|_]; [congruence | exact IH].
Qed.

Lemma entry_of_lookup (counts : list (string * Z)) (k : string) (n : Z) :
  count_lookup k counts = Some n -> In (k, n) counts.
Proof.
  induction counts as [|[k0 n0] counts IH]; [discriminate|].
  cbn [count_lookup]. destruct (String.eqb_spec k k0) as [->|_].
  - intros E. injection E as ->. now left.
  - intros E. right. now apply IH.
Qed.

Lemma counts_of_incr (seen : list OCRResult.t) (counts : list (string * Z))
  (r : OCRResult.t) :
  counts_of seen counts ->
  counts_of (seen ++ [r]) (PyDict.incr (OCRResult.language_detected r) counts).
Proof.
  intros [Hd Hl]. split; [now apply incr_distinct|].
  intros k. rewrite lookup_incr, pages_in_snoc.
  pose proof (pages_in_nonneg k seen) as Hk.
  destruct (String.eqb_spec k (OCRResult.language_detected r)) as [->|Hne].
  - rewrite String.eqb_refl, Hl.
    destruct (Z.eqb_spec (pages_in (OCRResult.language_detected r) seen) 0)
      as [E|E]; cbn [default_val].
    + rewrite E. reflexivity.
    + destruct (Z.eqb_spec
                  (pages_in (OCRResult.language_detected r) seen + 1) 0);
        [lia | reflexivity].
  - destruct (String.eqb_spec (OCRResult.language_detected r) k) as [E|_];
      [congruence|].
    rewrite Z.add_0_r. apply Hl.
Qed.

Lemma counts_of_fold (l seen : list OCRResult.t)
  (counts : list (string * Z)) :
  counts_of seen counts ->
  counts_of (seen ++ l)
    (fold_left
       (fun counts r => PyDict.incr (OCRResult.language_detected r) counts)
       l counts).
Proof.
  revert seen counts. induction l as [|r l IH]; intros seen counts H.
  - now rewrite app_nil_r.
  - cbn [fold_left]. replace (seen ++ r :: l) with ((seen ++ [r]) ++ l)
      by now rewrite <- app_assoc.
    apply IH. now apply counts_of_incr.
Qed.

Lemma max_from (counts : list (string * Z)) (b : string * Z) :
  exists item,
    fold_left
      (fun best item =>
         match best with
         | None => Some item
         | Some b => if snd b <? snd item then Some item else Some b
         end) counts (Some b) = Some item
    /\ (item = b \/ In item counts)
    /\ snd b <= snd item
    /\ forall it, In it counts -> snd it <= snd item.
Proof.
  revert b. induction counts as [|c counts IH]; intros b.
  - exists b. cbn. repeat split; [now left | lia | intros it []].
  - cbn [fold_left]. destruct (Z.ltb_spec (snd b) (snd c)) as [Hlt|Hge].
    + destruct (IH c) as (item & -> & Hin & Hc & Hall). exists item.
      split; [reflexivity|]. split; [right; destruct Hin; [left; congruence | now right]|].
      split; [lia|]. intros it [<-|Hit]; [exact Hc | now apply Hall].
    + destruct (IH b) as (item & -> & Hin & Hb & Hall). exists item.
      split; [reflexivity|]. split; [destruct Hin; [now left | right; now right]|].
      split; [exact Hb|]. intros it [<-|Hit]; [lia | now apply Hall].
Qed.

Lemma max_by_value_spec (counts : list (string * Z)) :
  counts <> [] ->
  exists item,
    PyDict.max_by_value counts = Some item
    /\ In item counts
    /\ forall it, In it counts -> snd it <= snd item.
Proof.
  destruct counts as [|c counts]; [congruence|]. intros _.
  unfold PyDict.max_by_value. cbn [fold_left].
  destruct (max_from counts c) as (item & -> & Hin & Hc & Hall).
  exists item. split; [reflexivity|].
  split; [destruct Hin; [left; congruence | now right]|].
  intros it [<-|Hit]; [exact Hc | now apply Hall].
Qed.

(** The first most frequent language of a non-empty list of pages. *)
Lemma most_frequent_language (ocr_results : list OCRResult.t) :
  ocr_results <> [] ->
  exists lang n,
    PyDict.max_by_value
      (fold_left
         (fun counts r => PyDict.incr (OCRResult.language_detected r) counts)
         ocr_results []) = Some (lang, n)
    /\ n = pages_in lang ocr_results
    /\ (exists r, In r ocr_results /\ OCRResult.language_detected r = lang)
    /\ forall other, pages_in other ocr_results <= pages_in lang ocr_results.
Proof.
  intros Hne.
  assert (Hinv : counts_of ocr_results
                   (fold_left
                      (fun counts r =>
                         PyDict.incr (OCRResult.language_detected r) counts)
                      ocr_results [])).
  { apply (counts_of_fold ocr_results [] []). split; [exact I|].
    intros k. reflexivity. }
  destruct Hinv as [Hd Hl].
  set (counts := fold_left _ ocr_results []) in *.
  assert (Hcounts : counts <> []).
  { destruct ocr_results as [|r rs]; [congruence|].
    specialize (Hl (OCRResult.language_detected r)).
    assert (Hpos : 0 < pages_in (OCRResult.language_detected r) (r :: rs)).
    { apply pages_in_positive. exists r. split; [now left | reflexivity]. }
    destruct (Z.eqb_spec (pages_in (OCRResult.language_detected r) (r :: rs))
                0); [lia|].
    intros E. rewrite E in Hl. discriminate. }
  destruct (max_by_value_spec counts Hcounts)
    as ([lang n] & Hmax & Hin & Hall).
  pose proof (lookup_of_entry counts lang n Hd Hin) as Hlang.
  rewrite Hl in Hlang.
  destruct (Z.eqb_spec (pages_in lang ocr_results) 0) as [E|E];
    [discriminate|].
  injection Hlang as Hn. pose proof (pages_in_nonneg lang ocr_results).
  exists lang, n. split; [exact Hmax|]. split; [now symmetry|].
  split; [apply pages_in_positive; lia|].
  intros other. specialize (Hl other).
  destruct (Z.eqb_spec (pages_in other ocr_results) 0) as [E'|E']; [lia|].
  apply entry_of_lookup in Hl. specialize (Hall _ Hl). simpl in Hall. lia.
Qed.

End LanguageFacts.

(** X21.  The primary language of the OCR pages is a language that occurs
    on the largest number of pages; without pages it is 'en' for the
    coordinator and 'unknown' in the context handed to the agent. *)
Theorem primary_language_most_frequent (ocr_results : list OCRResult.t) :
  let lang := ChunkingService._detect_primary_language ocr_results in
  (ocr_results = [] -> lang = "en")
  /\ (ocr_results <> [] ->
      (exists r, In r ocr_results /\ OCRResult.language_detected r = lang)
      /\ (forall other,
             pages_in other ocr_results <= pages_in lang ocr_results)
      /\ PyDict.max_by_value (AgenticChunker.language_counts ocr_results)
         = Some (lang, pages_in lang ocr_results)).
Proof.
  cbv zeta. unfold ChunkingService._detect_primary_language,
    AgenticChunker.language_counts.
  split; [intros ->; reflexivity|].
  intros Hne.
  destruct (most_frequent_language ocr_results Hne)
    as (lang & n & -> & -> & Hex & Hall).
  repeat split; assumption.
Qed.


